(** * The feature scheduler: telemetry snapshot and scripted surveys

    A shallow embedding of
    - [features/conditions.py]      (class [Conditions]),
    - [surveys/scripted_surveys.py] (classes [Scripted_survey] and
      [Pairs_survey_scripted]),
    - [surveys/dd_surveys.py]       (class [Deep_drilling_survey]).

    Conventions.
    - Python floats (epochs in days, angles in radians, seconds) are
      rationals [Q]; [<], [<=] and [==] on them are [Qltb], [Qle_bool] and
      [Qeq_bool].  Rounding and NaN are outside the model.
    - An object is a record of its attributes; a method that mutates the
      object returns the new record.
    - A Python exception is the [Raise] branch of [result].
    - Collaborators that live outside these three files (the pixelisation,
      the coordinate transform, the resampler, the photometric model, the
      pairing feature, the feasibility chain) are variables of the section
      that uses them. *)

From Stdlib Require Import QArith Qabs Lqa.
From stdpp Require Import base list strings sorting.

Set Default Proof Using "Type".

(** ** Numbers and Python primitives *)

Definition Qltb (x y : Q) : bool := negb (Qle_bool y x).

(** The exceptions the embedded code can raise. *)
Inductive exn : Set := TypeError | KeyError | IndexError | ValueError.

Inductive result (A : Type) : Type :=
| Ok (a : A)
| Raise (e : exn).
Arguments Ok {A} a.
Arguments Raise {A} e.

Definition bind {A B : Type} (r : result A) (k : A -> result B) : result B :=
  match r with
  | Ok a => k a
  | Raise e => Raise e
  end.

Notation "'try!' x ':=' r 'in' k" := (bind r (fun x => k))
  (at level 10, x name, r at level 100, k at level 200).

(** [-np.inf] or a finite reward. *)
Inductive Reward : Type :=
| NegInf
| Finite (q : Q).

(** [needle in hay] on two Python strings: substring test. *)
Fixpoint py_in_str (needle hay : string) : bool :=
  String.prefix needle hay
  || match hay with
     | EmptyString => false
     | String _ hay' => py_in_str needle hay'
     end.

(** [~b] on a Python [bool] is integer complement: [~True = -2] and
    [~False = -1]. *)
Definition py_invert (b : bool) : Z := if b then (-2)%Z else (-1)%Z.

(** [w & n] for a numpy boolean [w] and a Python integer [n]. *)
Definition np_and_int (w : bool) (n : Z) : Z := Z.land (Z.b2z w) n.

Definition truthy (n : Z) : bool := negb (n =? 0)%Z.

(** [np.max] of an array; the empty array raises. *)
Definition np_max (l : list Q) : result Q :=
  match l with
  | [] => Raise ValueError
  | x :: l' => Ok (foldl (fun m y => if Qltb m y then y else m) x l')
  end.

(** [a[idx]] with a list of integer indices. *)
Fixpoint np_take {A : Type} (a : list A) (idx : list nat) : result (list A) :=
  match idx with
  | [] => Ok []
  | i :: idx' =>
      match a !! i with
      | None => Raise IndexError
      | Some x => try! xs := np_take a idx' in Ok (x :: xs)
      end
  end.

(** [np.where(mask)[0]]: the positions of the true entries, ascending. *)
Fixpoint np_where_from (i : nat) (mask : list bool) : list nat :=
  match mask with
  | [] => []
  | b :: mask' =>
      if b then i :: np_where_from (S i) mask' else np_where_from (S i) mask'
  end.

Definition np_where (mask : list bool) : list nat := np_where_from 0 mask.

(** ** Observations

    One row of the observation dtype, with the columns these files read or
    write. *)
Module Obs.
Record t : Type := mk {
    RA : Q;
    dec : Q;
    mjd : Q;
    flush_by_mjd : Q;
    exptime : Q;
    filter : string;
    nexp : Q;
    note : string;
    field_id : Z
  }.

Definition set_mjd (v : Q) (o : t) : t :=
    mk (RA o) (dec o) v (flush_by_mjd o) (exptime o) (filter o) (nexp o)
       (note o) (field_id o).
Definition set_flush_by_mjd (v : Q) (o : t) : t :=
    mk (RA o) (dec o) (mjd o) v (exptime o) (filter o) (nexp o)
       (note o) (field_id o).
Definition set_filter (v : string) (o : t) : t :=
    mk (RA o) (dec o) (mjd o) (flush_by_mjd o) (exptime o) v (nexp o)
       (note o) (field_id o).
Definition set_note (v : string) (o : t) : t :=
    mk (RA o) (dec o) (mjd o) (flush_by_mjd o) (exptime o) (filter o) (nexp o)
       v (field_id o).
End Obs.

(** A value of a masked per-pixel map: [hp.UNSEEN] pixels are masked. *)
Inductive skyval : Type :=
| Masked
| Depth (q : Q).

(** What a survey reads from [conditions] during one scheduling cycle.  The
    maps are taken as populated: a per-pixel map is a function of the pixel
    index and [M5Depth] a function of the filter name. *)
Module Snapshot.
Record t : Type := mk {
    mjd : Q;
    lmst : Q;
    slewtime : nat -> Q;
    current_filter : option string;
    mounted_filters : list string;
    M5Depth : string -> nat -> skyval
  }.
End Snapshot.

(** ** [Pairs_survey_scripted]: the paired-observation queue *)
Module Pairs_survey_scripted.

(** The attributes set by [__init__]; angles already in radians and time
    spans already in days.  [PairMap] is the state of the
    [features.Pair_in_night] object held in [extra_features['Pair_map']]. *)
Record t (PairMap : Type) : Type := mk {
  nside : nat;
  min_alt : Q;
  max_alt : Q;
  lat : Q;
  note : string;
  ttol : Q;
  dt : Q;
  max_slew_to_pair : Q;
  reward_val : Q;
  filt_to_pair : string;
  ignore_obs : list string;
  observing_queue : list Obs.t;
  Pair_map : PairMap;
  reward : Reward;
  reward_checked : bool
}.
Arguments mk {PairMap}.
Arguments nside {PairMap}.
Arguments min_alt {PairMap}.
Arguments max_alt {PairMap}.
Arguments lat {PairMap}.
Arguments note {PairMap}.
Arguments ttol {PairMap}.
Arguments dt {PairMap}.
Arguments max_slew_to_pair {PairMap}.
Arguments reward_val {PairMap}.
Arguments filt_to_pair {PairMap}.
Arguments ignore_obs {PairMap}.
Arguments observing_queue {PairMap}.
Arguments Pair_map {PairMap}.
Arguments reward {PairMap}.
Arguments reward_checked {PairMap}.

(** The 5-tuple returned by [_check_observation]. *)
Record check : Type := mk_check {
  valid : bool;
  in_time_window : bool;
  infilt : bool;
  in_slew_window : bool;
  is_observable : bool
}.

Section Methods.
(** [lsst.sims.utils._raDec2Hpid nside ra dec]: the pixel of a position. *)
Variable _raDec2Hpid : nat -> Q -> Q -> nat.
(** [lsst.sims.utils._approx_RaDec2AltAz ra dec lat None mjd lmst]: the
    (altitude, azimuth) of a position. *)
Variable _approx_RaDec2AltAz : Q -> Q -> Q -> Q -> Q -> Q * Q.
(** The pairing feature: its per-pixel counter and its update. *)
Variable PairMap : Type.
Variable feature : PairMap -> list Q.
Variable feature_add_observation :
  PairMap -> Obs.t -> option (list nat) -> PairMap.

Definition set_queue (q : list Obs.t) (s : t PairMap) : t PairMap :=
  mk (nside s) (min_alt s) (max_alt s) (lat s) (note s) (ttol s) (dt s)
     (max_slew_to_pair s) (reward_val s) (filt_to_pair s) (ignore_obs s)
     q (Pair_map s) (reward s) (reward_checked s).

Definition set_reward (r : Reward) (s : t PairMap) : t PairMap :=
  mk (nside s) (min_alt s) (max_alt s) (lat s) (note s) (ttol s) (dt s)
     (max_slew_to_pair s) (reward_val s) (filt_to_pair s) (ignore_obs s)
     (observing_queue s) (Pair_map s) r (reward_checked s).

Definition set_reward_checked (b : bool) (s : t PairMap) : t PairMap :=
  mk (nside s) (min_alt s) (max_alt s) (lat s) (note s) (ttol s) (dt s)
     (max_slew_to_pair s) (reward_val s) (filt_to_pair s) (ignore_obs s)
     (observing_queue s) (Pair_map s) (reward s) b.

Definition set_Pair_map (pm : PairMap) (s : t PairMap) : t PairMap :=
  mk (nside s) (min_alt s) (max_alt s) (lat s) (note s) (ttol s) (dt s)
     (max_slew_to_pair s) (reward_val s) (filt_to_pair s) (ignore_obs s)
     (observing_queue s) pm (reward s) (reward_checked s).

(** [np.abs(observation['mjd'] - conditions.mjd) < self.ttol] *)
Definition within_ttol (s : t PairMap) (o : Obs.t) (c : Snapshot.t) : bool :=
  Qltb (Qabs (Obs.mjd o - Snapshot.mjd c)) (ttol s).

Definition _check_alts (s : t PairMap) (o : Obs.t) (c : Snapshot.t) : bool :=
  let alt := fst (_approx_RaDec2AltAz (Obs.RA o) (Obs.dec o) (lat s)
                    (Snapshot.mjd c) (Snapshot.lmst c)) in
  let in_range := np_where [Qltb alt (max_alt s) && Qltb (min_alt s) alt] in
  if (0 <? length in_range)%nat then true else false.

(** The value read at the candidate's pixel in the candidate's filter. *)
Definition skyval_at (s : t PairMap) (o : Obs.t) (c : Snapshot.t) : skyval :=
  let hpid := _raDec2Hpid (nside s) (Obs.RA o) (Obs.dec o) in
  Snapshot.M5Depth c (Obs.filter o) hpid.

(** [skyval > 0] on a masked value is itself masked, and a masked value is
    false in an [if]. *)
Definition _check_mask (s : t PairMap) (o : Obs.t) (c : Snapshot.t) : bool :=
  match skyval_at s o c with
  | Masked => false
  | Depth v => if Qltb 0 v then true else false
  end.

(** The body of [while stale].  [in_window] is the variable assigned before
    the loop; the loop never assigns it. *)
Fixpoint purge_loop (s : t PairMap) (c : Snapshot.t) (in_window : bool)
    (queue : list Obs.t) : list Obs.t :=
  match queue with
  | [] => []
  | head :: rest =>
      if Qltb (Obs.mjd head) (Snapshot.mjd c) && negb in_window
      then purge_loop s c in_window rest
      else if truthy (np_and_int in_window (py_invert (_check_mask s head c)))
      then purge_loop s c in_window rest
      else if truthy (np_and_int in_window (py_invert (_check_alts s head c)))
      then purge_loop s c in_window rest
      else queue
  end.

Definition _purge_queue (s : t PairMap) (c : Snapshot.t) : t PairMap :=
  match observing_queue s with
  | [] => s
  | head :: _ =>
      let in_window := within_ttol s head c in
      set_queue (purge_loop s c in_window (observing_queue s)) s
  end.

Definition _check_observation (s : t PairMap) (o : Obs.t) (c : Snapshot.t)
    : check :=
  let delta_t := (Obs.mjd o - Snapshot.mjd c)%Q in
  let obs_hp := _raDec2Hpid (nside s) (Obs.RA o) (Obs.dec o) in
  let slewtime := Snapshot.slewtime c obs_hp in
  let in_slew_window :=
    Qle_bool slewtime (max_slew_to_pair s) || Qltb delta_t 0 in
  let in_time_window := Qltb (Qabs delta_t) (ttol s) in
  let infilt :=
    match Snapshot.current_filter c with
    | None => true
    | Some f => py_in_str f (filt_to_pair s)
    end in
  let is_observable := _check_mask s o c in
  mk_check (in_time_window && infilt && in_slew_window && is_observable)
           in_time_window infilt in_slew_window is_observable.

(** [for indx in range(len(self.observing_queue))] of
    [calc_reward_function], over the indices still to visit. *)
Fixpoint reward_loop (s : t PairMap) (c : Snapshot.t) (indices : list nat)
    : Reward :=
  match indices with
  | [] => NegInf
  | indx :: more =>
      match observing_queue s !! indx with
      | None => NegInf
      | Some o =>
          let check := _check_observation s o c in
          if valid check then Finite (reward_val s)
          else if negb (in_time_window check) then NegInf
          else reward_loop s c more
      end
  end.

Definition calc_reward_function (s : t PairMap) (c : Snapshot.t)
    : Reward * t PairMap :=
  let s := _purge_queue s c in
  let result := reward_loop s c (seq 0 (length (observing_queue s))) in
  (result, set_reward_checked true (set_reward result s)).

(** The same loop in [generate_observations]; on a valid entry it pops the
    entry, tags it and overrides its filter. *)
Fixpoint generate_loop (s : t PairMap) (c : Snapshot.t) (indices : list nat)
    : list Obs.t * t PairMap :=
  match indices with
  | [] => ([], s)
  | indx :: more =>
      match observing_queue s !! indx with
      | None => ([], s)
      | Some o =>
          let check := _check_observation s o c in
          if valid check then
            let s' := set_queue (delete indx (observing_queue s)) s in
            let result := Obs.set_note ("pair(" +:+ note s +:+ ")") o in
            let result :=
              match Snapshot.current_filter c with
              | Some f => Obs.set_filter f result
              | None => result
              end in
            ([result], s')
          else if negb (in_time_window check) then ([], s)
          else generate_loop s c more
      end
  end.

Definition generate_observations (s : t PairMap) (c : Snapshot.t)
    : list Obs.t * t PairMap :=
  let s := _purge_queue s c in
  generate_loop s c (seq 0 (length (observing_queue s))).

(** [np.any([ignore in str(observation['note']) for ignore in ...])] *)
Definition to_ignore (s : t PairMap) (o : Obs.t) : bool :=
  existsb (fun ignore => py_in_str ignore (Obs.note o)) (ignore_obs s).

(** [observation['filter'][0] in self.filt_to_pair]: the first character of
    the executed row's filter name; an empty name has no first character. *)
Definition filter_to_pair (s : t PairMap) (o : Obs.t) : result bool :=
  match Obs.filter o with
  | EmptyString => Raise IndexError
  | String ch _ => Ok (py_in_str (String ch EmptyString) (filt_to_pair s))
  end.

(** [np.max(self.extra_features['Pair_map'].feature[indx])]; with
    [indx=None] the index is [np.newaxis] and the maximum runs over the
    whole map. *)
Definition pair_count (pm : PairMap) (indx : option (list nat)) : result Q :=
  try! counts := match indx with
                 | None => Ok (feature pm)
                 | Some ix => np_take (feature pm) ix
                 end in
  np_max counts.

(** [add_observation]: the executed [observation] is one row;
    [str(observation['note'])] is its annotation. *)
Definition add_observation (s : t PairMap) (o : Obs.t)
    (indx : option (list nat)) : result (t PairMap) :=
  if to_ignore s o then Ok s
  else
    let s := set_Pair_map (feature_add_observation (Pair_map s) o indx) s in
    let s := set_reward_checked false s in
    try! wanted := filter_to_pair s o in
    if wanted then
      try! paired := pair_count (Pair_map s) indx in
      if Qltb paired 1 then
        let obs_to_queue := Obs.set_mjd (Obs.mjd o + dt s) o in
        Ok (set_queue (observing_queue s ++ [obs_to_queue]) s)
      else Ok s
    else Ok s.
End Methods.
End Pairs_survey_scripted.

(** ** [Scripted_survey]: a script of wanted observations *)
Module Scripted_survey.

(** The attributes after [__init__] and [set_script].  [altaz] is the
    altitude map of [extra_features['altaz']], or [None] when the
    dictionary has no such key ([__init__] sets it to the empty dict). *)
Record t : Type := mk {
  nside : nat;
  min_alt : Q;
  max_alt : Q;
  reward_val : Q;
  reward : Reward;
  ignore_obs : string;
  altaz : option (list Q);
  mjd_tol : Q;
  obs_wanted : list Obs.t;
  obs_log : list bool;
  reward_checked : bool
}.

Section Methods.
Variable _raDec2Hpid : nat -> Q -> Q -> nat.

Definition set_obs_log (log : list bool) (s : t) : t :=
  mk (nside s) (min_alt s) (max_alt s) (reward_val s) (reward s)
     (ignore_obs s) (altaz s) (mjd_tol s) (obs_wanted s) log
     (reward_checked s).

Definition set_reward_checked (b : bool) (s : t) : t :=
  mk (nside s) (min_alt s) (max_alt s) (reward_val s) (reward s)
     (ignore_obs s) (altaz s) (mjd_tol s) (obs_wanted s) (obs_log s) b.

Definition set_reward (r : Reward) (s : t) : t :=
  mk (nside s) (min_alt s) (max_alt s) (reward_val s) r
     (ignore_obs s) (altaz s) (mjd_tol s) (obs_wanted s) (obs_log s)
     (reward_checked s).

(** [set_script]: tolerance from minutes to days, a fresh all-false log. *)
Definition set_script (wanted : list Obs.t) (mjd_tol_min : Q) (s : t) : t :=
  mk (nside s) (min_alt s) (max_alt s) (reward_val s) (reward s)
     (ignore_obs s) (altaz s) (mjd_tol_min / 60 / 24)%Q wanted
     (replicate (length wanted) false) (reward_checked s).

Definition add_to_script (o : Obs.t) (mjd_tol_min : Q) (s : t) : t :=
  mk (nside s) (min_alt s) (max_alt s) (reward_val s) (reward s)
     (ignore_obs s) (altaz s) (mjd_tol_min / 60 / 24)%Q (obs_wanted s ++ [o])
     (obs_log s ++ [false]) (reward_checked s).

(** [(np.abs(dt) < self.mjd_tol) & (~self.obs_log)] with
    [dt = self.obs_wanted['mjd'] - now]; arrays of different sizes do not
    broadcast. *)
Definition window_mask (s : t) (now : Q) : result (list bool) :=
  if (length (obs_wanted s) =? length (obs_log s))%nat then
    Ok (zip_with
          (fun w logged =>
             Qltb (Qabs (Obs.mjd w - now)) (mjd_tol s) && negb logged)
          (obs_wanted s) (obs_log s))
  else Raise ValueError.

(** The three-column comparison of [add_observation]. *)
Definition same_target (w o : Obs.t) : bool :=
  Qeq_bool (Obs.RA w) (Obs.RA o) && Qeq_bool (Obs.dec w) (Obs.dec o)
  && String.eqb (Obs.filter w) (Obs.filter o).

(** [for match in time_matches: ... break] *)
Fixpoint match_loop (s : t) (o : Obs.t) (time_matches : list nat)
    (log : list bool) : list bool :=
  match time_matches with
  | [] => log
  | match_ :: more =>
      match obs_wanted s !! match_ with
      | None => log
      | Some w =>
          if same_target w o then <[match_ := true]> log
          else match_loop s o more log
      end
  end.

(** [add_observation]: the executed [observation] is one row, its
    annotation a string.  The loop over [extra_features] writes none of the
    attributes of [t]. *)
Definition add_observation (s : t) (o : Obs.t) : result t :=
  if negb (py_in_str (ignore_obs s) (Obs.note o)) then
    let s := set_reward_checked false s in
    try! mask := window_mask s (Obs.mjd o) in
    let time_matches := np_where mask in
    Ok (set_obs_log (match_loop s o time_matches (obs_log s)) s)
  else Ok s.

Definition _slice2obs (row : Obs.t) : Obs.t :=
  Obs.mk (Obs.RA row) (Obs.dec row) 0 0 (Obs.exptime row) (Obs.filter row)
         (Obs.nexp row) (Obs.note row) (Obs.field_id row).

Definition _check_alts (s : t) (indices : list nat) : result (list nat) :=
  try! rows := np_take (obs_wanted s) indices in
  let hp_ids := map (fun w => _raDec2Hpid (nside s) (Obs.RA w) (Obs.dec w))
                    rows in
  try! alt_map := match altaz s with
                  | None => Raise KeyError
                  | Some m => Ok m
                  end in
  try! alts := np_take alt_map hp_ids in
  let in_range :=
    np_where (map (fun a => Qltb a (max_alt s) && Qltb (min_alt s) a) alts) in
  np_take indices in_range.

(** A call [self._check_list( *args )]: the method is declared
    [_check_list(self, conditions)], so any other number of positional
    arguments is a [TypeError] raised before the body runs. *)
Definition _check_list (s : t) (args : list Snapshot.t)
    : result (option Obs.t) :=
  match args with
  | [conditions] =>
      try! mask := window_mask s (Snapshot.mjd conditions) in
      let matches := np_where mask in
      try! matches := _check_alts s matches in
      match matches with
      | first :: _ =>
          match obs_wanted s !! first with
          | Some row => Ok (Some (_slice2obs row))
          | None => Raise IndexError
          end
      | [] => Ok None
      end
  | _ => Raise TypeError
  end.

(** [calc_reward_function] calls [self._check_list()] with no argument. *)
Definition calc_reward_function (s : t) (conditions : Snapshot.t)
    : result (Reward * t) :=
  try! observation := _check_list s [] in
  match observation with
  | None => Ok (NegInf, set_reward NegInf s)
  | Some _ => Ok (Finite (reward_val s), set_reward (Finite (reward_val s)) s)
  end.

Definition generate_observations (s : t) (conditions : Snapshot.t)
    : result (list (option Obs.t)) :=
  try! observation := _check_list s [conditions] in
  Ok [observation].
End Methods.
End Scripted_survey.

(** ** [Conditions]: the telemetry snapshot with its lazy caches *)
Module Conditions.

(** A Python dict with string keys, in insertion order. *)
Definition dict (V : Type) : Type := list (string * V).

Fixpoint dict_get {V : Type} (k : string) (d : dict V) : option V :=
  match d with
  | [] => None
  | (k', v) :: d' => if String.eqb k k' then Some v else dict_get k d'
  end.

(** [d[k] = v]: overwrite in place, or append a new key. *)
Fixpoint dict_set {V : Type} (k : string) (v : V) (d : dict V) : dict V :=
  match d with
  | [] => [(k, v)]
  | (k', v') :: d' =>
      if String.eqb k k' then (k, v) :: d' else (k', v') :: dict_set k v d'
  end.

(** [hp.UNSEEN = -1.6375e30] *)
Definition UNSEEN : Q := (- (16375 * 10 ^ 26))%Q.

(** [hp.nside2npix] *)
Definition nside2npix (nside : nat) : nat := 12 * nside * nside.

(** The attributes of a [Conditions] object that [conditions.py] reads or
    writes through a property or a [calc_] method.  [None] is Python's
    [None]. *)
Record t : Type := mk {
  nside : nat;
  ra : list Q;
  dec : list Q;
  latitude_rad : Q;
  longitude_rad : Q;
  exptime : Q;
  unseen_map : list Q;
  _mjd : option Q;
  _alt : option (list Q);
  _az : option (list Q);
  _lmst : option Q;
  _HA : option (list Q);
  _bulk_cloud : option (list Q);
  _slewtime : option (list Q);
  _airmass : option (list Q);
  _skybrightness : dict (list Q);
  _FWHMeff : dict (list Q);
  _M5Depth : option (dict (list skyval))
}.

(** The raw inputs in one group and the caches in another, to write the
    attribute updates once. *)
Definition with_time (mjd lmst : option Q) (c : t) : t :=
  mk (nside c) (ra c) (dec c) (latitude_rad c) (longitude_rad c) (exptime c)
     (unseen_map c) mjd (_alt c) (_az c) lmst (_HA c) (_bulk_cloud c)
     (_slewtime c) (_airmass c) (_skybrightness c) (_FWHMeff c) (_M5Depth c).

Definition with_altaz (alt az : option (list Q)) (c : t) : t :=
  mk (nside c) (ra c) (dec c) (latitude_rad c) (longitude_rad c) (exptime c)
     (unseen_map c) (_mjd c) alt az (_lmst c) (_HA c) (_bulk_cloud c)
     (_slewtime c) (_airmass c) (_skybrightness c) (_FWHMeff c) (_M5Depth c).

Definition with_HA (ha : option (list Q)) (c : t) : t :=
  mk (nside c) (ra c) (dec c) (latitude_rad c) (longitude_rad c) (exptime c)
     (unseen_map c) (_mjd c) (_alt c) (_az c) (_lmst c) ha (_bulk_cloud c)
     (_slewtime c) (_airmass c) (_skybrightness c) (_FWHMeff c) (_M5Depth c).

Definition with_maps (cloud slew air : option (list Q)) (c : t) : t :=
  mk (nside c) (ra c) (dec c) (latitude_rad c) (longitude_rad c) (exptime c)
     (unseen_map c) (_mjd c) (_alt c) (_az c) (_lmst c) (_HA c) cloud slew air
     (_skybrightness c) (_FWHMeff c) (_M5Depth c).

Definition with_dicts (sky fwhm : dict (list Q)) (c : t) : t :=
  mk (nside c) (ra c) (dec c) (latitude_rad c) (longitude_rad c) (exptime c)
     (unseen_map c) (_mjd c) (_alt c) (_az c) (_lmst c) (_HA c)
     (_bulk_cloud c) (_slewtime c) (_airmass c) sky fwhm (_M5Depth c).

Definition with_M5Depth (m5 : option (dict (list skyval))) (c : t) : t :=
  mk (nside c) (ra c) (dec c) (latitude_rad c) (longitude_rad c) (exptime c)
     (unseen_map c) (_mjd c) (_alt c) (_az c) (_lmst c) (_HA c)
     (_bulk_cloud c) (_slewtime c) (_airmass c) (_skybrightness c)
     (_FWHMeff c) m5.

(** [a[idx] = vals] with equally long [idx] and [vals]. *)
Fixpoint np_put {A : Type} (a : list A) (idx : list nat) (vals : list A)
    : result (list A) :=
  match idx, vals with
  | i :: idx', v :: vals' =>
      if (i <? length a)%nat then np_put (<[i := v]> a) idx' vals'
      else Raise IndexError
  | _, _ => Ok a
  end.

Section Methods.
(** [healpy.ud_grade map nside_out]: the resampler; it raises on a map that
    is not a sky map. *)
Variable ud_grade : list Q -> nat -> result (list Q).
(** [_approx_RaDec2AltAz ra dec lat lon mjd] on the whole grid. *)
Variable _approx_RaDec2AltAz :
  list Q -> list Q -> Q -> Q -> option Q -> result (list Q * list Q).
(** [m5_flat_sed filter sky fwhm exptime airmass] at one pixel. *)
Variable m5_flat_sed : string -> Q -> Q -> Q -> Q -> Q.
(** [np.radians] and [2.*np.pi] *)
Variable radians : Q -> Q.
Variable two_pi : Q.

(** *** Time, altitude and azimuth *)

Definition mjd (c : t) : option Q := _mjd c.

Definition mjd_set (value : Q) (c : t) : t :=
  with_altaz None None (with_time (Some value) (_lmst c) c).

Definition calc_altAz (c : t) : result t :=
  try! altaz := _approx_RaDec2AltAz (ra c) (dec c) (latitude_rad c)
                  (longitude_rad c) (_mjd c) in
  Ok (with_altaz (Some (fst altaz)) (Some (snd altaz)) c).

(** A property read returns the value (or the exception) and the object
    afterwards. *)
Definition alt (c : t) : result (option (list Q)) * t :=
  match _alt c with
  | None =>
      match calc_altAz c with
      | Ok c' => (Ok (_alt c'), c')
      | Raise e => (Raise e, c)
      end
  | Some _ => (Ok (_alt c), c)
  end.

Definition az (c : t) : result (option (list Q)) * t :=
  match _az c with
  | None =>
      match calc_altAz c with
      | Ok c' => (Ok (_az c'), c')
      | Raise e => (Raise e, c)
      end
  | Some _ => (Ok (_az c), c)
  end.

(** *** Local sidereal time and hour angle *)

Definition lmst (c : t) : option Q := _lmst c.

Definition lmst_set (value : Q) (c : t) : t :=
  with_HA None (with_time (_mjd c) (Some value) c).

(** [self._HA[np.where(self._HA < 0)] += 2.*np.pi].  The sum is exact
    here; in double precision a difference just below zero plus 2 pi can
    round to 2 pi itself, so of the bounds on the result only the closed
    ones carry over to the program. *)
Definition calc_HA (c : t) : result t :=
  match _lmst c with
  | None => Raise TypeError
  | Some l =>
      let ha := map (fun r => (radians (l * 360 / 24) - r)%Q) (ra c) in
      let ha := map (fun h => if Qltb h 0 then (h + two_pi)%Q else h) ha in
      Ok (with_HA (Some ha) c)
  end.

Definition HA (c : t) : result (option (list Q)) * t :=
  match _HA c with
  | None =>
      match calc_HA c with
      | Ok c' => (Ok (_HA c'), c')
      | Raise e => (Raise e, c)
      end
  | Some _ => (Ok (_HA c), c)
  end.

(** *** Per-pixel raw maps *)

Definition bulk_cloud (c : t) : option (list Q) := _bulk_cloud c.

Definition bulk_cloud_set (value : list Q) (c : t) : result t :=
  try! m := ud_grade value (nside c) in
  Ok (with_maps (Some m) (_slewtime c) (_airmass c) c).

Definition slewtime (c : t) : option (list Q) := _slewtime c.

Definition slewtime_set (value : list Q) (c : t) : result t :=
  try! m := ud_grade value (nside c) in
  Ok (with_maps (_bulk_cloud c) (Some m) (_airmass c) c).

Definition airmass (c : t) : option (list Q) := _airmass c.

Definition airmass_set (value : list Q) (c : t) : result t :=
  try! m := ud_grade value (nside c) in
  Ok (with_M5Depth None (with_maps (_bulk_cloud c) (_slewtime c) (Some m) c)).

Definition skybrightness (c : t) : dict (list Q) := _skybrightness c.

(** [for key in indict: self._skybrightness[key] = hp.ud_grade(...)]; the
    keys written before a raising one stay written. *)
Fixpoint skybrightness_loop (indict : dict (list Q)) (c : t)
    : option exn * t :=
  match indict with
  | [] => (None, c)
  | (key, value) :: more =>
      match ud_grade value (nside c) with
      | Raise e => (Some e, c)
      | Ok m =>
          skybrightness_loop more
            (with_dicts (dict_set key m (_skybrightness c)) (_FWHMeff c) c)
      end
  end.

Definition skybrightness_set (indict : dict (list Q)) (c : t)
    : option exn * t :=
  match skybrightness_loop indict c with
  | (Some e, c') => (Some e, c')
  | (None, c') => (None, with_M5Depth None c')
  end.

Definition FWHMeff (c : t) : dict (list Q) := _FWHMeff c.

(** [for key in indict: self._FWHMeff[key] = indict[key]] *)
Definition FWHMeff_set (indict : dict (list Q)) (c : t) : t :=
  let fwhm :=
    foldl (fun d kv => dict_set (fst kv) (snd kv) d) (_FWHMeff c) indict in
  with_M5Depth None (with_dicts (_skybrightness c) fwhm c).

(** *** Limiting magnitude *)

(** One turn of the loop of [calc_M5Depth], after
    [self._M5Depth[filtername] = self.unseen_map.copy()]: the masked map of
    one filter.  [ma.masked_values] masks the values equal to [hp.UNSEEN]
    (up to a float tolerance, exactly here). *)
Definition m5_row (c : t) (filtername : string) (sky : list Q)
    : result (list skyval) :=
  let good := np_where (map (fun v => negb (Qeq_bool v UNSEEN)) sky) in
  try! sky_good := np_take sky good in
  try! fwhm := match dict_get filtername (_FWHMeff c) with
               | None => Raise KeyError
               | Some a => np_take a good
               end in
  try! air := match _airmass c with
              | None => Raise TypeError
              | Some a => np_take a good
              end in
  let m5 := zip_with (fun sf a => m5_flat_sed filtername (fst sf) (snd sf)
                                    (exptime c) a)
              (zip sky_good fwhm) air in
  try! filled := np_put (unseen_map c) good m5 in
  Ok (map (fun v => if Qeq_bool v UNSEEN then Masked else Depth v) filled).

(** [for filtername in self._skybrightness]; an exception leaves the
    entries built so far, the current one still the unmasked copy of
    [unseen_map]. *)
Fixpoint calc_M5Depth_loop (c : t) (items : dict (list Q))
    (acc : dict (list skyval)) : option exn * dict (list skyval) :=
  match items with
  | [] => (None, acc)
  | (filtername, sky) :: more =>
      match m5_row c filtername sky with
      | Raise e => (Some e, dict_set filtername (map Depth (unseen_map c)) acc)
      | Ok row => calc_M5Depth_loop c more (dict_set filtername row acc)
      end
  end.

Definition calc_M5Depth (c : t) : option exn * t :=
  let (e, d) := calc_M5Depth_loop c (_skybrightness c) [] in
  (e, with_M5Depth (Some d) c).

Definition M5Depth (c : t) : result (option (dict (list skyval))) * t :=
  match _M5Depth c with
  | None =>
      match calc_M5Depth c with
      | (Some e, c') => (Raise e, c')
      | (None, c') => (Ok (_M5Depth c'), c')
      end
  | Some _ => (Ok (_M5Depth c), c)
  end.
(** *** Construction *)

(** [_hpid2RaDec nside hpids]: the centres of the pixels. *)
Variable _hpid2RaDec : nat -> list nat -> list Q * list Q.

(** [__init__]: the grid, the map of [hp.UNSEEN], and every telemetry
    attribute unset.  [latitude] and [longitude] are those of [Site(site)],
    in radians. *)
Definition __init__ (nside : nat) (latitude longitude exptime : Q) : t :=
  let hpids := seq 0 (nside2npix nside) in
  let radec := _hpid2RaDec nside hpids in
  mk nside (fst radec) (snd radec) latitude longitude exptime
     (replicate (nside2npix nside) UNSEEN)
     None None None None None None None None [] [] None.
End Methods.
End Conditions.

(** ** [Deep_drilling_survey]: a fixed batch of observations *)
Module Deep_drilling_survey.

(** The [sequence] argument: a string of one-letter filter names, or a list
    of observation objects. *)
Inductive sequence_arg : Type :=
| SeqStr (filters : string)
| SeqObs (observations : list Obs.t).

Record t : Type := mk {
  ra : Q;
  ra_hours : Q;
  dec : Q;
  survey_name : string;
  reward_value : option Q;
  flush_pad : Q;
  observations : list Obs.t;
  approx_time : Q;
  Ntot : Q;
  N_survey : Q
}.

(** The characters of a string, as Python iterates over it. *)
Fixpoint chars (s : string) : list string :=
  match s with
  | EmptyString => []
  | String ch s' => String ch EmptyString :: chars s'
  end.

(** [empty_observation()]: a zeroed row. *)
Definition empty_observation : Obs.t := Obs.mk 0 0 0 0 0 "" 0 "" 0.

(** [range(num)] has no element for [num <= 0]. *)
Definition range_len (num : Z) : nat := Z.to_nat num.

(** [np.argsort] on the filter column, then [observations[order]]: an
    insertion from the right that keeps equal names in their order.  The
    library sort does not promise an order among equal names; rows built
    from a string are equal whenever their names are. *)
Fixpoint insert_by_filter (o : Obs.t) (sorted : list Obs.t) : list Obs.t :=
  match sorted with
  | [] => [o]
  | x :: sorted' =>
      if String.leb (Obs.filter o) (Obs.filter x) then o :: sorted
      else x :: insert_by_filter o sorted'
  end.

Definition sort_by_filter (l : list Obs.t) : list Obs.t :=
  foldr insert_by_filter [] l.

(** [np.size(np.unique(l))] on names. *)
Fixpoint n_unique (l : list string) : nat :=
  match l with
  | [] => 0
  | x :: l' => if existsb (String.eqb x) l' then n_unique l' else S (n_unique l')
  end.

Definition Qsum (l : list Q) : Q := foldr Qplus 0%Q l.

Section Methods.
Variable radians : Q -> Q.
(** [BaseSurvey._check_feasibility]: the chain of basis functions. *)
Variable _check_feasibility : t -> Snapshot.t -> bool.

(** The rows built by the two nested loops over [zip(nvis, sequence)]. *)
Definition build_rows (ra dec exptime nexp : Q) (survey_name : string)
    (nvis : list Z) (sequence : string) : list Obs.t :=
  flat_map
    (fun nf : Z * string =>
       replicate (range_len (fst nf))
         (Obs.mk ra dec (Obs.mjd empty_observation)
            (Obs.flush_by_mjd empty_observation) exptime (snd nf) nexp
            survey_name (Obs.field_id empty_observation)))
    (zip nvis (chars sequence)).

(** [__init__]; [np.concatenate] of an empty list of rows raises. *)
Definition __init__ (RA dec_deg : Q) (sequence : sequence_arg) (nvis : list Z)
    (exptime nexp : Q) (survey_name : string) (reward_value : option Q)
    (readtime filter_change_time flush_pad : Q) : result t :=
  let ra := radians RA in
  let dec := radians dec_deg in
  let rows :=
    match sequence with
    | SeqStr filters => build_rows ra dec exptime nexp survey_name nvis filters
    | SeqObs l => l
    end in
  match rows with
  | [] => Raise ValueError
  | _ =>
      let observations := sort_by_filter rows in
      let n_filter_change := n_unique (map Obs.filter observations) in
      let approx_time :=
        (Qsum (map (fun o => Obs.exptime o + readtime * Obs.nexp o)
                   observations) / 3600 / 24
         + filter_change_time * inject_Z (Z.of_nat n_filter_change)
           / 3600 / 24)%Q in
      Ok (mk ra (RA / 360 * 24)%Q dec survey_name reward_value
             (flush_pad / 60 / 24)%Q observations approx_time 0 0)
  end.

Definition calc_reward_function (s : t) (conditions : Snapshot.t) : Reward :=
  if _check_feasibility s conditions then
    match reward_value s with
    | Some r => Finite r
    | None => Finite (Ntot s / (N_survey s + 1))
    end
  else NegInf.

(** [a[mask]] with a boolean mask. *)
Fixpoint np_compress {A : Type} (mask : list bool) (a : list A) : list A :=
  match mask, a with
  | b :: mask', x :: a' =>
      if b then x :: np_compress mask' a' else np_compress mask' a'
  | _, _ => []
  end.

(** [result['filter'] == conditions.current_filter], elementwise; no name
    equals [None]. *)
Definition is_current (conditions : Snapshot.t) (o : Obs.t) : bool :=
  match Snapshot.current_filter conditions with
  | Some f => String.eqb (Obs.filter o) f
  | None => false
  end.

Definition generate_observations_rough (s : t) (conditions : Snapshot.t)
    : result (list Obs.t) :=
  if _check_feasibility s conditions then
    let result := observations s in
    let result :=
      map (Obs.set_flush_by_mjd
             (Snapshot.mjd conditions + approx_time s + flush_pad s))
          result in
    let mask :=
      map (fun o => existsb (String.eqb (Obs.filter o))
                      (Snapshot.mounted_filters conditions))
          result in
    let result := np_compress mask result in
    let ind1 := np_where (map (is_current conditions) result) in
    let ind2 := np_where (map (fun o => negb (is_current conditions o)) result) in
    np_take result (ind1 ++ ind2)
  else Ok [].
End Methods.
End Deep_drilling_survey.

(** ** Reference readings and test data

    The definitions below are not translations of code: they phrase a
    property, or give the collaborators a concrete value so that the code
    can be run on an example. *)

(** The purge with every entry judged against its own tolerance window:
    the three drop conditions of [_purge_queue], the window test taken on
    the entry under scrutiny. *)
Fixpoint purge_by_own_window {PairMap : Type}
    (check_mask check_alts : Obs.t -> bool)
    (s : Pairs_survey_scripted.t PairMap) (c : Snapshot.t)
    (queue : list Obs.t) : list Obs.t :=
  match queue with
  | [] => []
  | head :: rest =>
      let in_window :=
        Qltb (Qabs (Obs.mjd head - Snapshot.mjd c))
             (Pairs_survey_scripted.ttol s) in
      if (Qltb (Obs.mjd head) (Snapshot.mjd c) && negb in_window)
         || (in_window && negb (check_mask head))
         || (in_window && negb (check_alts head))
      then purge_by_own_window check_mask check_alts s c rest
      else queue
  end.


(** A one-pixel sky: every position falls in pixel 0, and the altitude of a
    position is its declination. *)
Definition one_pixel : nat -> Q -> Q -> nat := fun _ _ _ => 0%nat.
Definition alt_of_dec : Q -> Q -> Q -> Q -> Q -> Q * Q :=
  fun ra dec _ _ _ => (dec, ra).

(** A pairing survey with the defaults of [__init__]: a 40 minute gap, a
    10 minute tolerance, a 15 second slew budget, altitudes between 30 and
    85 degrees (here 0.52 and 1.48 radians); its pairing feature is the
    bare counter map. *)
Definition pairs_default (queue : list Obs.t) : Pairs_survey_scripted.t (list Q) :=
  Pairs_survey_scripted.mk 1 (52 # 100) (148 # 100) (- (53 # 100)) "scripted"
    (10 / 60 / 24) (40 / 60 / 24) 15 101 "griz" ["ack"] queue [0%Q]
    NegInf false.

(** An r-band row at altitude 1 radian with target epoch [mjd]. *)
Definition r_row (mjd : Q) : Obs.t := Obs.mk 0 1 mjd 0 30 "r" 2 "" 0.

(** Epoch 100 with every pixel at depth 24 in every filter, a slew of
    [slew] seconds everywhere and [loaded] in the beam. *)
Definition clear_sky (slew : Q) (loaded : option string) : Snapshot.t :=
  Snapshot.mk 100 0 (fun _ => slew) loaded ["r"; "g"] (fun _ _ => Depth 24).

(** The readiness test of [_check_observation], as a proposition: inside
    the tolerance window, and (slew within budget or epoch already past),
    and loaded filter (if any) among the pairing filters, and a depth above
    zero at the pixel. *)
Definition pair_ready {PairMap : Type} (_raDec2Hpid : nat -> Q -> Q -> nat)
    (s : Pairs_survey_scripted.t PairMap) (c : Snapshot.t) (o : Obs.t) : Prop :=
  (Qabs (Obs.mjd o - Snapshot.mjd c) < Pairs_survey_scripted.ttol s)%Q
  /\ ((Snapshot.slewtime c
         (_raDec2Hpid (Pairs_survey_scripted.nside s) (Obs.RA o) (Obs.dec o))
       <= Pairs_survey_scripted.max_slew_to_pair s)%Q
      \/ (Obs.mjd o - Snapshot.mjd c < 0)%Q)
  /\ (forall f, Snapshot.current_filter c = Some f ->
                py_in_str f (Pairs_survey_scripted.filt_to_pair s) = true)
  /\ (exists v,
        Snapshot.M5Depth c (Obs.filter o)
          (_raDec2Hpid (Pairs_survey_scripted.nside s) (Obs.RA o) (Obs.dec o))
        = Depth v /\ (0 < v)%Q).

(** Entry [i] of [queue] is ready and every entry before it is inside its
    tolerance window without being ready: the entry the scans of
    [calc_reward_function] and [generate_observations] stop at. *)
Definition first_ready {PairMap : Type} (_raDec2Hpid : nat -> Q -> Q -> nat)
    (s : Pairs_survey_scripted.t PairMap) (c : Snapshot.t)
    (queue : list Obs.t) (i : nat) (o : Obs.t) : Prop :=
  queue !! i = Some o
  /\ pair_ready _raDec2Hpid s c o
  /\ forall j o', (j < i)%nat -> queue !! j = Some o' ->
       (Qabs (Obs.mjd o' - Snapshot.mjd c) < Pairs_survey_scripted.ttol s)%Q
       /\ ~ pair_ready _raDec2Hpid s c o'.

(** The same, on the verdicts of [_check_observation] and for a scan that
    starts at index [k]. *)
Definition scan_stops_at {PairMap : Type} (_raDec2Hpid : nat -> Q -> Q -> nat)
    (s : Pairs_survey_scripted.t PairMap) (c : Snapshot.t) (k i : nat)
    (o : Obs.t) : Prop :=
  let verdict o :=
    Pairs_survey_scripted._check_observation _raDec2Hpid PairMap s o c in
  Pairs_survey_scripted.observing_queue s !! i = Some o
  /\ Pairs_survey_scripted.valid (verdict o) = true
  /\ forall j o', (k <= j)%nat -> (j < i)%nat ->
       Pairs_survey_scripted.observing_queue s !! j = Some o' ->
       Pairs_survey_scripted.in_time_window (verdict o') = true
       /\ Pairs_survey_scripted.valid (verdict o') = false.

(** A queue in chronological order: an entry 15 minutes overdue, then an
    entry 5 minutes overdue. *)
Definition overdue_15_then_5 : list Obs.t :=
  [r_row (100 - 15 / 60 / 24); r_row (100 - 5 / 60 / 24)].

(** The readiness condition as the pairing reward is described: (inside
    the tolerance, or already due with the slew within budget), and a
    compatible loaded filter, and an unmasked position. *)
Definition described_ready {PairMap : Type} (_raDec2Hpid : nat -> Q -> Q -> nat)
    (s : Pairs_survey_scripted.t PairMap) (c : Snapshot.t) (o : Obs.t) : bool :=
  let delta := (Obs.mjd o - Snapshot.mjd c)%Q in
  let pix := _raDec2Hpid (Pairs_survey_scripted.nside s) (Obs.RA o) (Obs.dec o) in
  (Qltb (Qabs delta) (Pairs_survey_scripted.ttol s)
   || (Qltb delta 0
       && Qle_bool (Snapshot.slewtime c pix)
                   (Pairs_survey_scripted.max_slew_to_pair s)))
  && match Snapshot.current_filter c with
     | None => true
     | Some f => py_in_str f (Pairs_survey_scripted.filt_to_pair s)
     end
  && Pairs_survey_scripted._check_mask _raDec2Hpid PairMap s o c.

(** What [generate_observations] does to the entry it returns. *)
Definition as_pair {PairMap : Type} (s : Pairs_survey_scripted.t PairMap)
    (c : Snapshot.t) (o : Obs.t) : Obs.t :=
  let tagged :=
    Obs.set_note ("pair(" +:+ Pairs_survey_scripted.note s +:+ ")") o in
  match Snapshot.current_filter c with
  | Some f => Obs.set_filter f tagged
  | None => tagged
  end.

(** A scripted survey with the defaults of [__init__] (reward 1e6, ignore
    tag 'dummy') and the altitude map [altaz], after [set_script] with a
    tolerance of [tol] minutes. *)
Definition scripted_default (altaz : option (list Q)) (tol : Q)
    (wanted : list Obs.t) : Scripted_survey.t :=
  Scripted_survey.set_script wanted tol
    (Scripted_survey.mk 1 (52 # 100) (148 # 100) 1000000 (Finite (-1000000))
       "dummy" altaz 0 [] [] false).

(** A nearest-pixel resampler standing for [healpy.ud_grade]: it refuses
    the empty map and returns a map of the requested resolution. *)
Definition ud_nearest (m : list Q) (nside_out : nat) : result (list Q) :=
  match m with
  | [] => Raise ValueError
  | x :: _ =>
      let npix := Conditions.nside2npix nside_out in
      Ok (map (fun i => nth (i * length m / npix) m x) (seq 0 npix))
  end.

(** A [Conditions] object at [nside = 1] (12 pixels) right after
    [__init__]: nothing written yet. *)
Definition conditions_init : Conditions.t :=
  Conditions.mk 1 (replicate 12 0%Q) (replicate 12 0%Q) (- (53 # 100))
    (- (123 # 100)) 30 (replicate 12 Conditions.UNSEEN) None None None None
    None None None None [] [] None.

(** Stand-ins for the photometric model and the coordinate transform. *)
Definition m5_toy (f : string) (sky fwhm exptime airmass : Q) : Q :=
  (sky - fwhm - airmass)%Q.
Definition altaz_toy (ra dec : list Q) (lat lon : Q) (mjd : option Q)
    : result (list Q * list Q) :=
  match mjd with
  | None => Raise TypeError
  | Some t => Ok (map (fun d => (d + t)%Q) dec, ra)
  end.

(** [conditions_init] after writing an airmass map, a sky brightness map
    and a seeing map for filter r, all at the canonical resolution. *)
Definition conditions_r : option Conditions.t :=
  match Conditions.airmass_set ud_nearest (replicate 12 1%Q) conditions_init with
  | Raise _ => None
  | Ok c =>
      match Conditions.skybrightness_set ud_nearest
              [("r", replicate 12 21%Q)] c with
      | (Some _, _) => None
      | (None, c) =>
          Some (Conditions.FWHMeff_set [("r", replicate 12 (7 # 10)%Q)] c)
      end
  end.

(** Whether a row's filter is among the mounted filters:
    [np.isin(result['filter'], conditions.mounted_filters)] at one row. *)
Definition is_mounted (c : Snapshot.t) (o : Obs.t) : bool :=
  existsb (String.eqb (Obs.filter o)) (Snapshot.mounted_filters c).

(** A deep drilling survey built by [__init__] from the string 'rgiz' with
    two visits in r and one in each other filter, degrees passed through
    unchanged; [None] if the constructor raises. *)
Definition dd_rgiz : option Deep_drilling_survey.t :=
  match Deep_drilling_survey.__init__ id 0 0
          (Deep_drilling_survey.SeqStr "rgiz") [2; 1; 1; 1]%Z 30 2 "DD"
          (Some 100%Q) 2 120 30 with
  | Ok s => Some s
  | Raise _ => None
  end.

(** Script entry [i] has its pixel inside the altitude band of the
    altitude map [m]: the test of [Scripted_survey._check_alts] at one
    entry. *)
Definition script_alt_in_band (_raDec2Hpid : nat -> Q -> Q -> nat)
    (s : Scripted_survey.t) (m : list Q) (i : nat) : bool :=
  match Scripted_survey.obs_wanted s !! i with
  | Some row =>
      match m !! _raDec2Hpid (Scripted_survey.nside s) (Obs.RA row)
                   (Obs.dec row) with
      | Some a =>
          Qltb a (Scripted_survey.max_alt s)
          && Qltb (Scripted_survey.min_alt s) a
      | None => false
      end
  | None => false
  end.

(** Script entry [i] is [row], not yet marked observed, within the
    tolerance of the epoch [now], and inside the altitude band. *)
Definition script_eligible (_raDec2Hpid : nat -> Q -> Q -> nat)
    (s : Scripted_survey.t) (m : list Q) (now : Q) (i : nat) (row : Obs.t)
    : Prop :=
  Scripted_survey.obs_wanted s !! i = Some row
  /\ Scripted_survey.obs_log s !! i = Some false
  /\ (Qabs (Obs.mjd row - now) < Scripted_survey.mjd_tol s)%Q
  /\ script_alt_in_band _raDec2Hpid s m i = true.

(** [conditions_init] after writing a sky brightness map for filter r
    only: no seeing, no airmass. *)
Definition conditions_sky_only : Conditions.t :=
  (Conditions.skybrightness_set ud_nearest [("r", replicate 12 21%Q)]
     conditions_init).2.

(** [conditions_r], or [conditions_init] should a setter have raised. *)
Definition conditions_r_or_init : Conditions.t :=
  default conditions_init conditions_r.

(** Degrees to radians and a full turn, with pi taken as 3.14159. *)
Definition deg2rad (d : Q) : Q := (d * (314159 # 18000000))%Q.
Definition turn : Q := (628318 # 100000)%Q.

(** The object of [conditions_init] on a grid whose first six pixels are
    at right ascension 0 and whose last six are at 2 radians. *)
Definition conditions_two_ra : Conditions.t :=
  Conditions.mk 1 (replicate 6 0%Q ++ replicate 6 2%Q) (replicate 12 0%Q)
    (- (53 # 100)) (- (123 # 100)) 30 (replicate 12 Conditions.UNSEEN)
    None None None None None None None None [] [] None.

(** Row [a] does not come after row [b] in the order of filter names. *)
Definition filter_le (a b : Obs.t) : Prop :=
  String.leb (Obs.filter a) (Obs.filter b) = true.

(** The counters a pairing decision is about: [cells] are the values of
    the per-pixel counter map [fm] at the pixels passed as [indx], in that
    order, or the whole map when no pixels are passed. *)
Definition counter_cells (fm : list Q) (indx : option (list nat))
    (cells : list Q) : Prop :=
  match indx with
  | None => cells = fm
  | Some ix => Forall2 (fun i x => fm !! i = Some x) ix cells
  end.

(** [pairs_default] with the counter map [pm] in its pairing feature. *)
Definition pairs_with_map (pm : list Q) (queue : list Obs.t)
    : Pairs_survey_scripted.t (list Q) :=
  Pairs_survey_scripted.mk 1 (52 # 100) (148 # 100) (- (53 # 100)) "scripted"
    (10 / 60 / 24) (40 / 60 / 24) 15 101 "griz" ["ack"] queue pm
    NegInf false.

(** [row] is the limiting-magnitude map computed for filter [f] from the
    per-pixel inputs [sky], [fwhm] and [air]: as long as [sky], masked
    where [sky] is [hp.UNSEEN], and elsewhere [m5_flat_sed] of the three
    inputs at that pixel (masked when that value is [hp.UNSEEN]). *)
Definition m5_pixels (m5_flat_sed : string -> Q -> Q -> Q -> Q -> Q)
    (f : string) (exptime : Q) (sky fwhm air : list Q) (row : list skyval)
    : Prop :=
  length row = length sky
  /\ forall i v, sky !! i = Some v ->
       if Qeq_bool v Conditions.UNSEEN then row !! i = Some Masked
       else exists w a,
           fwhm !! i = Some w /\ air !! i = Some a
           /\ row !! i
              = Some (let m := m5_flat_sed f v w exptime a in
                      if Qeq_bool m Conditions.UNSEEN then Masked
                      else Depth m).

(** The value a read of [M5Depth] gave for filter [f] at pixel [i], if it
    gave one. *)
Definition m5_at (r : result (option (Conditions.dict (list skyval))))
    (f : string) (i : nat) : option skyval :=
  match r with
  | Ok (Some d) =>
      match Conditions.dict_get f d with
      | Some row => row !! i
      | None => None
      end
  | _ => None
  end.

(** The inputs of the limiting magnitude are complete: every
    sky-brightness map is as long as the grid, its filter has a seeing map,
    there is an airmass map, and both reach every pixel of the
    sky-brightness map. *)
Definition m5_inputs_complete (c : Conditions.t) : Prop :=
  Forall (fun kv =>
            length (Conditions.unseen_map c) = length kv.2
            /\ exists fwhm air,
                 Conditions.dict_get kv.1 (Conditions._FWHMeff c) = Some fwhm
                 /\ Conditions._airmass c = Some air
                 /\ (length kv.2 <= length fwhm)%nat
                 /\ (length kv.2 <= length air)%nat)
    (Conditions._skybrightness c).

(** * Properties *)

Lemma Qltb_lt (x y : Q) : Qltb x y = true <-> (x < y)%Q.
Proof.
  unfold Qltb. rewrite negb_true_iff, <- not_true_iff_false, Qle_bool_iff.
  split; [apply Qnot_le_lt | apply Qlt_not_le].
Qed.

Lemma Qltb_ge (x y : Q) : Qltb x y = false <-> (y <= x)%Q.
Proof. unfold Qltb. rewrite negb_false_iff. apply Qle_bool_iff. Qed.

Lemma and_invert_truthy (w b : bool) :
  truthy (np_and_int w (py_invert b)) = w && negb b.
Proof. by destruct w, b. Qed.

(** ** The paired-observation queue *)
Module P := Pairs_survey_scripted.

Section PairsFacts.
Variable _raDec2Hpid : nat -> Q -> Q -> nat.
Variable _approx_RaDec2AltAz : Q -> Q -> Q -> Q -> Q -> Q * Q.
Variable PairMap : Type.
Variable feature : PairMap -> list Q.
Variable feature_add_observation :
  PairMap -> Obs.t -> option (list nat) -> PairMap.

Implicit Types (s : P.t PairMap) (c : Snapshot.t) (o : Obs.t).

Local Abbreviation check_mask := (P._check_mask _raDec2Hpid PairMap).
Local Abbreviation check_alts := (P._check_alts _approx_RaDec2AltAz PairMap).
Local Abbreviation skyval_at := (P.skyval_at _raDec2Hpid PairMap).
Local Abbreviation purge_loop :=
  (P.purge_loop _raDec2Hpid _approx_RaDec2AltAz PairMap).
Local Abbreviation purge_queue :=
  (P._purge_queue _raDec2Hpid _approx_RaDec2AltAz PairMap).
Local Abbreviation check_observation := (P._check_observation _raDec2Hpid PairMap).

Lemma check_mask_true s o c :
  check_mask s o c = true <-> exists v, skyval_at s o c = Depth v /\ (0 < v)%Q.
Proof.
  unfold P._check_mask. destruct (skyval_at s o c) as [|v] eqn:E.
  - split; [done | by intros (v & ? & _)].
  - destruct (Qltb 0 v) eqn:L.
    + apply Qltb_lt in L. split; eauto.
    + apply Qltb_ge in L. split; [done |].
      intros (v' & [= <-] & Hv). by apply Qlt_not_le in Hv.
Qed.




Local Abbreviation reward_loop := (P.reward_loop _raDec2Hpid PairMap).
Local Abbreviation generate_loop := (P.generate_loop _raDec2Hpid PairMap).
Local Abbreviation calc_reward_function :=
  (P.calc_reward_function _raDec2Hpid _approx_RaDec2AltAz PairMap).
Local Abbreviation generate_observations :=
  (P.generate_observations _raDec2Hpid _approx_RaDec2AltAz PairMap).

Lemma in_time_window_spec s o c :
  P.in_time_window (check_observation s o c) = true
  <-> (Qabs (Obs.mjd o - Snapshot.mjd c) < P.ttol s)%Q.
Proof. unfold P._check_observation; cbn [P.in_time_window]. apply Qltb_lt. Qed.

Lemma valid_spec s o c :
  P.valid (check_observation s o c) = true <-> pair_ready _raDec2Hpid s c o.
Proof.
  unfold P._check_observation, pair_ready; cbn [P.valid].
  rewrite !andb_true_iff, orb_true_iff, !Qltb_lt, Qle_bool_iff, check_mask_true.
  unfold P.skyval_at.
  destruct (Snapshot.current_filter c) as [f|]; split.
  - intros [[[? ?] ?] ?]. repeat split; try done. by intros ? [= <-].
  - intros (? & ? & Hf & ?). repeat split; try done. by apply Hf.
  - intros [[[? ?] ?] ?]. repeat split; done.
  - intros (? & ? & Hf & ?). repeat split; done.
Qed.

Local Abbreviation stops_at := (scan_stops_at _raDec2Hpid).

Lemma stops_at_unique s c k i i' o o' :
  (k <= i)%nat -> (k <= i')%nat ->
  stops_at s c k i o -> stops_at s c k i' o' -> i = i' /\ o = o'.
Proof.
  intros Hi Hi' (Hl & Hv & Hb) (Hl' & Hv' & Hb').
  destruct (Nat.lt_trichotomy i i') as [Hlt | [-> | Hlt]].
  - destruct (Hb' i o Hi Hlt Hl) as [_ Hf]. congruence.
  - split; [done | congruence].
  - destruct (Hb i' o' Hi' Hlt Hl') as [_ Hf]. congruence.
Qed.

Lemma loops_spec s c n : forall k,
  (k + n)%nat = length (P.observing_queue s) ->
  (exists i o, (k <= i)%nat /\ stops_at s c k i o
     /\ reward_loop s c (seq k n) = Finite (P.reward_val s)
     /\ generate_loop s c (seq k n)
        = ([as_pair s c o],
           P.set_queue PairMap (delete i (P.observing_queue s)) s))
  \/ ((forall i o, (k <= i)%nat -> ~ stops_at s c k i o)
      /\ reward_loop s c (seq k n) = NegInf
      /\ generate_loop s c (seq k n) = ([], s)).
Proof.
  induction n as [|n IH]; intros k Hk.
  - right. split; [|done]. intros i o Hi (Hl & _).
    apply lookup_lt_Some in Hl. lia.
  - destruct (lookup_lt_is_Some_2 (P.observing_queue s) k) as [ok Hok]; [lia|].
    cbn [seq P.reward_loop P.generate_loop]. rewrite Hok.
    destruct (P.valid (check_observation s ok c)) eqn:Hv.
    { left. exists k, ok. repeat split; try done. all: lia. }
    destruct (P.in_time_window (check_observation s ok c)) eqn:Hw; cbn [negb].
    2:{ right. split; [|done]. intros i o Hi (Hl & Hvo & Hb).
        destruct (decide (i = k)) as [->|Hne]; [congruence|].
        destruct (Hb k ok) as [Hw' _]; [lia | lia | done | congruence]. }
    destruct (IH (S k)) as [(i & o & Hi & (Hl & Hvo & Hb) & Hr & Hg) | (Hno & Hr & Hg)];
      [lia | left | right].
    + exists i, o. repeat split; try done; [lia | |].
      all: destruct (decide (j = k)) as [->|Hne];
        [ assert (o' = ok) as -> by congruence; done
        | eapply Hb; [| | done]; lia ].
    + split; [|done]. intros i o Hi (Hl & Hvo & Hb).
      destruct (decide (i = k)) as [->|Hne]; [congruence|].
      apply (Hno i o); [lia|]. repeat split; try done.
      all: eapply Hb; [| | done]; lia.
Qed.

Lemma purge_queue_config s c :
  exists q, purge_queue s c = P.set_queue PairMap q s.
Proof.
  unfold P._purge_queue. destruct s as [? ? ? ? ? ? ? ? ? ? ? [|h q] ? ? ?];
    cbn [P.observing_queue]; eauto.
Qed.

Lemma first_ready_stops_at s c i o :
  first_ready _raDec2Hpid s c (P.observing_queue s) i o <-> stops_at s c 0 i o.
Proof.
  unfold first_ready, stops_at. rewrite <- valid_spec.
  split; intros (Hl & Hv & Hb); repeat split; try done.
  - apply in_time_window_spec. by eapply Hb.
  - apply not_true_iff_false. rewrite valid_spec. by eapply Hb.
  - apply in_time_window_spec. eapply Hb; [lia | done..].
  - rewrite <- valid_spec. apply not_true_iff_false.
    eapply Hb; [lia | done..].
Qed.

(** C2, as the code has it: after the purge, [calc_reward_function] returns
    the configured reward value exactly when the scan from the head of the
    queue reaches a ready entry, every entry before it being inside its
    tolerance window; ready means inside the tolerance window, and (slew
    within the maximum or epoch already past), and loaded filter (if any)
    among the pairing filters, and a depth above zero.  Otherwise it returns
    minus infinity.  [generate_observations] then returns exactly the first
    such entry, removed from the purged queue, with the pairing note and
    with its filter set to the loaded filter when one is loaded; with no
    such entry it returns nothing and only purges. *)
Theorem pairs_reward_iff_first_ready s c :
  let s1 := purge_queue s c in
  let ready_at i o :=
    first_ready _raDec2Hpid s1 c (P.observing_queue s1) i o in
  (fst (calc_reward_function s c) = Finite (P.reward_val s)
   <-> exists i o, ready_at i o)
  /\ (fst (calc_reward_function s c) = NegInf <-> ~ exists i o, ready_at i o)
  /\ (forall i o, ready_at i o ->
        generate_observations s c
        = ([as_pair s c o],
           P.set_queue PairMap (delete i (P.observing_queue s1)) s1))
  /\ ((~ exists i o, ready_at i o) -> generate_observations s c = ([], s1)).
Proof.
  intros s1 ready_at.
  assert (P.reward_val s1 = P.reward_val s /\ as_pair s1 c = as_pair s c)
    as [Hrv Hap].
  { subst s1. by destruct (purge_queue_config s c) as [q ->]. }
  unfold P.calc_reward_function, P.generate_observations. fold s1.
  cbn [fst].
  destruct (loops_spec s1 c (length (P.observing_queue s1)) 0 eq_refl)
    as [(i & o & Hi & Hst & Hr & Hg) | (Hno & Hr & Hg)]; rewrite Hr, Hg.
  - assert (ready_at i o) as Hready by by apply first_ready_stops_at.
    rewrite Hrv. repeat split; eauto; try done.
    + intros Hn. destruct Hn. eauto.
    + intros i' o' Hr'. apply first_ready_stops_at in Hr'.
      destruct (stops_at_unique s1 c 0 i i' o o') as [<- <-]; try done; try lia.
      by rewrite Hap.
    + intros Hn. destruct Hn. eauto.
  - assert (~ exists i o, ready_at i o) as Hnone.
    { intros (i & o & Hr'). apply first_ready_stops_at in Hr'.
      eapply Hno; [|done]. lia. }
    repeat split; try done.
    intros i o Hr'. destruct Hnone. eauto.
Qed.

(** Where the window test of the head is also that of every later entry,
    the loop is the purge by each entry's own window. *)
Lemma purge_loop_own_window s c w queue :
  Forall (fun o => P.within_ttol PairMap s o c = w) queue ->
  purge_loop s c w queue
  = purge_by_own_window (fun o => check_mask s o c) (fun o => check_alts s o c)
      s c queue.
Proof.
  induction 1 as [|head rest Hw _ IH]; [done|].
  cbn [P.purge_loop purge_by_own_window].
  unfold P.within_ttol in Hw. rewrite Hw, !and_invert_truthy, IH.
  destruct (Qltb (Obs.mjd head) (Snapshot.mjd c) && negb w),
    (w && negb (check_mask s head c)), (w && negb (check_alts s head c)); done.
Qed.

Lemma purge_queue_singleton s c o :
  P.observing_queue s = [o] ->
  P.observing_queue (purge_queue s c)
  = purge_by_own_window (fun o => check_mask s o c) (fun o => check_alts s o c)
      s c [o].
Proof.
  intros Hq. unfold P._purge_queue. rewrite Hq. cbn [P.set_queue P.observing_queue].
  apply purge_loop_own_window. by constructor.
Qed.

Local Abbreviation add_observation :=
  (P.add_observation PairMap feature feature_add_observation).

Lemma pairs_add_observation_ignored s o indx :
  P.to_ignore PairMap s o = true -> add_observation s o indx = Ok s.
Proof. intros H. unfold P.add_observation. by rewrite H. Qed.

Lemma py_in_str_char (ch : Ascii.ascii) (hay : string) :
  py_in_str (String ch "") hay = true <-> In ch (String.list_ascii_of_string hay).
Proof.
  induction hay as [|b hay IH]; cbn [py_in_str String.prefix
    String.list_ascii_of_string In].
  - split; [done | by intros []].
  - rewrite orb_true_iff, IH. destruct (Ascii.ascii_dec ch b) as [->|Hne].
    + split; [by left |]. intros _. left. by destruct hay.
    + split; [intros [? | ?]; [done | by right] |].
      intros [? | ?]; [congruence | by right].
Qed.

Lemma to_ignore_false s o :
  Forall (fun tag => py_in_str tag (Obs.note o) = false) (P.ignore_obs s) ->
  P.to_ignore PairMap s o = false.
Proof.
  unfold P.to_ignore. induction 1 as [|tag tags Ht _ IH]; [done|].
  cbn [existsb]. by rewrite Ht, IH.
Qed.

Lemma foldl_max_spec (l : list Q) : forall x,
  let m := foldl (fun m y => if Qltb m y then y else m) x l in
  (x <= m)%Q /\ Forall (fun y => (y <= m)%Q) l /\ (m = x \/ m ∈ l).
Proof.
  induction l as [|y l IH]; intros x; cbn [foldl].
  - split; [apply Qle_refl|]. split; [constructor | by left].
  - destruct (IH (if Qltb x y then y else x)) as (Hle & Hall & Hin).
    destruct (Qltb x y) eqn:Hxy;
      [apply Qltb_lt, Qlt_le_weak in Hxy | apply Qltb_ge in Hxy].
    + split; [by eapply Qle_trans|]. split; [by constructor|].
      destruct Hin as [-> | Hin]; right; [by left | by right].
    + split; [done|]. split; [constructor; [by eapply Qle_trans | done]|].
      destruct Hin as [-> | Hin]; [by left | right; by right].
Qed.

Lemma np_max_spec (cells : list Q) :
  cells <> [] ->
  exists m, np_max cells = Ok m /\ m ∈ cells
            /\ Forall (fun y => (y <= m)%Q) cells.
Proof.
  destruct cells as [|x l]; [done|]. intros _. cbn [np_max].
  destruct (foldl_max_spec l x) as (Hle & Hall & Hin).
  eexists. split; [done|]. split.
  - destruct Hin as [-> | Hin]; [by left | by right].
  - by constructor.
Qed.

Lemma np_take_of_Forall2 {A : Type} (a : list A) (idx : list nat)
    (xs : list A) :
  Forall2 (fun i x => a !! i = Some x) idx xs -> np_take a idx = Ok xs.
Proof.
  induction 1 as [|i x idx xs Hi _ IH]; [done|].
  cbn [np_take]. by rewrite Hi, IH.
Qed.

Lemma pair_count_cells (pm : PairMap) (indx : option (list nat))
    (cells : list Q) :
  counter_cells (feature pm) indx cells -> cells <> [] ->
  exists m, P.pair_count PairMap feature pm indx = Ok m /\ m ∈ cells
            /\ Forall (fun y => (y <= m)%Q) cells.
Proof.
  intros Hcells Hne. unfold P.pair_count.
  assert (match indx with
          | Some ix => np_take (feature pm) ix
          | None => Ok (feature pm)
          end = Ok cells) as ->.
  { destruct indx as [ix|]; cbn in Hcells;
      [by apply np_take_of_Forall2 | by rewrite Hcells]. }
  cbn [bind]. by apply np_max_spec.
Qed.

(** C7, as the code has it: for an executed observation whose annotation
    contains none of the ignore tags and whose filter name starts with the
    character [ch], let [cells] be the pairing counters, read after the
    pairing feature has been fed the observation, at the pixels passed as
    [indx] (all the pixels of the map when [indx] is [None]).  If [ch] is
    one of the pairing filters and every counter of [cells] is below one,
    the queue gains exactly one entry at its end, the observation itself
    with its epoch moved forward by the revisit gap.  If some counter of
    [cells] is one or more, or [ch] is no pairing filter, the queue is
    unchanged. *)
Theorem pairs_add_observation_queues_pair s o indx ch rest cells :
  Forall (fun tag => py_in_str tag (Obs.note o) = false) (P.ignore_obs s) ->
  Obs.filter o = String ch rest ->
  counter_cells (feature (feature_add_observation (P.Pair_map s) o indx))
    indx cells ->
  cells <> [] ->
  exists s',
    add_observation s o indx = Ok s'
    /\ P.Pair_map s' = feature_add_observation (P.Pair_map s) o indx
    /\ (In ch (String.list_ascii_of_string (P.filt_to_pair s)) ->
        Forall (fun x => (x < 1)%Q) cells ->
        P.observing_queue s'
        = P.observing_queue s ++ [Obs.set_mjd (Obs.mjd o + P.dt s) o])
    /\ (Exists (fun x => (1 <= x)%Q) cells ->
        P.observing_queue s' = P.observing_queue s)
    /\ (~ In ch (String.list_ascii_of_string (P.filt_to_pair s)) ->
        P.observing_queue s' = P.observing_queue s).
Proof.
  intros Hig Hf Hcells Hne. unfold P.add_observation.
  rewrite (to_ignore_false s o Hig).
  unfold P.filter_to_pair. cbn [P.filt_to_pair P.set_reward_checked
    P.set_Pair_map P.Pair_map P.observing_queue P.dt].
  rewrite Hf. cbn [bind].
  destruct (pair_count_cells _ indx cells Hcells Hne) as (m & Hm & Hin & Hall).
  destruct (py_in_str (String ch "") (P.filt_to_pair s)) eqn:Hch.
  - apply py_in_str_char in Hch. rewrite Hm. cbn [bind].
    destruct (Qltb m 1) eqn:Hlt;
      [apply Qltb_lt in Hlt | apply Qltb_ge in Hlt];
      (eexists; split; [done|]); cbn; (split; [done|]).
    + split; [done|]. split; [|done]. intros Hex.
      apply Exists_exists in Hex as (x & Hx & H1).
      rewrite Forall_forall in Hall. specialize (Hall x Hx).
      exfalso. apply (Qlt_not_le _ _ Hlt). by eapply Qle_trans.
    + split; [|done]. intros _ Hbelow.
      rewrite Forall_forall in Hbelow. specialize (Hbelow m Hin).
      exfalso. by apply (Qlt_not_le _ _ Hbelow).
  - eexists. split; [done|]. cbn. split; [done|]. split; [|done].
    intros Hin'. apply py_in_str_char in Hin'. congruence.
Qed.
End PairsFacts.

(** *** On examples *)

(** C1, on a queue in chronological order: with a 10 minute tolerance, an
    entry 15 minutes overdue followed by an entry 5 minutes overdue, clear
    sky and altitudes in band.  The window test is taken once, on the first
    entry, and reused: the purge empties the queue.  Judged against its own
    window the second entry survives, and the same purge keeps it when it
    is alone in the queue. *)
Theorem purge_reuses_window_of_first_entry :
  let s := pairs_default overdue_15_then_5 in
  let c := clear_sky 5 None in
  let due := r_row (100 - 5 / 60 / 24) in
  P.observing_queue (P._purge_queue one_pixel alt_of_dec (list Q) s c) = []
  /\ purge_by_own_window
       (fun o => P._check_mask one_pixel (list Q) s o c)
       (fun o => P._check_alts alt_of_dec (list Q) s o c)
       s c overdue_15_then_5 = [due]
  /\ P.observing_queue
       (P._purge_queue one_pixel alt_of_dec (list Q) (pairs_default [due]) c)
     = [due].
Proof. by vm_compute. Qed.


(** C2 as described fails: an entry due in 5 minutes (inside the 10 minute
    tolerance), compatible filter, clear sky, but a slew of 100 seconds
    against a budget of 15.  The described condition holds for it; the
    reward is minus infinity and nothing is generated. *)
Lemma pairs_reward_in_window_slow_slew :
  let s := pairs_default [r_row (100 + 5 / 60 / 24)] in
  let c := clear_sky 100 (Some "r") in
  existsb (described_ready one_pixel s c) (P.observing_queue s) = true
  /\ fst (P.calc_reward_function one_pixel alt_of_dec (list Q) s c) = NegInf
  /\ fst (P.generate_observations one_pixel alt_of_dec (list Q) s c) = [].
Proof. by vm_compute. Qed.

(** An entry one minute overdue, a 5 second slew, filter g loaded: the
    reward is the configured 101 and the entry comes out as a pair in g. *)
Lemma pairs_reward_iff_first_ready_witness :
  let s := pairs_default [r_row (100 - 1 / 60 / 24)] in
  let c := clear_sky 5 (Some "g") in
  fst (P.calc_reward_function one_pixel alt_of_dec (list Q) s c) = Finite 101
  /\ P.generate_observations one_pixel alt_of_dec (list Q) s c
     = ([Obs.mk 0 1 (100 - 1 / 60 / 24) 0 30 "g" 2 "pair(scripted)" 0],
        pairs_default []).
Proof.
  intros s c.
  destruct (pairs_reward_iff_first_ready one_pixel alt_of_dec (list Q) s c)
    as (Hr & _ & Hg & _).
  assert (first_ready one_pixel (P._purge_queue one_pixel alt_of_dec (list Q) s c)
            c (P.observing_queue (P._purge_queue one_pixel alt_of_dec (list Q) s c))
            0 (r_row (100 - 1 / 60 / 24))) as Hfirst.
  { split; [reflexivity|]. split.
    - split; [reflexivity|]. split; [by left|]. split.
      + intros f [= <-]. reflexivity.
      + exists 24%Q. split; reflexivity.
    - intros j o' Hj. lia. }
  split.
  - apply Hr. eauto.
  - rewrite (Hg _ _ Hfirst). reflexivity.
Defined.

(** C7 as stated fails on the default [indx=None]: the counter under the
    observation's position (pixel 0) is zero, the filter is a pairing
    filter and there is no ignore tag, but another pixel of the map
    carries a pair, the maximum over the whole map is 5, and nothing is
    queued. *)
Lemma pairs_add_observation_whole_map_counter :
  let s := pairs_with_map [0; 5]%Q [] in
  let o := r_row 100 in
  [0; 5]%Q !! one_pixel (P.nside s) (Obs.RA o) (Obs.dec o) = Some 0%Q
  /\ py_in_str (Obs.filter o) (P.filt_to_pair s) = true
  /\ P.to_ignore (list Q) s o = false
  /\ match P.add_observation (list Q) id (fun pm _ _ => pm) s o None with
     | Ok s' => P.observing_queue s' = []
     | Raise _ => False
     end.
Proof. by vm_compute. Qed.

Lemma pairs_add_observation_queues_pair_witness :
  exists s',
    P.add_observation (list Q) id (fun pm _ _ => pm)
      (pairs_with_map [0; 5]%Q []) (r_row 100) (Some [0%nat]) = Ok s'
    /\ P.observing_queue s' = [r_row (100 + 40 / 60 / 24)].
Proof.
  destruct (pairs_add_observation_queues_pair (list Q) id (fun pm _ _ => pm)
              (pairs_with_map [0; 5]%Q []) (r_row 100) (Some [0%nat])
              (Ascii.ascii_of_nat 114) ""%string [0%Q])
    as (s' & Hs & _ & Hq & _).
  - repeat constructor.
  - reflexivity.
  - repeat constructor.
  - done.
  - exists s'. split; [exact Hs|]. rewrite Hq.
    + reflexivity.
    + right. left. reflexivity.
    + repeat constructor.
Defined.

(** ** The scripted survey *)
Module S := Scripted_survey.

(** C4, on the code: [calc_reward_function] calls [self._check_list()]
    without the [conditions] argument that [_check_list] requires, so every
    call raises [TypeError], whatever the script and the conditions; it
    returns neither minus infinity nor the reward value.  So it does on a
    script with one entry due now and inside the altitude band, where
    [generate_observations], which passes the argument, serves that
    entry. *)
Theorem scripted_calc_reward_function_raises :
  (forall (_raDec2Hpid : nat -> Q -> Q -> nat) (s : S.t) (c : Snapshot.t),
     S.calc_reward_function _raDec2Hpid s c = Raise TypeError)
  /\ (let s := scripted_default (Some [1%Q]) 15 [r_row 100] in
      let c := clear_sky 5 None in
      S.calc_reward_function one_pixel s c = Raise TypeError
      /\ S.generate_observations one_pixel s c
         = Ok [Some (S._slice2obs (r_row 100))]).
Proof.
  split; [reflexivity|]. split; [reflexivity | by vm_compute].
Qed.

(** With the attributes [__init__] sets, [extra_features] has no 'altaz'
    entry and the lookup in [_check_alts] raises. *)
Lemma scripted_generate_without_altaz :
  S.generate_observations one_pixel (scripted_default None 15 [r_row 100])
    (clear_sky 5 None) = Raise KeyError.
Proof. by vm_compute. Qed.

Lemma elem_of_np_where_from (mask : list bool) : forall k m,
  m ∈ np_where_from k mask <-> (k <= m)%nat /\ mask !! (m - k)%nat = Some true.
Proof.
  induction mask as [|b mask IH]; intros k m; cbn [np_where_from].
  - rewrite elem_of_nil. split; [done | by intros [_ ?]].
  - assert (m ∈ np_where_from (S k) mask
            <-> (k < m)%nat /\ (b :: mask) !! (m - k)%nat = Some true) as Hrec.
    { rewrite IH. split; intros [Hk Hm]; (split; [lia|]).
      - by replace (m - k)%nat with (S (m - S k)) by lia.
      - by replace (m - k)%nat with (S (m - S k)) in Hm by lia. }
    destruct b.
    + rewrite elem_of_cons, Hrec. split.
      * intros [-> | [? ?]]; [|split; [lia | done]].
        split; [lia|]. by rewrite Nat.sub_diag.
      * intros [Hk Hm]. destruct (decide (m = k)) as [->|]; [by left|].
        right. split; [lia | done].
    + rewrite Hrec. split; intros [Hk Hm]; (split; [lia | done]) || idtac.
      destruct (decide (m = k)) as [->|]; [|split; [lia | done]].
      by rewrite Nat.sub_diag in Hm.
Qed.

Lemma elem_of_np_where (mask : list bool) (m : nat) :
  m ∈ np_where mask <-> mask !! m = Some true.
Proof.
  unfold np_where. rewrite elem_of_np_where_from, Nat.sub_0_r.
  split; [by intros [_ ?] | split; [lia | done]].
Qed.

Lemma window_mask_lookup (s : S.t) (now : Q) (mask : list bool) (m : nat) :
  S.window_mask s now = Ok mask ->
  mask !! m = Some true
  <-> exists w, S.obs_wanted s !! m = Some w
        /\ S.obs_log s !! m = Some false
        /\ (Qabs (Obs.mjd w - now) < S.mjd_tol s)%Q.
Proof.
  unfold S.window_mask.
  destruct (length (S.obs_wanted s) =? length (S.obs_log s))%nat; [|done].
  intros [= <-]. rewrite lookup_zip_with_Some. split.
  - intros (w & logged & Hb & Hw & Hl). symmetry in Hb.
    apply andb_true_iff in Hb as [Hin Hlog]. apply Qltb_lt in Hin.
    apply negb_true_iff in Hlog as ->. eauto.
  - intros (w & Hw & Hl & Hin). exists w, false. apply Qltb_lt in Hin.
    split; [|done]. symmetry. apply andb_true_iff. split; [exact Hin | done].
Qed.

Lemma match_loop_spec (s : S.t) (o : Obs.t) (log : list bool) (ms : list nat) :
  Forall (fun m => is_Some (S.obs_wanted s !! m)) ms ->
  (S.match_loop s o ms log = log
   /\ forall m w, m ∈ ms -> S.obs_wanted s !! m = Some w ->
                  S.same_target w o = false)
  \/ (exists j w, j ∈ ms /\ S.obs_wanted s !! j = Some w
        /\ S.same_target w o = true
        /\ S.match_loop s o ms log = <[j := true]> log).
Proof.
  induction 1 as [|m ms [w Hw] _ IH]; cbn [S.match_loop].
  - left. split; [done|]. intros m w Hm. by apply elem_of_nil in Hm.
  - rewrite Hw. destruct (S.same_target w o) eqn:Hsame.
    + right. exists m, w. repeat split; try done. apply elem_of_cons; by left.
    + destruct IH as [[Heq Hno] | (j & w' & Hj & Hw' & Hs & Heq)].
      * left. split; [done|]. intros m' w' Hm' Hw'.
        apply elem_of_cons in Hm' as [-> | Hm']; [congruence | by eapply Hno].
      * right. exists j, w'. repeat split; try done.
        apply elem_of_cons; by right.
Qed.

Lemma same_target_spec (w o : Obs.t) :
  S.same_target w o = true
  <-> (Obs.RA w == Obs.RA o)%Q /\ (Obs.dec w == Obs.dec o)%Q
      /\ Obs.filter w = Obs.filter o.
Proof.
  unfold S.same_target.
  rewrite !andb_true_iff, !Qeq_bool_iff, String.eqb_eq. tauto.
Qed.

(** One call of [add_observation] on a survey whose log is as long as its
    script: the log is unchanged, or one entry that was inside the window,
    on target and not yet marked is now marked. *)
Lemma add_observation_step (s : S.t) (o : Obs.t) :
  length (S.obs_wanted s) = length (S.obs_log s) ->
  py_in_str (S.ignore_obs s) (Obs.note o) = false ->
  exists s', S.add_observation s o = Ok s'
    /\ S.obs_wanted s' = S.obs_wanted s
    /\ S.mjd_tol s' = S.mjd_tol s
    /\ S.ignore_obs s' = S.ignore_obs s
    /\ ((S.obs_log s' = S.obs_log s
         /\ forall m w, S.obs_wanted s !! m = Some w ->
              S.obs_log s !! m = Some false ->
              (Qabs (Obs.mjd w - Obs.mjd o) < S.mjd_tol s)%Q ->
              S.same_target w o = false)
        \/ (exists j w, S.obs_wanted s !! j = Some w
              /\ S.obs_log s !! j = Some false
              /\ (Qabs (Obs.mjd w - Obs.mjd o) < S.mjd_tol s)%Q
              /\ S.same_target w o = true
              /\ S.obs_log s' = <[j := true]> (S.obs_log s))).
Proof.
  intros Hlen Hig. unfold S.add_observation. rewrite Hig. cbn [negb].
  destruct (S.window_mask (S.set_reward_checked false s) (Obs.mjd o))
    as [mask|e] eqn:Hmask.
  2:{ unfold S.window_mask in Hmask. cbn in Hmask.
      rewrite Hlen, Nat.eqb_refl in Hmask. done. }
  cbn [bind]. eexists. split; [done|]. cbn [S.obs_wanted S.set_obs_log
    S.set_reward_checked S.mjd_tol S.ignore_obs S.obs_log].
  repeat split.
  pose proof (fun m => window_mask_lookup _ _ _ m Hmask) as Hlook.
  cbn [S.obs_wanted S.set_reward_checked S.mjd_tol S.obs_log] in Hlook.
  destruct (match_loop_spec (S.set_reward_checked false s) o (S.obs_log s)
              (np_where mask))
    as [[Heq Hno] | (j & w & Hj & Hw & Hs & Heq)];
    cbn [S.obs_wanted S.set_reward_checked] in *.
  - apply Forall_forall. intros m Hm.
    apply elem_of_np_where, Hlook in Hm as (w & -> & _). by eexists.
  - left. split; [done|]. intros m w Hw Hl Hin.
    apply (Hno m w); [|done]. apply elem_of_np_where, Hlook. eauto.
  - right. exists j, w. apply elem_of_np_where, Hlook in Hj
      as (w' & Hw' & Hl & Hin).
    assert (w' = w) as -> by congruence. done.
Qed.

(** C6, as the code has it: the window is open.  For a script entry [w]
    not yet marked, an executed observation without the ignore tag, with
    the entry's position and filter and with an epoch strictly less than
    the tolerance away from the entry's, [add_observation] marks exactly
    one entry, one that was unmarked, on target and inside the window, and
    changes nothing else in the log; a second call with the same
    observation leaves that entry as it is: it marks nothing, or one other
    entry that was still unmarked. *)
Theorem scripted_add_observation_marks_one (s : S.t) (o w : Obs.t) (i : nat) :
  length (S.obs_wanted s) = length (S.obs_log s) ->
  py_in_str (S.ignore_obs s) (Obs.note o) = false ->
  S.obs_wanted s !! i = Some w ->
  S.obs_log s !! i = Some false ->
  (Qabs (Obs.mjd w - Obs.mjd o) < S.mjd_tol s)%Q ->
  (Obs.RA w == Obs.RA o)%Q -> (Obs.dec w == Obs.dec o)%Q ->
  Obs.filter w = Obs.filter o ->
  exists j w' s' s'',
    S.add_observation s o = Ok s'
    /\ S.obs_wanted s !! j = Some w'
    /\ S.same_target w' o = true
    /\ (Qabs (Obs.mjd w' - Obs.mjd o) < S.mjd_tol s)%Q
    /\ S.obs_log s !! j = Some false
    /\ S.obs_log s' = <[j := true]> (S.obs_log s)
    /\ S.add_observation s' o = Ok s''
    /\ S.obs_log s'' !! j = Some true
    /\ (S.obs_log s'' = S.obs_log s'
        \/ exists k, k <> j /\ S.obs_log s' !! k = Some false
             /\ S.obs_log s'' = <[k := true]> (S.obs_log s')).
Proof.
  intros Hlen Hig Hw Hl Hin Hra Hdec Hf.
  destruct (add_observation_step s o Hlen Hig)
    as (s' & Hs' & Hwant & Htol & Hign & [[_ Hno] | (j & w' & Hw' & Hl' & Hin' & Hsame & Hlog)]).
  { assert (S.same_target w o = true) as Hst by by apply same_target_spec.
    rewrite (Hno i w Hw Hl Hin) in Hst. done. }
  assert (S.obs_log s' !! j = Some true) as Hj.
  { rewrite Hlog. apply list_lookup_insert_eq. by eapply lookup_lt_Some. }
  destruct (add_observation_step s' o)
    as (s'' & Hs'' & _ & _ & _ & Hcase).
  { by rewrite Hwant, Hlog, length_insert. }
  { by rewrite Hign. }
  exists j, w', s', s''. repeat split; try done.
  - destruct Hcase as [[-> _] | (k & _ & _ & Hk & _ & _ & ->)]; [done|].
    rewrite list_lookup_insert_ne; [done|]. intros ->. congruence.
  - destruct Hcase as [[-> _] | (k & _ & _ & Hk & _ & _ & Hlog'')]; [by left|].
    right. exists k. repeat split; try done. intros ->. congruence.
Qed.

(** C6 as stated fails at the edge of the window: an observation exactly
    one tolerance (90 minutes, a sixteenth of a day) after the entry's
    epoch, same position and filter, marks nothing. *)
Lemma scripted_add_observation_window_edge :
  let s := scripted_default None 90 [r_row 100] in
  let o := r_row (100 + 1 / 16) in
  (Qabs (Obs.mjd o - 100) <= S.mjd_tol s)%Q
  /\ S.same_target (r_row 100) o = true
  /\ S.obs_log s = [false]
  /\ match S.add_observation s o with
     | Ok s' => S.obs_log s' = [false]
     | Raise _ => False
     end.
Proof. by vm_compute. Qed.

Lemma scripted_add_observation_marks_one_witness :
  let s := scripted_default None 15 [r_row 100; r_row 100] in
  let o := r_row (100 + 5 / 60 / 24) in
  exists j w' s' s'',
    S.add_observation s o = Ok s'
    /\ S.obs_wanted s !! j = Some w'
    /\ S.obs_log s' = <[j := true]> (S.obs_log s)
    /\ S.add_observation s' o = Ok s''
    /\ S.obs_log s'' !! j = Some true.
Proof.
  intros s o.
  destruct (scripted_add_observation_marks_one s o (r_row 100) 0)
    as (j & w' & s' & s'' & H1 & H2 & _ & _ & _ & H3 & H4 & H5 & _);
    [reflexivity..|].
  exists j, w', s', s''. repeat split; assumption.
Defined.

(** ** The telemetry snapshot *)
Module C := Conditions.

Section ConditionsFacts.
Variable ud_grade : list Q -> nat -> result (list Q).
Variable _approx_RaDec2AltAz :
  list Q -> list Q -> Q -> Q -> option Q -> result (list Q * list Q).
Variable m5_flat_sed : string -> Q -> Q -> Q -> Q -> Q.
Variable radians : Q -> Q.
Variable two_pi : Q.

Implicit Types (c : C.t).

Local Abbreviation alt := (C.alt _approx_RaDec2AltAz).
Local Abbreviation az := (C.az _approx_RaDec2AltAz).
Local Abbreviation HA := (C.HA radians two_pi).
Local Abbreviation M5Depth := (C.M5Depth m5_flat_sed).
Local Abbreviation calc_M5Depth_loop := (C.calc_M5Depth_loop m5_flat_sed).
Local Abbreviation airmass_set := (C.airmass_set ud_grade).
Local Abbreviation skybrightness_set := (C.skybrightness_set ud_grade).
Local Abbreviation skybrightness_loop := (C.skybrightness_loop ud_grade).

Lemma calc_M5Depth_loop_cache c m items : forall acc,
  calc_M5Depth_loop (C.with_M5Depth m c) items acc
  = calc_M5Depth_loop c items acc.
Proof.
  induction items as [|[f sky] items IH]; intros acc; [done|].
  cbn [C.calc_M5Depth_loop].
  change (C.m5_row m5_flat_sed (C.with_M5Depth m c) f sky)
    with (C.m5_row m5_flat_sed c f sky).
  destruct (C.m5_row m5_flat_sed c f sky); [apply IH | done].
Qed.

(** A read of [M5Depth] on an object whose cache is empty: the value and
    the object depend on the raw inputs only. *)
Lemma M5Depth_fresh c m :
  C._M5Depth c = None ->
  M5Depth (C.with_M5Depth None (C.with_M5Depth m c)) = M5Depth c.
Proof.
  intros Hc. unfold C.M5Depth, C.calc_M5Depth. rewrite Hc. cbn [C._M5Depth
    C.with_M5Depth C._skybrightness].
  rewrite !calc_M5Depth_loop_cache.
  by destruct (calc_M5Depth_loop c (C._skybrightness c) []) as [[e|] d].
Qed.

Lemma skybrightness_loop_cache m indict : forall c,
  skybrightness_loop indict (C.with_M5Depth m c)
  = (fst (skybrightness_loop indict c),
     C.with_M5Depth m (snd (skybrightness_loop indict c))).
Proof.
  induction indict as [|[key value] indict IH]; intros c; [done|].
  cbn [C.skybrightness_loop C.nside C.with_M5Depth].
  destruct (ud_grade value (C.nside c)); [|done].
  apply (IH (C.with_dicts (C.dict_set key a (C._skybrightness c))
               (C._FWHMeff c) c)).
Qed.

Lemma M5Depth_stable c r c1 :
  M5Depth c = (Ok r, c1) -> M5Depth c1 = (Ok r, c1).
Proof.
  unfold C.M5Depth at 1. destruct (C._M5Depth c) as [d|] eqn:Hc.
  - intros [= <- <-]. unfold C.M5Depth. by rewrite Hc.
  - unfold C.calc_M5Depth.
    destruct (calc_M5Depth_loop c (C._skybrightness c) []) as [[e|] d];
      [done|]. by intros [= <- <-].
Qed.

(** The hour angle is computed from the local sidereal time alone, and the
    time setter leaves its cache as it is. *)
Lemma mjd_set_keeps_HA c v : C._HA (C.mjd_set v c) = C._HA c.
Proof. done. Qed.

(** What the setters clear, the values of altitude, azimuth and hour angle
    after a write, the independence of a limiting-magnitude read from the
    old cache, and the stability of repeated reads. *)
Lemma cache_clears_and_reads_stable c :
  (forall v, C._alt (C.mjd_set v c) = None /\ C._az (C.mjd_set v c) = None
             /\ C._mjd (C.mjd_set v c) = Some v)
  /\ (forall v, C._HA (C.lmst_set v c) = None
                /\ C._lmst (C.lmst_set v c) = Some v)
  /\ (forall v l, let c' := C.lmst_set l (C.mjd_set v c) in
                  C._alt c' = None /\ C._az c' = None /\ C._HA c' = None)
  /\ (forall v c', airmass_set v c = Ok c' -> C._M5Depth c' = None)
  /\ (forall d c', skybrightness_set d c = (None, c') -> C._M5Depth c' = None)
  /\ (forall d, C._M5Depth (C.FWHMeff_set d c) = None)
  /\ (forall v a z,
        let fresh := _approx_RaDec2AltAz (C.ra c) (C.dec c) (C.latitude_rad c)
                       (C.longitude_rad c) (Some v) in
        fst (alt (C.mjd_set v (C.with_altaz a z c)))
        = match fresh with Ok p => Ok (Some (fst p)) | Raise e => Raise e end
        /\ fst (az (C.mjd_set v (C.with_altaz a z c)))
           = match fresh with Ok p => Ok (Some (snd p)) | Raise e => Raise e end)
  /\ (forall v h,
        fst (HA (C.lmst_set v (C.with_HA h c)))
        = Ok (Some (map (fun x => if Qltb x 0 then (x + two_pi)%Q else x)
                      (map (fun r => (radians (v * 360 / 24) - r)%Q) (C.ra c)))))
  /\ (forall c', C._M5Depth c' = None ->
        M5Depth c'
        = (match (C.calc_M5Depth m5_flat_sed c').1 with
           | Some e => Raise e
           | None => Ok (C._M5Depth (C.calc_M5Depth m5_flat_sed c').2)
           end, (C.calc_M5Depth m5_flat_sed c').2))
  /\ (forall v m c1 c2,
        airmass_set v c = Ok c1 -> airmass_set v (C.with_M5Depth m c) = Ok c2 ->
        M5Depth c2 = M5Depth c1)
  /\ (forall d m c1 c2,
        skybrightness_set d c = (None, c1) ->
        skybrightness_set d (C.with_M5Depth m c) = (None, c2) ->
        M5Depth c2 = M5Depth c1)
  /\ (forall d m,
        M5Depth (C.FWHMeff_set d (C.with_M5Depth m c))
        = M5Depth (C.FWHMeff_set d c))
  /\ alt (snd (alt c)) = (fst (alt c), snd (alt c))
  /\ az (snd (az c)) = (fst (az c), snd (az c))
  /\ HA (snd (HA c)) = (fst (HA c), snd (HA c))
  /\ (forall r c1, M5Depth c = (Ok r, c1) -> M5Depth c1 = (Ok r, c1)).
Proof.
  split; [done|]. split; [done|]. split; [done|]. split.
  { intros v c'. unfold C.airmass_set.
    destruct (ud_grade v (C.nside c)); [|done]. by intros [= <-]. }
  split.
  { intros d c'. unfold C.skybrightness_set.
    destruct (skybrightness_loop d c) as [[e|] c0]; [done|].
    by intros [= <-]. }
  split; [done|]. split.
  { intros v a z fresh. unfold C.alt, C.az, C.calc_altAz.
    cbn [C.mjd_set C.with_altaz C.with_time C._alt C._az C.ra C.dec
         C.latitude_rad C.longitude_rad C._mjd]. fold fresh.
    by destruct fresh. }
  split.
  { intros v h. done. }
  split.
  { intros c' Hc. unfold C.M5Depth. rewrite Hc.
    by destruct (C.calc_M5Depth m5_flat_sed c') as [[e|] c'']. }
  split.
  { intros v m c1 c2. unfold C.airmass_set.
    cbn [C.nside C.with_M5Depth].
    destruct (ud_grade v (C.nside c)) as [a|]; [|done].
    cbn [bind]. intros [= <-] [= <-].
    apply (M5Depth_fresh
             (C.with_M5Depth None
                (C.with_maps (C._bulk_cloud c) (C._slewtime c) (Some a) c)) m).
    done. }
  split.
  { intros d m c1 c2. unfold C.skybrightness_set.
    rewrite skybrightness_loop_cache.
    destruct (skybrightness_loop d c) as [[e|] c0]; cbn [fst snd]; [done|].
    intros [= <-] [= <-].
    apply (M5Depth_fresh (C.with_M5Depth None c0) m). done. }
  split.
  { intros d m.
    apply (M5Depth_fresh (C.FWHMeff_set d c) m). done. }
  split.
  { destruct (alt c) as [r c1] eqn:E; cbn [fst snd].
    unfold C.alt, C.calc_altAz in E. destruct (C._alt c) eqn:Ha.
    - injection E as <- <-. unfold C.alt. by rewrite Ha.
    - destruct (_approx_RaDec2AltAz _ _ _ _ _) as [p|e] eqn:Hp;
        injection E as <- <-; [done|].
      unfold C.alt, C.calc_altAz. by rewrite Ha, Hp. }
  split.
  { destruct (az c) as [r c1] eqn:E; cbn [fst snd].
    unfold C.az, C.calc_altAz in E. destruct (C._az c) eqn:Ha.
    - injection E as <- <-. unfold C.az. by rewrite Ha.
    - destruct (_approx_RaDec2AltAz _ _ _ _ _) as [p|e] eqn:Hp;
        injection E as <- <-; [done|].
      unfold C.az, C.calc_altAz. by rewrite Ha, Hp. }
  split.
  { destruct (HA c) as [r c1] eqn:E; cbn [fst snd].
    unfold C.HA, C.calc_HA in E. destruct (C._HA c) eqn:Ha.
    - injection E as <- <-. unfold C.HA. by rewrite Ha.
    - destruct (C._lmst c) as [l|] eqn:Hl; injection E as <- <-; [done|].
      unfold C.HA, C.calc_HA. by rewrite Ha, Hl. }
  apply M5Depth_stable.
Qed.

(** The resampler's contract: what it returns has the pixel count of the
    requested resolution. *)
Hypothesis ud_grade_npix : forall m n m',
  ud_grade m n = Ok m' -> length m' = C.nside2npix n.

Lemma skybrightness_loop_npix indict : forall c e c',
  Forall (fun kv => length kv.2 = C.nside2npix (C.nside c)) (C._skybrightness c) ->
  skybrightness_loop indict c = (e, c') ->
  C.nside c' = C.nside c
  /\ Forall (fun kv => length kv.2 = C.nside2npix (C.nside c))
       (C._skybrightness c').
Proof using ud_grade_npix.
  induction indict as [|[key value] indict IH]; intros c e c' Hinv;
    cbn [C.skybrightness_loop].
  - by intros [= <- <-].
  - destruct (ud_grade value (C.nside c)) as [m|] eqn:Hm;
      [|by intros [= <- <-]].
    intros Hloop. apply IH in Hloop; [done|].
    cbn [C._skybrightness C.with_dicts C.nside].
    apply ud_grade_npix in Hm. clear -Hinv Hm.
    induction Hinv as [|[k v] d Hkv Hd IHd]; cbn [C.dict_set].
    + by repeat constructor.
    + destruct (String.eqb key k); constructor; done.
Qed.

(** The four setters that resample: what they store has the canonical
    pixel count. *)
Lemma resampled_setters_npix c value :
  (forall c', C.bulk_cloud_set ud_grade value c = Ok c' ->
     length <$> C.bulk_cloud c' = Some (C.nside2npix (C.nside c)))
  /\ (forall c', C.slewtime_set ud_grade value c = Ok c' ->
        length <$> C.slewtime c' = Some (C.nside2npix (C.nside c)))
  /\ (forall c', airmass_set value c = Ok c' ->
        length <$> C.airmass c' = Some (C.nside2npix (C.nside c)))
  /\ (forall indict c',
        Forall (fun kv => length kv.2 = C.nside2npix (C.nside c))
          (C.skybrightness c) ->
        skybrightness_set indict c = (None, c') ->
        Forall (fun kv => length kv.2 = C.nside2npix (C.nside c))
          (C.skybrightness c')).
Proof using ud_grade_npix.
  unfold C.bulk_cloud_set, C.slewtime_set, C.airmass_set.
  destruct (ud_grade value (C.nside c)) as [m|] eqn:Hm; cbn [bind].
  - apply ud_grade_npix in Hm.
    repeat split; try (intros c' [= <-]; cbn; by rewrite Hm).
    intros indict c' Hinv. unfold C.skybrightness_set.
    destruct (skybrightness_loop indict c) as [[e'|] c0] eqn:Hloop; [done|].
    intros [= <-]. by apply skybrightness_loop_npix in Hloop as [_ ?].
  - repeat split; try done.
    intros indict c' Hinv. unfold C.skybrightness_set.
    destruct (skybrightness_loop indict c) as [[e'|] c0] eqn:Hloop; [done|].
    intros [= <-]. by apply skybrightness_loop_npix in Hloop as [_ ?].
Qed.
End ConditionsFacts.

(** *** On examples *)

(** C5, on the seeing: at [nside = 1] the grid has 12 pixels.  A sky
    brightness map of 48 pixels is stored with 12; a seeing map of 48
    pixels is stored as supplied, with 48. *)
Theorem FWHMeff_set_stores_foreign_resolution :
  let foreign := replicate 48 (7 # 10)%Q in
  C.nside2npix (C.nside conditions_init) = 12%nat
  /\ (length <$> C.dict_get "r"
        (C.skybrightness
           (C.skybrightness_set ud_nearest [("r", foreign)] conditions_init).2))
     = Some 12%nat
  /\ (length <$> C.dict_get "r"
        (C.FWHMeff (C.FWHMeff_set [("r", foreign)] conditions_init)))
     = Some 48%nat.
Proof. by vm_compute. Qed.

(** ** The deep drilling survey *)
Module D := Deep_drilling_survey.

Lemma np_take_app {A : Type} (a : list A) (i1 i2 : list nat) (x1 x2 : list A) :
  np_take a i1 = Ok x1 -> np_take a i2 = Ok x2 ->
  np_take a (i1 ++ i2) = Ok (x1 ++ x2).
Proof.
  revert x1. induction i1 as [|i i1 IH]; intros x1; cbn [np_take app].
  - by intros [= <-].
  - destruct (a !! i) as [x|]; [|done].
    destruct (np_take a i1) as [xs|]; [|done]. cbn [bind].
    intros [= <-] H2. by rewrite (IH xs eq_refl H2).
Qed.

(** Indexing with the positions where a test holds selects, in order, the
    rows on which it holds. *)
Lemma np_take_where {A : Type} (p : A -> bool) (l : list A) : forall pre,
  np_take (pre ++ l) (np_where_from (length pre) (map p l))
  = Ok (filter (fun x => p x) l).
Proof.
  induction l as [|x l IH]; intros pre; [done|].
  cbn [map np_where_from]. rewrite filter_cons.
  specialize (IH (pre ++ [x])).
  rewrite <- app_assoc, length_app, Nat.add_1_r in IH. cbn [app] in IH.
  destruct (p x) eqn:Hp.
  - cbn [np_take]. rewrite lookup_app_r; [|lia]. rewrite Nat.sub_diag.
    cbn [lookup list_lookup]. rewrite IH. cbn [bind]. by rewrite decide_True.
  - rewrite IH. rewrite decide_False; [done | by intros []].
Qed.

Lemma np_compress_filter {A : Type} (p : A -> bool) (l : list A) :
  D.np_compress (map p l) l = filter (fun x => p x) l.
Proof.
  induction l as [|x l IH]; [done|]. cbn [map D.np_compress].
  rewrite filter_cons, IH.
  destruct (p x); [by rewrite decide_True |].
  rewrite decide_False; [done | by intros []].
Qed.

Section DeepDrillingFacts.
Variable radians : Q -> Q.
Variable _check_feasibility : D.t -> Snapshot.t -> bool.

Local Abbreviation generate_observations_rough :=
  (D.generate_observations_rough _check_feasibility).
Local Abbreviation __init__ := (D.__init__ radians).

(** C8: for feasible conditions the generated sequence is the stored batch,
    every row stamped with expiry = current time + estimated duration +
    grace pad, reduced to the rows whose filter is mounted, the rows in the
    loaded filter first and the others after them, each group in the order
    of the batch. *)
Theorem dd_generate_stamps_filters_reorders (s : D.t) (c : Snapshot.t) :
  _check_feasibility s c = true ->
  let expiry := (Snapshot.mjd c + D.approx_time s + D.flush_pad s)%Q in
  let stamped := map (Obs.set_flush_by_mjd expiry) (D.observations s) in
  let kept := filter (fun o => is_mounted c o) stamped in
  let firsts := filter (fun o => D.is_current c o) kept in
  let others := filter (fun o => negb (D.is_current c o)) kept in
  generate_observations_rough s c = Ok (firsts ++ others)
  /\ Forall (fun o => Obs.flush_by_mjd o = expiry
                      /\ Obs.filter o ∈ Snapshot.mounted_filters c)
       (firsts ++ others)
  /\ Forall (fun o => Some (Obs.filter o) = Snapshot.current_filter c) firsts
  /\ Forall (fun o => Some (Obs.filter o) <> Snapshot.current_filter c) others
  /\ firsts `sublist_of` stamped
  /\ others `sublist_of` stamped
  /\ (forall o, o ∈ stamped -> Obs.filter o ∈ Snapshot.mounted_filters c ->
                o ∈ firsts ++ others).
Proof.
  intros Hfeas expiry stamped kept firsts others.
  assert (forall o, is_mounted c o = true
                    <-> Obs.filter o ∈ Snapshot.mounted_filters c) as Hmounted.
  { intros o. unfold is_mounted. rewrite existsb_exists, list_elem_of_In.
    split.
    - intros (f & Hin & Heq). by apply String.eqb_eq in Heq as ->.
    - intros Hin. exists (Obs.filter o). by rewrite String.eqb_refl. }
  assert (forall o, D.is_current c o = true
                    <-> Some (Obs.filter o) = Snapshot.current_filter c) as Hcur.
  { intros o. unfold D.is_current.
    destruct (Snapshot.current_filter c) as [f|]; [|done].
    rewrite String.eqb_eq. split; congruence. }
  split.
  { unfold D.generate_observations_rough. rewrite Hfeas.
    fold expiry. fold stamped. unfold is_mounted in kept.
    rewrite (np_compress_filter
               (fun o => existsb (String.eqb (Obs.filter o))
                           (Snapshot.mounted_filters c)) stamped).
    fold kept. apply np_take_app; apply (np_take_where _ kept []). }
  split.
  { apply Forall_forall. intros o Ho.
    assert (o ∈ kept) as Hk.
    { apply elem_of_app in Ho as [Ho | Ho];
        by apply list_elem_of_filter in Ho as [_ ?]. }
    apply list_elem_of_filter in Hk as [Hm Hs]. split.
    - apply list_elem_of_fmap in Hs as (o0 & -> & _). done.
    - apply Hmounted. by apply Is_true_true. }
  split.
  { apply Forall_forall. intros o Ho.
    apply list_elem_of_filter in Ho as [Ho _].
    apply Hcur. by apply Is_true_true. }
  split.
  { apply Forall_forall. intros o Ho.
    apply list_elem_of_filter in Ho as [Ho _]. rewrite <- Hcur.
    apply Is_true_true, negb_true_iff in Ho. congruence. }
  split; [by etrans; apply sublist_filter|].
  split; [by etrans; apply sublist_filter|].
  intros o Hs Hm. apply Hmounted, Is_true_true in Hm.
  assert (o ∈ kept) as Hk by by apply list_elem_of_filter.
  apply elem_of_app. destruct (D.is_current c o) eqn:Hc.
  - left. apply list_elem_of_filter. split; [by apply Is_true_true | done].
  - right. apply list_elem_of_filter. split; [|done].
    apply Is_true_true. by rewrite Hc.
Qed.

Lemma chars_length (f : string) : length (D.chars f) = String.length f.
Proof. induction f as [|ch f IH]; [done|]. cbn. by rewrite IH. Qed.

Lemma chars_substring (f : string) : forall m,
  D.chars (String.substring 0 m f) = take m (D.chars f).
Proof.
  induction f as [|ch f IH]; intros [|m]; try done.
  cbn [String.substring D.chars take]. by rewrite IH.
Qed.

Lemma build_rows_nil ra dec exptime nexp name (nvis : list Z) (f : string) :
  D.build_rows ra dec exptime nexp name nvis f = []
  <-> Forall (fun n => (n <= 0)%Z) (take (String.length f) nvis).
Proof.
  unfold D.build_rows. rewrite <- chars_length.
  generalize (D.chars f) as fs. clear f.
  induction nvis as [|n nvis IH]; intros [|ch fs]; cbn [zip_with flat_map
    take length]; try (split; [by constructor | done]).
  rewrite Forall_cons, <- IH. cbn [fst snd]. unfold D.range_len.
  split.
  - intros Happ. apply app_eq_nil in Happ as [Hrep Hrest]. split; [|done].
    destruct (Z.to_nat n) eqn:Hn; [lia | done].
  - intros [Hn Hrest]. rewrite Hrest.
    replace (Z.to_nat n) with 0%nat by lia. done.
Qed.

(** C9, as the code has it: a visit-count list whose length differs from
    the filter string raises nothing of its own.  Counts and filters are
    paired position by position up to the shorter of the two and the rest
    is ignored, so the constructor returns what it returns on the two
    arguments cut to that length: a survey as soon as one of the paired
    counts is positive, and otherwise the [ValueError] that
    [np.concatenate] raises on an empty batch. *)
Theorem dd_init_mismatch_is_truncation (RA dec_deg : Q) (filters : string)
    (nvis : list Z) (exptime nexp : Q) (name : string) (rv : option Q)
    (readtime fct pad : Q) :
  length nvis <> String.length filters ->
  let m := (length nvis `min` String.length filters)%nat in
  let built := __init__ RA dec_deg (D.SeqStr filters) nvis exptime nexp name
                 rv readtime fct pad in
  built = __init__ RA dec_deg (D.SeqStr (String.substring 0 m filters))
            (take m nvis) exptime nexp name rv readtime fct pad
  /\ (Exists (fun n => (0 < n)%Z) (take m nvis) -> exists s, built = Ok s)
  /\ (Forall (fun n => (n <= 0)%Z) (take m nvis) -> built = Raise ValueError).
Proof.
  intros _ m built.
  assert (take (String.length filters) nvis = take m nvis) as Htake.
  { subst m. destruct (decide (length nvis <= String.length filters)%nat).
    - rewrite Nat.min_l by done. by rewrite !take_ge by lia.
    - by rewrite Nat.min_r by lia. }
  split; [|split].
  - subst built. unfold D.__init__.
    replace (D.build_rows (radians RA) (radians dec_deg) exptime nexp name
               (take m nvis) (String.substring 0 m filters))
      with (D.build_rows (radians RA) (radians dec_deg) exptime nexp name
              nvis filters); [done|].
    unfold D.build_rows. rewrite chars_substring. f_equal. symmetry.
    apply zip_with_take_both'; rewrite chars_length; lia.
  - intros Hex. subst built. unfold D.__init__.
    destruct (D.build_rows (radians RA) (radians dec_deg) exptime nexp name
                nvis filters) eqn:Hrows; [|by eexists].
    apply build_rows_nil in Hrows. rewrite Htake in Hrows.
    apply Exists_exists in Hex as (n & Hn & Hpos).
    rewrite Forall_forall in Hrows. specialize (Hrows n Hn). lia.
  - intros Hall. subst built. unfold D.__init__.
    rewrite <- Htake in Hall.
    by rewrite (proj2 (build_rows_nil (radians RA) (radians dec_deg) exptime
                         nexp name nvis filters) Hall).
Qed.
End DeepDrillingFacts.

(** *** On examples *)

(** Mounted filters r and g, filter r loaded, batch built from 'rgiz':
    the generated sequence has the two r rows first, then the g row, and
    nothing in i or z. *)
Lemma dd_generate_stamps_filters_reorders_witness :
  match dd_rgiz with
  | Some s =>
      map Obs.filter (D.observations s) = ["g"; "i"; "r"; "r"; "z"]
      /\ (D.approx_time s == (5 * (30 + 2 * 2) + 120 * 4) / 3600 / 24)%Q
      /\ match D.generate_observations_rough (fun _ _ => true) s
                 (clear_sky 5 (Some "r")) with
         | Ok out =>
             map Obs.filter out = ["r"; "r"; "g"]
             /\ Forall (fun o => (Obs.flush_by_mjd o
                                  == 100 + 650 / 3600 / 24 + 30 / 60 / 24)%Q)
                  out
         | Raise _ => False
         end
  | None => False
  end.
Proof.
  destruct dd_rgiz as [s|] eqn:Hs; [|by vm_compute in Hs].
  destruct (dd_generate_stamps_filters_reorders (fun _ _ => true) s
              (clear_sky 5 (Some "r")) eq_refl) as [-> _].
  vm_compute in Hs. injection Hs as <-.
  split; [by vm_compute|]. split; [by vm_compute|].
  split; [by vm_compute|].
  repeat (constructor; [by vm_compute|]). constructor.
Defined.

(** C9 as stated fails: five filters and two counts build a survey, of the
    first two filters only. *)
Lemma dd_init_short_counts_builds :
  match D.__init__ id 0 0 (D.SeqStr "rgizy") [1; 1]%Z 30 2 "DD" (Some 100%Q)
          2 120 30 with
  | Ok s => map Obs.filter (D.observations s) = ["g"; "r"]
  | Raise _ => False
  end.
Proof. by vm_compute. Qed.

Lemma dd_init_mismatch_is_truncation_witness :
  D.__init__ id 0 0 (D.SeqStr "rgizy") [1; 1]%Z 30 2 "DD" (Some 100%Q) 2 120 30
  = D.__init__ id 0 0 (D.SeqStr "rg") [1; 1]%Z 30 2 "DD" (Some 100%Q) 2 120 30.
Proof.
  destruct (dd_init_mismatch_is_truncation id 0 0 "rgizy" [1; 1]%Z 30 2 "DD"
              (Some 100%Q) 2 120 30) as [H _]; [by vm_compute|].
  exact H.
Defined.

(** * Further properties of the modelled code *)

(** ** The paired-observation queue: purge, scan and admission *)
Section PairsQueueFacts.
Variable _raDec2Hpid : nat -> Q -> Q -> nat.
Variable _approx_RaDec2AltAz : Q -> Q -> Q -> Q -> Q -> Q * Q.
Variable PairMap : Type.
Variable feature : PairMap -> list Q.
Variable feature_add_observation :
  PairMap -> Obs.t -> option (list nat) -> PairMap.

Implicit Types (s : P.t PairMap) (c : Snapshot.t) (o : Obs.t).

Local Abbreviation check_mask := (P._check_mask _raDec2Hpid PairMap).
Local Abbreviation check_alts := (P._check_alts _approx_RaDec2AltAz PairMap).
Local Abbreviation purge_loop :=
  (P.purge_loop _raDec2Hpid _approx_RaDec2AltAz PairMap).
Local Abbreviation purge_queue :=
  (P._purge_queue _raDec2Hpid _approx_RaDec2AltAz PairMap).
Local Abbreviation check_observation := (P._check_observation _raDec2Hpid PairMap).
Local Abbreviation calc_reward_function :=
  (P.calc_reward_function _raDec2Hpid _approx_RaDec2AltAz PairMap).
Local Abbreviation generate_observations :=
  (P.generate_observations _raDec2Hpid _approx_RaDec2AltAz PairMap).
Local Abbreviation add_observation :=
  (P.add_observation PairMap feature feature_add_observation).

Lemma purge_loop_suffix s c w queue :
  exists dropped, queue = dropped ++ purge_loop s c w queue.
Proof.
  induction queue as [|head rest [dropped IH]]; [by exists []|].
  cbn [P.purge_loop].
  repeat match goal with
         | |- context [if ?b then _ else _] => destruct b
         end;
    try (exists (head :: dropped); cbn [app]; by rewrite <- IH).
  by exists [].
Qed.

Lemma purge_queue_leaves_suffix_aux s c :
  exists dropped,
    P.observing_queue s = dropped ++ P.observing_queue (purge_queue s c)
    /\ purge_queue s c
       = P.set_queue PairMap (P.observing_queue (purge_queue s c)) s.
Proof.
  unfold P._purge_queue. destruct s as [? ? ? ? ? ? ? ? ? ? ? [|h q] ? ? ?];
    cbn [P.observing_queue P.set_queue]; [by exists []|].
  match goal with
  | |- context [purge_loop ?s ?c ?w ?l] =>
      destruct (purge_loop_suffix s c w l) as [dropped Hd]
  end.
  exists dropped. split; [exact Hd | done].
Qed.

(** X1: the purge only removes entries from the head of the queue: what it
    leaves is a suffix of the queue it found, and no other attribute of the
    survey changes. *)
Theorem purge_queue_leaves_suffix s c :
  exists dropped,
    P.observing_queue s = dropped ++ P.observing_queue (purge_queue s c)
    /\ purge_queue s c
       = P.set_queue PairMap (P.observing_queue (purge_queue s c)) s.
Proof.
  unfold P._purge_queue. destruct s as [? ? ? ? ? ? ? ? ? ? ? [|h q] ? ? ?];
    cbn [P.observing_queue P.set_queue]; [by exists []|].
  match goal with
  | |- context [purge_loop ?s ?c ?w ?l] =>
      destruct (purge_loop_suffix s c w l) as [dropped Hd]
  end.
  exists dropped. split; [exact Hd | done].
Qed.

(** X2: the head of the queue is kept, and the whole queue with it, exactly
    when it is not (past its epoch and outside its tolerance window) and
    not (inside its window and masked or outside the altitude band). *)
Theorem purge_queue_keeps_head_iff s c o rest :
  P.observing_queue s = o :: rest ->
  P.observing_queue (purge_queue s c) = o :: rest
  <-> ~ (((Obs.mjd o < Snapshot.mjd c)%Q
          /\ ~ (Qabs (Obs.mjd o - Snapshot.mjd c) < P.ttol s)%Q)
         \/ ((Qabs (Obs.mjd o - Snapshot.mjd c) < P.ttol s)%Q
             /\ (check_mask s o c = false \/ check_alts s o c = false))).
Proof.
  intros Hq. unfold P._purge_queue. rewrite Hq.
  cbn [P.set_queue P.observing_queue P.purge_loop]. unfold P.within_ttol.
  rewrite !and_invert_truthy.
  destruct (Qltb (Qabs (Obs.mjd o - Snapshot.mjd c)) (P.ttol s)) eqn:Hw;
    [apply Qltb_lt in Hw | apply Qltb_ge in Hw].
  - rewrite andb_false_r. cbn [andb negb].
    destruct (check_mask s o c) eqn:Hm, (check_alts s o c) eqn:Ha; cbn [negb].
    + split; [|done]. intros _ [[_ Hn] | [_ [?|?]]]; done.
    + split; [|intros Hn; destruct Hn; right; auto]. intros Heq.
      destruct (purge_loop_suffix s c true rest) as [dr Hdr].
      apply (f_equal length) in Heq, Hdr. rewrite length_app in Hdr.
      cbn in Heq. lia.
    + split; [|intros Hn; destruct Hn; right; auto]. intros Heq.
      destruct (purge_loop_suffix s c true rest) as [dr Hdr].
      apply (f_equal length) in Heq, Hdr. rewrite length_app in Hdr.
      cbn in Heq. lia.
    + split; [|intros Hn; destruct Hn; right; auto]. intros Heq.
      destruct (purge_loop_suffix s c true rest) as [dr Hdr].
      apply (f_equal length) in Heq, Hdr. rewrite length_app in Hdr.
      cbn in Heq. lia.
  - cbn [andb negb]. rewrite andb_true_r.
    destruct (Qltb (Obs.mjd o) (Snapshot.mjd c)) eqn:Hp;
      [apply Qltb_lt in Hp | apply Qltb_ge in Hp].
    + split.
      * intros Heq.
        destruct (purge_loop_suffix s c false rest) as [dr Hdr].
        apply (f_equal length) in Heq, Hdr. rewrite length_app in Hdr.
        cbn in Heq. lia.
      * intros Hn. destruct Hn. left. split; [done|]. by apply Qle_not_lt.
    + split; [|done]. intros _ [[Hlt _] | [Hin _]].
      * by apply Qle_not_lt in Hp.
      * by apply Qle_not_lt in Hw.
Qed.
End PairsQueueFacts.

Lemma purge_queue_keeps_head_iff_witness :
  let due := r_row (100 - 5 / 60 / 24) in
  P.observing_queue
    (P._purge_queue one_pixel alt_of_dec (list Q) (pairs_default [due])
       (clear_sky 5 None)) = [due].
Proof.
  intros due.
  apply (purge_queue_keeps_head_iff one_pixel alt_of_dec (list Q)
           (pairs_default [due]) (clear_sky 5 None) due []); [reflexivity|].
  intros [[_ Hout] | [_ [Hm | Ha]]].
  - apply Hout. by vm_compute.
  - by vm_compute in Hm.
  - by vm_compute in Ha.
Defined.

Section PairsScanFacts.
Variable _raDec2Hpid : nat -> Q -> Q -> nat.
Variable _approx_RaDec2AltAz : Q -> Q -> Q -> Q -> Q -> Q * Q.
Variable PairMap : Type.
Variable feature : PairMap -> list Q.
Variable feature_add_observation :
  PairMap -> Obs.t -> option (list nat) -> PairMap.

Implicit Types (s : P.t PairMap) (c : Snapshot.t) (o : Obs.t).

Local Abbreviation purge_queue :=
  (P._purge_queue _raDec2Hpid _approx_RaDec2AltAz PairMap).
Local Abbreviation calc_reward_function :=
  (P.calc_reward_function _raDec2Hpid _approx_RaDec2AltAz PairMap).
Local Abbreviation generate_observations :=
  (P.generate_observations _raDec2Hpid _approx_RaDec2AltAz PairMap).
Local Abbreviation add_observation :=
  (P.add_observation PairMap feature feature_add_observation).

Local Abbreviation check_mask := (P._check_mask _raDec2Hpid PairMap).
Local Abbreviation check_alts := (P._check_alts _approx_RaDec2AltAz PairMap).
Local Abbreviation check_observation :=
  (P._check_observation _raDec2Hpid PairMap).
Local Abbreviation purge_loop :=
  (P.purge_loop _raDec2Hpid _approx_RaDec2AltAz PairMap).
Local Abbreviation reward_loop := (P.reward_loop _raDec2Hpid PairMap).

(** The scan of the reward depends on the survey through its queue, its
    reward value and the verdicts only. *)
Lemma reward_loop_ext s s' c indices :
  P.observing_queue s' = P.observing_queue s ->
  P.reward_val s' = P.reward_val s ->
  (forall o, check_observation s' o c = check_observation s o c) ->
  reward_loop s' c indices = reward_loop s c indices.
Proof.
  intros Hq Hr Hv. induction indices as [|i indices IH]; [done|].
  cbn [P.reward_loop]. rewrite Hq, Hr.
  destruct (P.observing_queue s !! i) as [o|]; [|done].
  by rewrite Hv, IH.
Qed.

(** A head that its own window does not condemn stops the purge loop at
    once. *)
Lemma purge_loop_keeps_head s c o rest :
  ~ (((Obs.mjd o < Snapshot.mjd c)%Q
      /\ ~ (Qabs (Obs.mjd o - Snapshot.mjd c) < P.ttol s)%Q)
     \/ ((Qabs (Obs.mjd o - Snapshot.mjd c) < P.ttol s)%Q
         /\ (check_mask s o c = false \/ check_alts s o c = false))) ->
  purge_loop s c (P.within_ttol PairMap s o c) (o :: rest) = o :: rest.
Proof.
  intros Hkeep. cbn [P.purge_loop]. unfold P.within_ttol.
  rewrite !and_invert_truthy.
  destruct (Qltb (Qabs (Obs.mjd o - Snapshot.mjd c)) (P.ttol s)) eqn:Hw;
    [apply Qltb_lt in Hw | apply Qltb_ge in Hw].
  - rewrite andb_false_r. cbn [andb negb].
    destruct (check_mask s o c) eqn:Hm, (check_alts s o c) eqn:Ha;
      cbn [negb]; [done | | |]; destruct Hkeep; right; auto.
  - cbn [andb negb]. rewrite andb_true_r.
    destruct (Qltb (Obs.mjd o) (Snapshot.mjd c)) eqn:Hp; [|done].
    apply Qltb_lt in Hp. destruct Hkeep. left. split; [done|].
    by apply Qle_not_lt.
Qed.

(** X3: the reward, then generation under the same conditions.
    [calc_reward_function] leaves the purged queue.  Generation purges
    again, with the window of the new head.  If that head is not condemned
    by its own window (it is not past its epoch and outside its window, nor
    inside its window and masked or outside the altitude band), or the
    queue is empty, the two agree: the reward is the configured value
    exactly when generation returns an observation, which is then the first
    ready entry as a pair, the queue being left without that entry; and the
    reward is minus infinity exactly when generation returns nothing, the
    queue being left as it was.  Otherwise they need not agree: when the
    reward leaves one ready entry that is outside the altitude band, the
    reward is the configured value, yet generation returns nothing and
    empties the queue. *)
Theorem pairs_reward_then_generation s c :
  let rs := calc_reward_function s c in
  let g := generate_observations rs.2 c in
  let queue := P.observing_queue rs.2 in
  let condemned o :=
    ((Obs.mjd o < Snapshot.mjd c)%Q
     /\ ~ (Qabs (Obs.mjd o - Snapshot.mjd c) < P.ttol s)%Q)
    \/ ((Qabs (Obs.mjd o - Snapshot.mjd c) < P.ttol s)%Q
        /\ (check_mask s o c = false \/ check_alts s o c = false)) in
  queue = P.observing_queue (purge_queue s c)
  /\ ((forall o, head queue = Some o -> ~ condemned o) ->
      (rs.1 = Finite (P.reward_val s) <-> exists o, g.1 = [o])
      /\ (rs.1 = NegInf <-> g.1 = [])
      /\ (forall i o, first_ready _raDec2Hpid s c queue i o ->
            g.1 = [as_pair s c o]
            /\ P.observing_queue g.2 = delete i queue)
      /\ (g.1 = [] -> P.observing_queue g.2 = queue))
  /\ (forall o, queue = [o] -> pair_ready _raDec2Hpid s c o ->
        check_alts s o c = false ->
        rs.1 = Finite (P.reward_val s)
        /\ g.1 = [] /\ P.observing_queue g.2 = []).
Proof.
  intros rs g queue condemned. subst rs g queue condemned.
  unfold P.calc_reward_function. cbn [fst snd].
  destruct (purge_queue_config _raDec2Hpid _approx_RaDec2AltAz PairMap s c)
    as [q Hq]. rewrite Hq.
  set (r := reward_loop (P.set_queue PairMap q s) c
              (seq 0 (length (P.observing_queue (P.set_queue PairMap q s))))).
  set (s2 := P.set_reward_checked PairMap true
               (P.set_reward PairMap r (P.set_queue PairMap q s))).
  assert (P.observing_queue s2 = q) as Hq2 by done.
  assert (forall s3, P.observing_queue s3 = q ->
            P.reward_val s3 = P.reward_val s ->
            (forall o, check_observation s3 o c = check_observation s o c) ->
            reward_loop s3 c (seq 0 (length (P.observing_queue s3))) = r)
    as Hreward.
  { intros s3 H3q H3r H3v. subst r. rewrite H3q.
    apply reward_loop_ext; [by rewrite H3q | done |].
    intros o. by rewrite H3v. }
  split; [by rewrite Hq2|]. split.
  - intros Hkeep.
    assert (generate_observations s2 c
            = P.generate_loop _raDec2Hpid PairMap s2 c (seq 0 (length q)))
      as Hgen.
    { unfold P.generate_observations, P._purge_queue. rewrite Hq2.
      destruct q as [|o rest]; [by rewrite Hq2|].
      rewrite (purge_loop_keeps_head s2 c o rest (Hkeep o eq_refl)).
      done. }
    rewrite Hgen.
    destruct (loops_spec _raDec2Hpid PairMap s2 c (length q) 0)
      as [(i & o & _ & Hstop & Hr & Hg) | (Hnone & Hr & Hg)];
      [by rewrite Hq2 | |].
    + rewrite <- Hq2 in Hr at 1. rewrite (Hreward s2 Hq2) in Hr by done.
      rewrite Hr, Hg. cbn [fst snd P.observing_queue P.set_queue].
      split; [split; eauto|]. split; [split; done|]. split; [|done].
      intros i' o' Hfirst.
      apply (first_ready_stops_at _raDec2Hpid PairMap s2 c i' o') in Hfirst.
      destruct (stops_at_unique _raDec2Hpid PairMap s2 c 0 i i' o o')
        as [-> ->]; [lia | lia | done | done |]. done.
    + rewrite <- Hq2 in Hr at 1. rewrite (Hreward s2 Hq2) in Hr by done.
      rewrite Hr, Hg. cbn [fst snd].
      split; [split; [done | by intros [o ?]]|]. split; [done|].
      split; [|done]. intros i o Hfirst.
      apply (first_ready_stops_at _raDec2Hpid PairMap s2 c i o) in Hfirst.
      destruct (Hnone i o); [lia | done].
  - intros o Hqo Hready Halt. rewrite Hq2 in Hqo. clear Hreward Hq2 Hq.
    subst s2 r q.
    assert (P.valid (check_observation s o c) = true) as Hv
      by by apply valid_spec.
    split.
    + cbn [P.observing_queue P.set_queue length seq P.reward_loop
                    lookup list_lookup].
      change (check_observation (P.set_queue PairMap [o] s) o c)
        with (check_observation s o c).
      by rewrite Hv.
    + unfold P.generate_observations, P._purge_queue.
      cbn [P.observing_queue P.set_queue P.set_reward P.set_reward_checked
           P.purge_loop].
      rewrite !and_invert_truthy.
      destruct Hready as (Hw & _ & _ & Hm).
      change (P.within_ttol PairMap _ o c) with (P.within_ttol PairMap s o c).
      change (check_mask _ o c) with (check_mask s o c).
      change (check_alts _ o c) with (check_alts s o c).
      unfold P.within_ttol.
      apply Qltb_lt in Hw as ->.
      assert (check_mask s o c = true) as -> by (apply check_mask_true; done).
      rewrite Halt, andb_false_r. done.
Qed.

(** X4: an observation that [generate_observations] returns is a queue
    entry that was ready: inside its tolerance window, slew within budget
    or epoch passed, depth above zero at its pixel in its own filter.  It
    keeps the entry's position and epoch, carries the note
    'pair(<note>)', and has the loaded filter when one is loaded (a filter
    of the pairing set) and its own filter otherwise. *)
Theorem pairs_generated_observation_was_ready s c o' :
  o' ∈ (generate_observations s c).1 ->
  exists o,
    o ∈ P.observing_queue s
    /\ pair_ready _raDec2Hpid s c o
    /\ Obs.RA o' = Obs.RA o /\ Obs.dec o' = Obs.dec o
    /\ Obs.mjd o' = Obs.mjd o
    /\ Obs.note o' = "pair(" +:+ P.note s +:+ ")"
    /\ match Snapshot.current_filter c with
       | Some f => Obs.filter o' = f /\ py_in_str f (P.filt_to_pair s) = true
       | None => Obs.filter o' = Obs.filter o
       end.
Proof.
  unfold P.generate_observations. set (s1 := purge_queue s c).
  destruct (purge_queue_leaves_suffix_aux _raDec2Hpid _approx_RaDec2AltAz
              PairMap s c) as (dropped & Hsuf & Hcfg).
  fold s1 in Hsuf, Hcfg.
  destruct (loops_spec _raDec2Hpid PairMap s1 c
              (length (P.observing_queue s1)) 0 eq_refl)
    as [(i & o & Hi & (Hl & Hv & _) & _ & Hg) | (_ & _ & Hg)]; rewrite Hg;
    cbn [fst]; [|by intros ?%elem_of_nil].
  intros ->%list_elem_of_singleton. exists o.
  apply valid_spec in Hv. rewrite Hcfg in Hv.
  split. { rewrite Hsuf. apply elem_of_app. right. by eapply list_elem_of_lookup_2. }
  split; [exact Hv|].
  destruct Hv as (_ & _ & Hf & _). rewrite Hcfg. unfold as_pair.
  cbn [P.note P.set_queue].
  destruct (Snapshot.current_filter c) as [f|]; cbn; repeat split; auto.
Qed.

(** X5: [add_observation] never touches the entries already queued: the
    queue it leaves is the old queue, or the old queue with one entry added
    at the end (the observation with its epoch moved forward by the revisit
    gap).  The configuration is unchanged, and an observation carrying an
    ignore tag changes nothing at all. *)
Theorem pairs_add_observation_extends_queue s o indx s' :
  add_observation s o indx = Ok s' ->
  (P.observing_queue s' = P.observing_queue s
   \/ P.observing_queue s'
      = P.observing_queue s ++ [Obs.set_mjd (Obs.mjd o + P.dt s) o])
  /\ P.ttol s' = P.ttol s /\ P.dt s' = P.dt s
  /\ P.filt_to_pair s' = P.filt_to_pair s
  /\ P.ignore_obs s' = P.ignore_obs s
  /\ P.max_slew_to_pair s' = P.max_slew_to_pair s
  /\ P.reward_val s' = P.reward_val s
  /\ (P.to_ignore PairMap s o = true -> s' = s).
Proof.
  unfold P.add_observation. destruct (P.to_ignore PairMap s o).
  { intros [= <-]. repeat split; auto. }
  unfold P.filter_to_pair. cbn [P.filt_to_pair P.set_reward_checked
    P.set_Pair_map P.Pair_map P.observing_queue P.dt].
  destruct (Obs.filter o) as [|ch rest]; [done|]. cbn [bind].
  destruct (py_in_str (String ch "") (P.filt_to_pair s)).
  - destruct (P.pair_count PairMap feature _ indx) as [n|]; [|done].
    cbn [bind]. destruct (Qltb n 1); intros [= <-]; cbn;
      repeat split; auto; done.
  - intros [= <-]. cbn. repeat split; auto; done.
Qed.

(** X6: admission and service compose.  On an empty queue, an executed
    observation that is queued for a pair (no ignore tag, pairing filter,
    counter below one) is served again by the next cycle in which its new
    epoch is ready and its position inside the altitude band: the reward
    is the configured value, generation returns that entry as a pair, and
    the queue is empty again. *)
Theorem pairs_queue_round_trip s o indx n c :
  P.observing_queue s = [] ->
  P.to_ignore PairMap s o = false ->
  P.filter_to_pair PairMap s o = Ok true ->
  P.pair_count PairMap feature
    (feature_add_observation (P.Pair_map s) o indx) indx = Ok n ->
  (n < 1)%Q ->
  let due := Obs.set_mjd (Obs.mjd o + P.dt s) o in
  pair_ready _raDec2Hpid s c due ->
  P._check_alts _approx_RaDec2AltAz PairMap s due c = true ->
  exists s',
    add_observation s o indx = Ok s'
    /\ (calc_reward_function s' c).1 = Finite (P.reward_val s)
    /\ (generate_observations s' c).1 = [as_pair s c due]
    /\ P.observing_queue (generate_observations s' c).2 = [].
Proof.
  intros Hq Hig Hf Hn Hlt due Hready Halt.
  unfold P.add_observation. rewrite Hig.
  unfold P.filter_to_pair in *. cbn [P.filt_to_pair P.set_reward_checked
    P.set_Pair_map P.Pair_map P.observing_queue P.dt] in *.
  rewrite Hf. cbn [bind]. rewrite Hn. cbn [bind].
  apply Qltb_lt in Hlt as ->. rewrite Hq. cbn [app]. fold due.
  eexists. split; [done|].
  assert (P.valid (P._check_observation _raDec2Hpid PairMap s due c) = true)
    as Hv by by apply valid_spec.
  assert (P._check_mask _raDec2Hpid PairMap s due c = true
          /\ P.within_ttol PairMap s due c = true) as [Hm Hw].
  { unfold P._check_observation in Hv. cbn [P.valid] in Hv.
    apply andb_true_iff in Hv as [Hv ?]. split; [done|].
    by apply andb_true_iff in Hv as [[? _]%andb_true_iff _]. }
  unfold P.calc_reward_function, P.generate_observations, P._purge_queue.
  cbn [P.observing_queue P.set_queue P.purge_loop].
  change (P.within_ttol PairMap _ due c) with (P.within_ttol PairMap s due c).
  change (P._check_mask _raDec2Hpid PairMap _ due c)
    with (P._check_mask _raDec2Hpid PairMap s due c).
  change (P._check_alts _approx_RaDec2AltAz PairMap _ due c)
    with (P._check_alts _approx_RaDec2AltAz PairMap s due c).
  rewrite Hw, Hm, Halt. cbn [negb py_invert]. rewrite andb_false_r.
  change (truthy (np_and_int true (-2))) with false. cbn iota.
  cbn [fst snd P.observing_queue P.set_queue length seq P.reward_loop
       P.generate_loop lookup list_lookup].
  change (P._check_observation _raDec2Hpid PairMap _ due c)
    with (P._check_observation _raDec2Hpid PairMap s due c).
  rewrite Hv. done.
Qed.
End PairsScanFacts.

(** *** On examples *)

(** An overdue entry, then an entry due in five minutes at an altitude of
    1.5 radians, above the band: the first purge drops the overdue entry
    only, the reward is the configured 101, and the purge of
    [generate_observations] then drops the second entry.  With one entry
    inside the band the two calls agree. *)
Lemma pairs_reward_then_generation_witness :
  let c := clear_sky 5 None in
  let high := Obs.mk 0 (3 / 2) (100 + 5 / 60 / 24) 0 30 "r" 2 "" 0 in
  let rs := P.calc_reward_function one_pixel alt_of_dec (list Q)
              (pairs_default [r_row (100 - 15 / 60 / 24); high]) c in
  let rs' := P.calc_reward_function one_pixel alt_of_dec (list Q)
               (pairs_default [r_row (100 - 1 / 60 / 24)]) c in
  (rs.1 = Finite 101
   /\ P.generate_observations one_pixel alt_of_dec (list Q) rs.2 c
      = ([], P.set_queue (list Q) [] rs.2))
  /\ (rs'.1 = Finite 101
      /\ (P.generate_observations one_pixel alt_of_dec (list Q) rs'.2 c).1
         = [Obs.mk 0 1 (100 - 1 / 60 / 24) 0 30 "r" 2 "pair(scripted)" 0]
      /\ P.observing_queue
           (P.generate_observations one_pixel alt_of_dec (list Q) rs'.2 c).2
         = []).
Proof.
  intros c high rs rs'. split.
  - destruct (pairs_reward_then_generation one_pixel alt_of_dec (list Q)
                (pairs_default [r_row (100 - 15 / 60 / 24); high]) c)
      as (_ & _ & Hsplit).
    destruct (Hsplit high) as (Hr & _ & _).
    + reflexivity.
    + split; [reflexivity|]. split; [by left|]. split; [done|].
      exists 24%Q. split; reflexivity.
    + reflexivity.
    + split; [exact Hr | reflexivity].
  - destruct (pairs_reward_then_generation one_pixel alt_of_dec (list Q)
                (pairs_default [r_row (100 - 1 / 60 / 24)]) c)
      as (_ & Hagree & _).
    destruct Hagree as (Hr & _ & Hfirst & _).
    + intros o [= <-] [[_ Hout] | [_ [Hm | Ha]]];
        [apply Hout; reflexivity | discriminate Hm | discriminate Ha].
    + destruct (Hfirst 0%nat (r_row (100 - 1 / 60 / 24))) as [Hg Hq].
      * split; [reflexivity|]. split; [|intros j o' Hj; lia].
        split; [reflexivity|]. split; [by left|]. split; [done|].
        exists 24%Q. split; reflexivity.
      * split; [|split; [exact Hg | exact Hq]].
        apply Hr. eexists. exact Hg.
Defined.

Lemma pairs_generated_observation_was_ready_witness :
  let s := pairs_default [r_row (100 - 1 / 60 / 24)] in
  let c := clear_sky 5 (Some "g") in
  exists o o',
    o' ∈ (P.generate_observations one_pixel alt_of_dec (list Q) s c).1
    /\ o ∈ P.observing_queue s
    /\ Obs.mjd o' = Obs.mjd o
    /\ Obs.filter o' = "g".
Proof.
  intros s c.
  destruct (pairs_generated_observation_was_ready one_pixel alt_of_dec (list Q)
              s c (Obs.mk 0 1 (100 - 1 / 60 / 24) 0 30 "g" 2 "pair(scripted)" 0))
    as (o & Hin & _ & _ & _ & Hmjd & _ & Hf & _).
  - apply list_elem_of_singleton. reflexivity.
  - exists o. eexists. split; [apply list_elem_of_singleton; reflexivity|].
    repeat split; assumption.
Defined.

Lemma pairs_add_observation_extends_queue_witness :
  exists s',
    P.add_observation (list Q) id (fun pm _ _ => pm)
      (pairs_default [r_row 90]) (r_row 100) (Some [0%nat]) = Ok s'
    /\ (P.observing_queue s' = [r_row 90]
        \/ P.observing_queue s' = [r_row 90; r_row (100 + 40 / 60 / 24)]).
Proof.
  eexists. split; [reflexivity|].
  destruct (pairs_add_observation_extends_queue (list Q) id (fun pm _ _ => pm)
              (pairs_default [r_row 90]) (r_row 100) (Some [0%nat]) _ eq_refl)
    as [[H | H] _]; [left | right]; exact H.
Defined.

Lemma pairs_queue_round_trip_witness :
  let c := Snapshot.mk (100 + 40 / 60 / 24) 0 (fun _ => 5%Q) None []
             (fun _ _ => Depth 24) in
  exists s',
    P.add_observation (list Q) id (fun pm _ _ => pm) (pairs_default [])
      (r_row 100) (Some [0%nat]) = Ok s'
    /\ (P.generate_observations one_pixel alt_of_dec (list Q) s' c).1
       = [Obs.mk 0 1 (100 + 40 / 60 / 24) 0 30 "r" 2 "pair(scripted)" 0].
Proof.
  intros c.
  destruct (pairs_queue_round_trip one_pixel alt_of_dec (list Q) id
              (fun pm _ _ => pm) (pairs_default []) (r_row 100)
              (Some [0%nat]) 0 c)
    as (s' & Hadd & _ & Hgen & _); try reflexivity.
  - split; [reflexivity|]. split; [by left|]. split; [done|].
    exists 24%Q. split; reflexivity.
  - exists s'. split; [exact Hadd | exact Hgen].
Defined.

(** ** The scripted survey: bookkeeping and selection *)

Lemma np_take_total {A : Type} (a : list A) (f : nat -> A) (idx : list nat) :
  Forall (fun i => a !! i = Some (f i)) idx -> np_take a idx = Ok (map f idx).
Proof.
  induction 1 as [|i idx Hi _ IH]; [done|].
  cbn [np_take map]. by rewrite Hi, IH.
Qed.

Lemma np_where_from_sorted (mask : list bool) : forall k,
  StronglySorted lt (np_where_from k mask).
Proof.
  induction mask as [|b mask IH]; intros k; cbn [np_where_from];
    [constructor|].
  destruct b; [|apply IH]. constructor; [apply IH|].
  apply Forall_forall. intros m Hm.
  apply elem_of_np_where_from in Hm as [Hk _]. lia.
Qed.

Lemma filter_ext_Forall {A : Type} (p q : A -> bool) (l : list A) :
  Forall (fun x => p x = q x) l ->
  filter (fun x => p x) l = filter (fun x => q x) l.
Proof.
  induction 1 as [|x l Hx _ IH]; [done|].
  rewrite !filter_cons, IH, Hx. done.
Qed.

Lemma window_mask_Ok (s : S.t) (now : Q) :
  length (S.obs_wanted s) = length (S.obs_log s) ->
  exists mask, S.window_mask s now = Ok mask.
Proof.
  intros Hlen. unfold S.window_mask. rewrite Hlen, Nat.eqb_refl. by eexists.
Qed.

Lemma window_indices_in_script (s : S.t) (now : Q) (mask : list bool) :
  S.window_mask s now = Ok mask ->
  Forall (fun i => is_Some (S.obs_wanted s !! i)) (np_where mask).
Proof.
  intros Hmask. apply Forall_forall. intros i Hi.
  apply elem_of_np_where in Hi.
  apply (window_mask_lookup s now mask i Hmask) in Hi as (w & -> & _).
  by eexists.
Qed.

(** X7: the log stays as long as the script.  [set_script] makes it so,
    [add_to_script] and [add_observation] keep it so, and on such a survey
    [add_observation] never raises. *)
Theorem scripted_log_matches_script (s : S.t) :
  (forall wanted tol,
     length (S.obs_log (S.set_script wanted tol s)) = length wanted
     /\ Forall (fun b => b = false) (S.obs_log (S.set_script wanted tol s)))
  /\ (length (S.obs_log s) = length (S.obs_wanted s) ->
      (forall o tol,
         length (S.obs_log (S.add_to_script o tol s))
         = length (S.obs_wanted (S.add_to_script o tol s)))
      /\ (forall o, exists s',
            S.add_observation s o = Ok s'
            /\ S.obs_wanted s' = S.obs_wanted s
            /\ length (S.obs_log s') = length (S.obs_wanted s'))).
Proof.
  split.
  - intros wanted tol. cbn. split; [apply length_replicate|].
    apply Forall_forall. intros b Hb. by apply elem_of_replicate in Hb as [? _].
  - intros Hlen. split.
    + intros o tol. cbn. rewrite !length_app. cbn. lia.
    + intros o. destruct (py_in_str (S.ignore_obs s) (Obs.note o)) eqn:Hig.
      * exists s. unfold S.add_observation. rewrite Hig. done.
      * destruct (add_observation_step s o (eq_sym Hlen) Hig)
          as (s' & Hs' & Hw & _ & _ & Hcase).
        exists s'. split; [done|]. split; [done|]. rewrite Hw.
        destruct Hcase as [[-> _] | (j & w & _ & _ & _ & _ & ->)]; [done|].
        by rewrite length_insert.
Qed.

(** X8: [add_observation] only ever marks: whenever it returns, the script
    is unchanged, every entry marked before is still marked, and the log is
    the old log or the old log with one unmarked entry set; an observation
    whose annotation contains the ignore tag changes nothing. *)
Theorem scripted_add_observation_only_marks (s s' : S.t) (o : Obs.t) :
  S.add_observation s o = Ok s' ->
  S.obs_wanted s' = S.obs_wanted s
  /\ (forall i, S.obs_log s !! i = Some true -> S.obs_log s' !! i = Some true)
  /\ (S.obs_log s' = S.obs_log s
      \/ exists j, S.obs_log s !! j = Some false
           /\ S.obs_log s' = <[j := true]> (S.obs_log s))
  /\ (py_in_str (S.ignore_obs s) (Obs.note o) = true -> s' = s).
Proof.
  intros Hadd.
  destruct (py_in_str (S.ignore_obs s) (Obs.note o)) eqn:Hig.
  { unfold S.add_observation in Hadd. rewrite Hig in Hadd.
    injection Hadd as <-. repeat split; auto. }
  assert (length (S.obs_wanted s) = length (S.obs_log s)) as Hlen.
  { unfold S.add_observation, S.window_mask in Hadd. rewrite Hig in Hadd.
    cbn in Hadd.
    destruct (Nat.eqb_spec (length (S.obs_wanted s)) (length (S.obs_log s)));
      done. }
  destruct (add_observation_step s o Hlen Hig)
    as (s1 & Hs1 & Hw & _ & _ & Hcase).
  assert (s1 = s') as -> by congruence.
  split; [done|].
  destruct Hcase as [[Heq _] | (j & w & _ & Hj & _ & _ & Heq)]; rewrite Heq.
  - split; [done|]. split; [by left | done].
  - split; [|split; [right; eauto | done]].
    intros i Hi. rewrite list_lookup_insert_ne; [done|]. congruence.
Qed.

Section ScriptedSelection.
Variable _raDec2Hpid : nat -> Q -> Q -> nat.

Local Abbreviation _check_list := (S._check_list _raDec2Hpid).
Local Abbreviation _check_alts := (S._check_alts _raDec2Hpid).
Local Abbreviation eligible := (script_eligible _raDec2Hpid).
Local Abbreviation alt_in_band := (script_alt_in_band _raDec2Hpid).

Lemma script_rows_Ok (s : S.t) (indices : list nat) :
  Forall (fun i => is_Some (S.obs_wanted s !! i)) indices ->
  np_take (S.obs_wanted s) indices
  = Ok (map (fun i => default D.empty_observation (S.obs_wanted s !! i))
          indices).
Proof.
  intros Hin. apply np_take_total. eapply Forall_impl; [exact Hin|].
  by intros i [row ->].
Qed.

(** X9: with the attributes [__init__] sets there is no altitude feature,
    and selection cannot run: [_check_list] and [generate_observations]
    raise [KeyError] on every script and for all conditions. *)
Theorem scripted_selection_needs_altaz (s : S.t) (c : Snapshot.t) :
  S.altaz s = None ->
  length (S.obs_wanted s) = length (S.obs_log s) ->
  _check_list s [c] = Raise KeyError
  /\ S.generate_observations _raDec2Hpid s c = Raise KeyError.
Proof.
  intros Halt Hlen.
  assert (_check_list s [c] = Raise KeyError) as Hcl.
  { unfold S._check_list.
    destruct (window_mask_Ok s (Snapshot.mjd c) Hlen) as [mask Hmask].
    rewrite Hmask. cbn [bind]. unfold S._check_alts.
    rewrite (script_rows_Ok s _ (window_indices_in_script s _ _ Hmask)).
    cbn [bind]. by rewrite Halt. }
  split; [done|]. unfold S.generate_observations. by rewrite Hcl.
Qed.

Lemma check_alts_filter (s : S.t) (m : list Q) (indices : list nat) :
  S.altaz s = Some m ->
  Forall (fun i => is_Some (S.obs_wanted s !! i)) indices ->
  (forall row, row ∈ S.obs_wanted s ->
     (_raDec2Hpid (S.nside s) (Obs.RA row) (Obs.dec row) < length m)%nat) ->
  _check_alts s indices = Ok (filter (fun i => alt_in_band s m i) indices).
Proof.
  intros Halt Hin Hpix. unfold S._check_alts.
  rewrite (script_rows_Ok s _ Hin). cbn [bind]. rewrite Halt. cbn [bind].
  rewrite (np_take_total m (fun p => default 0%Q (m !! p))).
  2:{ apply Forall_forall. intros p Hp.
      apply list_elem_of_fmap in Hp as (row & -> & Hrow).
      apply list_elem_of_fmap in Hrow as (i & -> & Hi).
      rewrite Forall_forall in Hin. destruct (Hin i Hi) as [r Hr].
      rewrite Hr. cbn [default from_option id].
      destruct (lookup_lt_is_Some_2 m
                  (_raDec2Hpid (S.nside s) (Obs.RA r) (Obs.dec r)))
        as [a Ha]; [|by rewrite Ha].
      apply Hpix. by eapply list_elem_of_lookup_2. }
  cbn [bind]. rewrite !map_map.
  rewrite (np_take_where _ indices []).
  f_equal. apply filter_ext_Forall.
  eapply Forall_impl; [exact Hin|]. intros i [row Hrow]. cbn beta.
  unfold script_alt_in_band. rewrite Hrow. cbn [default from_option id].
  destruct (lookup_lt_is_Some_2 m
              (_raDec2Hpid (S.nside s) (Obs.RA row) (Obs.dec row)))
    as [a Ha]; [|by rewrite Ha].
  apply Hpix. by eapply list_elem_of_lookup_2.
Qed.

(** X10: selection.  With an altitude map that covers the pixels of the
    script, [_check_list] returns the first entry, in script order, that is
    not yet marked observed, within the tolerance of the current time and
    inside the altitude band, as a fresh observation with the entry's
    position, filter, exposure and note; when no entry qualifies it returns
    [None]. *)
Theorem scripted_check_list_first_eligible (s : S.t) (c : Snapshot.t)
    (m : list Q) :
  S.altaz s = Some m ->
  length (S.obs_wanted s) = length (S.obs_log s) ->
  (forall row, row ∈ S.obs_wanted s ->
     (_raDec2Hpid (S.nside s) (Obs.RA row) (Obs.dec row) < length m)%nat) ->
  (exists i row,
     eligible s m (Snapshot.mjd c) i row
     /\ (forall j row', (j < i)%nat -> ~ eligible s m (Snapshot.mjd c) j row')
     /\ _check_list s [c] = Ok (Some (S._slice2obs row)))
  \/ ((forall i row, ~ eligible s m (Snapshot.mjd c) i row)
      /\ _check_list s [c] = Ok None).
Proof.
  intros Halt Hlen Hpix. unfold S._check_list.
  destruct (window_mask_Ok s (Snapshot.mjd c) Hlen) as [mask Hmask].
  rewrite Hmask. cbn [bind].
  pose proof (window_indices_in_script s _ _ Hmask) as Hin.
  rewrite (check_alts_filter s m _ Halt Hin Hpix). cbn [bind].
  assert (forall i row, eligible s m (Snapshot.mjd c) i row
            <-> S.obs_wanted s !! i = Some row /\ i ∈ np_where mask
                /\ alt_in_band s m i = true) as Hel.
  { intros i row. unfold script_eligible.
    rewrite elem_of_np_where, (window_mask_lookup s _ mask i Hmask).
    split.
    - intros (Hw & Hl & Ht & Ha). eauto 10.
    - intros (Hw & (w & Hw' & Hl & Ht) & Ha).
      assert (w = row) as -> by congruence. done. }
  destruct (filter (fun i => alt_in_band s m i) (np_where mask))
    as [|first rest] eqn:Hf.
  - right. split; [|done]. intros i row (Hw & Hi & Ha)%Hel.
    eapply (filter_nil_not_elem_of _ _ i Hf); [|done]. by apply Is_true_true.
  - left.
    assert (first ∈ filter (fun i => alt_in_band s m i) (np_where mask))
      as Hfirst by (rewrite Hf; apply elem_of_cons; by left).
    apply list_elem_of_filter in Hfirst as [Hband Hfirst].
    apply Is_true_true in Hband.
    rewrite Forall_forall in Hin. destruct (Hin first Hfirst) as [row Hrow].
    exists first, row. rewrite Hrow. split; [by apply Hel|]. split; [|done].
    intros j row' Hlt (Hw & Hj & Ha)%Hel.
    destruct (head_filter_Some (fun i => alt_in_band s m i) (np_where mask)
                first) as (l1 & l2 & Hsplit & Hno); [by rewrite Hf|].
    pose proof (np_where_from_sorted mask 0) as Hsorted.
    fold (np_where mask) in Hsorted. rewrite Hsplit in Hsorted, Hj.
    apply elem_of_app in Hj as [Hj | Hj].
    + rewrite Forall_forall in Hno. apply (Hno j Hj). by apply Is_true_true.
    + apply elem_of_cons in Hj as [-> | Hj]; [lia|].
      apply StronglySorted_app_1_r in Hsorted.
      apply StronglySorted_inv in Hsorted as [_ Hall].
      rewrite Forall_forall in Hall. specialize (Hall j Hj). lia.
Qed.
End ScriptedSelection.

(** *** On examples *)

Lemma scripted_add_observation_only_marks_witness :
  let s := scripted_default None 15 [r_row 100] in
  exists s', S.add_observation s (r_row 100) = Ok s'
             /\ S.obs_wanted s' = [r_row 100].
Proof.
  intros s. eexists. split; [reflexivity|].
  eapply (scripted_add_observation_only_marks s _ (r_row 100)). reflexivity.
Defined.

Lemma scripted_selection_needs_altaz_witness :
  S.generate_observations one_pixel (scripted_default None 15 [])
    (clear_sky 5 None) = Raise KeyError.
Proof.
  apply (scripted_selection_needs_altaz one_pixel (scripted_default None 15 [])
           (clear_sky 5 None)); reflexivity.
Defined.

(** The scenario of a script with one entry at epoch 100 and a tolerance
    of 15 minutes: served at epoch 100, not served 20 minutes later. *)
Lemma scripted_check_list_first_eligible_witness :
  let s := scripted_default (Some [1%Q]) 15 [r_row 100] in
  let late := Snapshot.mk (100 + 20 / 60 / 24) 0 (fun _ => 5%Q) None []
                (fun _ _ => Depth 24) in
  S._check_list one_pixel s [clear_sky 5 None]
  = Ok (Some (S._slice2obs (r_row 100)))
  /\ S._check_list one_pixel s [late] = Ok None.
Proof.
  intros s late.
  assert (forall row, row ∈ S.obs_wanted s ->
            (one_pixel (S.nside s) (Obs.RA row) (Obs.dec row) < length [1%Q])%nat)
    as Hpix.
  { intros row Hrow. apply list_elem_of_singleton in Hrow as ->. by vm_compute. }
  split.
  - destruct (scripted_check_list_first_eligible one_pixel s
                (clear_sky 5 None) [1%Q] eq_refl eq_refl Hpix)
      as [(i & row & (Hrow & _) & _ & Hres) | [Hno _]].
    + destruct i as [|i]; [|by vm_compute in Hrow].
      vm_compute in Hrow. injection Hrow as <-. exact Hres.
    + exfalso. apply (Hno 0%nat (r_row 100)). by vm_compute.
  - destruct (scripted_check_list_first_eligible one_pixel s late [1%Q]
                eq_refl eq_refl Hpix)
      as [(i & row & (Hrow & _ & Ht & _) & _) | [_ Hres]].
    + destruct i as [|i]; [|by vm_compute in Hrow].
      vm_compute in Hrow. injection Hrow as <-. by vm_compute in Ht.
    + exact Hres.
Defined.

Lemma scripted_log_matches_script_witness :
  let s := scripted_default None 15 [r_row 100] in
  exists s', S.add_observation s (r_row 100) = Ok s'
             /\ length (S.obs_log s') = length (S.obs_wanted s').
Proof.
  intros s.
  destruct (scripted_log_matches_script s) as [_ H].
  destruct (H eq_refl) as [_ Hadd].
  destruct (Hadd (r_row 100)) as (s' & Hs' & _ & Hlen).
  exists s'. split; assumption.
Defined.

(** ** The telemetry snapshot: reads, errors and writes *)
Section ConditionsMore.
Variable ud_grade : list Q -> nat -> result (list Q).
Variable _approx_RaDec2AltAz :
  list Q -> list Q -> Q -> Q -> option Q -> result (list Q * list Q).
Variable m5_flat_sed : string -> Q -> Q -> Q -> Q -> Q.
Variable radians : Q -> Q.
Variable two_pi : Q.
Variable _hpid2RaDec : nat -> list nat -> list Q * list Q.

Implicit Types (c : C.t).

Local Abbreviation HA := (C.HA radians two_pi).
Local Abbreviation M5Depth := (C.M5Depth m5_flat_sed).
Local Abbreviation m5_row := (C.m5_row m5_flat_sed).
Local Abbreviation calc_M5Depth_loop := (C.calc_M5Depth_loop m5_flat_sed).
Local Abbreviation skybrightness_set := (C.skybrightness_set ud_grade).
Local Abbreviation skybrightness_loop := (C.skybrightness_loop ud_grade).
Local Abbreviation __init__ := (C.__init__ _hpid2RaDec).

(** X11: a read of the hour angle raises exactly when nothing is cached
    and the local sidereal time was never written; the exception is a
    [TypeError] and the object is left as it was. *)
Theorem HA_raises_iff_lmst_unset c :
  ((exists e, (HA c).1 = Raise e) <-> C._HA c = None /\ C._lmst c = None)
  /\ (forall e, (HA c).1 = Raise e -> e = TypeError /\ (HA c).2 = c).
Proof.
  unfold C.HA, C.calc_HA.
  destruct (C._HA c) as [h|], (C._lmst c) as [l|]; cbn [fst snd].
  - split; [split; [by intros [? ?] | by intros [? ?]] | done].
  - split; [split; [by intros [? ?] | by intros [? ?]] | done].
  - split; [split; [by intros [? ?] | by intros [? ?]] | done].
  - split; [split; [done | by eexists] |]. by intros e [= <-].
Qed.

(** X12: on a freshly constructed object the map of no-data values has the
    grid's pixel count, a read of the hour angle raises [TypeError], and a
    read of the limiting magnitude does not raise: it returns an empty
    dictionary, which stays cached. *)
Theorem fresh_conditions_reads (nside : nat) (lat lon exptime : Q) :
  let c := __init__ nside lat lon exptime in
  length (C.unseen_map c) = C.nside2npix nside
  /\ Forall (fun v => v = C.UNSEEN) (C.unseen_map c)
  /\ HA c = (Raise TypeError, c)
  /\ (M5Depth c).1 = Ok (Some [])
  /\ M5Depth (M5Depth c).2 = (Ok (Some []), (M5Depth c).2).
Proof.
  intros c. split; [apply length_replicate|]. split; [|done].
  apply Forall_forall. intros v Hv. by apply elem_of_replicate in Hv as [? _].
Qed.

(** X13: a failed read of the limiting magnitude is not repeated.  When
    [M5Depth] raises, the dictionary under construction stays in the
    cache, so the next read returns that partial dictionary instead of
    raising again. *)
Theorem M5Depth_failed_read_is_cached c e c1 :
  M5Depth c = (Raise e, c1) ->
  exists d, C._M5Depth c1 = Some d /\ M5Depth c1 = (Ok (Some d), c1).
Proof.
  unfold C.M5Depth at 1. destruct (C._M5Depth c) as [d|] eqn:Hc; [done|].
  unfold C.calc_M5Depth.
  destruct (calc_M5Depth_loop c (C._skybrightness c) []) as [[e'|] d];
    [|done].
  intros [= <- <-]. exists d. split; [done|]. by unfold C.M5Depth.
Qed.

Lemma dict_get_set_eq {V : Type} (k : string) (v : V) (d : C.dict V) :
  C.dict_get k (C.dict_set k v d) = Some v.
Proof.
  induction d as [|[k' v'] d IH]; cbn [C.dict_set C.dict_get].
  - by rewrite String.eqb_refl.
  - destruct (String.eqb k k') eqn:E; cbn [C.dict_get]; rewrite ?E;
      [by rewrite String.eqb_refl | done].
Qed.

Lemma dict_get_set_ne {V : Type} (k k' : string) (v : V) (d : C.dict V) :
  k <> k' -> C.dict_get k (C.dict_set k' v d) = C.dict_get k d.
Proof.
  intros Hne. induction d as [|[k0 v0] d IH]; cbn [C.dict_set C.dict_get].
  - by apply String.eqb_neq in Hne as ->.
  - destruct (String.eqb k' k0) eqn:E; cbn [C.dict_get].
    + apply String.eqb_eq in E as <-. by apply String.eqb_neq in Hne as ->.
    + by rewrite IH.
Qed.

Lemma np_take_Forall2 {A : Type} (a : list A) (idx : list nat) : forall xs,
  np_take a idx = Ok xs -> Forall2 (fun i x => a !! i = Some x) idx xs.
Proof.
  induction idx as [|i idx IH]; intros xs; cbn [np_take].
  - intros [= <-]. constructor.
  - destruct (a !! i) as [x|] eqn:Hi; [|done].
    destruct (np_take a idx) as [xs'|]; [|done]. cbn [bind].
    intros [= <-]. constructor; [done | by apply IH].
Qed.

Lemma np_take_Raise {A : Type} (a : list A) (idx : list nat) (i : nat) :
  i ∈ idx -> a !! i = None -> np_take a idx = Raise IndexError.
Proof.
  intros Hin Hnone. destruct (np_take a idx) as [xs|e] eqn:Htake.
  - apply np_take_Forall2 in Htake.
    apply list_elem_of_lookup_1 in Hin as [k Hk].
    destruct (Forall2_lookup_l _ _ _ _ _ Htake Hk) as (x & _ & Hx). congruence.
  - clear Hin Hnone. revert e Htake.
    induction idx as [|j idx IH]; intros e; cbn [np_take]; [done|].
    destruct (a !! j); [|by intros [= <-]].
    destruct (np_take a idx) as [xs|e']; [done|]. cbn [bind].
    intros [= <-]. by rewrite (IH e' eq_refl).
Qed.

Lemma np_where_from_NoDup (mask : list bool) : forall k,
  NoDup (np_where_from k mask).
Proof.
  induction mask as [|b mask IH]; intros k; cbn [np_where_from];
    [constructor|].
  destruct b; [|apply IH]. constructor; [|apply IH].
  intros Hk. apply elem_of_np_where_from in Hk as [Hk _]. lia.
Qed.

Lemma np_put_spec {A : Type} (idx : list nat) : forall (a a' vals : list A),
  NoDup idx -> length vals = length idx ->
  C.np_put a idx vals = Ok a' ->
  length a' = length a
  /\ (forall k i v, idx !! k = Some i -> vals !! k = Some v -> a' !! i = Some v)
  /\ (forall j, j ∉ idx -> a' !! j = a !! j).
Proof.
  induction idx as [|i idx IH]; intros a a' vals Hnd Hlen;
    destruct vals as [|v vals]; try done; cbn [C.np_put].
  - intros [= <-]. split; [done|]. split; [|done]. by intros k i v Hk.
  - apply NoDup_cons in Hnd as [Hi Hnd].
    destruct (Nat.ltb_spec i (length a)) as [Hlt|]; [|done].
    intros Hput. apply IH in Hput as (Hl & Hset & Hother);
      [|done | by injection Hlen].
    rewrite length_insert in Hl. split; [done|]. split.
    + intros [|k] j w; cbn [lookup list_lookup]; [|by apply Hset].
      intros [= <-] [= <-]. rewrite (Hother i Hi).
      by apply list_lookup_insert_eq.
    + intros j Hj. apply not_elem_of_cons in Hj as [Hne Hj].
      rewrite (Hother j Hj). by apply list_lookup_insert_ne.
Qed.

Lemma m5_row_spec c f sky row :
  m5_row c f sky = Ok row ->
  C.unseen_map c = replicate (length sky) C.UNSEEN ->
  exists fwhm air,
    C.dict_get f (C._FWHMeff c) = Some fwhm /\ C._airmass c = Some air
    /\ length row = length sky
    /\ forall i v, sky !! i = Some v ->
         if Qeq_bool v C.UNSEEN then row !! i = Some Masked
         else exists w a,
             fwhm !! i = Some w /\ air !! i = Some a
             /\ row !! i
                = Some (let m := m5_flat_sed f v w (C.exptime c) a in
                        if Qeq_bool m C.UNSEEN then Masked else Depth m).
Proof.
  unfold C.m5_row. intros Hrow Hunseen.
  set (good := np_where (map (fun v => negb (Qeq_bool v C.UNSEEN)) sky)) in *.
  destruct (np_take sky good) as [sg|] eqn:Hsg; [|done].
  destruct (C.dict_get f (C._FWHMeff c)) as [fw|]; [|done].
  destruct (np_take fw good) as [fg|] eqn:Hfg; [|done].
  destruct (C._airmass c) as [am|]; [|done].
  destruct (np_take am good) as [ag|] eqn:Hag; [|done].
  cbn [bind] in Hrow.
  match type of Hrow with
  | context [C.np_put _ _ ?vals] => set (m5 := vals) in *
  end.
  destruct (C.np_put (C.unseen_map c) good m5) as [filled|] eqn:Hput; [|done].
  cbn [bind] in Hrow. injection Hrow as <-.
  apply np_take_Forall2 in Hsg, Hfg, Hag.
  pose proof (Forall2_length _ _ _ Hsg) as Lsg.
  pose proof (Forall2_length _ _ _ Hfg) as Lfg.
  pose proof (Forall2_length _ _ _ Hag) as Lag.
  apply np_put_spec in Hput as (Hlen & Hset & Hother).
  2:{ apply np_where_from_NoDup. }
  2:{ subst m5. rewrite length_zip_with, length_zip_with. lia. }
  exists fw, am. split; [done|]. split; [done|]. split.
  { by rewrite length_map, Hlen, Hunseen, length_replicate. }
  intros i v Hv. rewrite list_lookup_fmap.
  assert (i ∈ good <-> Qeq_bool v C.UNSEEN = false) as Hgood.
  { subst good. rewrite elem_of_np_where, list_lookup_fmap, Hv.
    cbn. destruct (Qeq_bool v C.UNSEEN); split; done. }
  destruct (Qeq_bool v C.UNSEEN) eqn:Hm.
  - rewrite Hother, Hunseen.
    + rewrite lookup_replicate_2 by by eapply lookup_lt_Some. done.
    + intros Hin. apply Hgood in Hin. done.
  - pose proof (proj2 Hgood eq_refl) as Hi.
    apply list_elem_of_lookup_1 in Hi as [k Hk].
    destruct (Forall2_lookup_l _ _ _ _ _ Hsg Hk) as (x & Hx & Hsx).
    destruct (Forall2_lookup_l _ _ _ _ _ Hfg Hk) as (w & Hw & Hfw).
    destruct (Forall2_lookup_l _ _ _ _ _ Hag Hk) as (a & Ha & Haa).
    assert (x = v) as -> by congruence.
    exists w, a. split; [done|]. split; [done|].
    rewrite (Hset k i (m5_flat_sed f v w (C.exptime c) a) Hk); [done|].
    subst m5. apply lookup_zip_with_Some. exists (v, w), a.
    split; [done|]. split; [|done].
    apply lookup_zip_with_Some. by exists v, w.
Qed.

Lemma calc_M5Depth_loop_other c f items : forall acc e d,
  calc_M5Depth_loop c items acc = (e, d) ->
  f ∉ items.*1 ->
  C.dict_get f d = C.dict_get f acc.
Proof.
  induction items as [|[k sky] items IH]; intros acc e d;
    cbn [C.calc_M5Depth_loop fmap list_fmap].
  - by intros [= _ <-].
  - intros Hloop Hf. apply not_elem_of_cons in Hf as [Hne Hf].
    cbn [fst] in Hne.
    destruct (m5_row c k sky) as [row|e'].
    + rewrite (IH _ _ _ Hloop Hf). by apply dict_get_set_ne.
    + injection Hloop as _ <-. by apply dict_get_set_ne.
Qed.

Lemma calc_M5Depth_loop_lookup c f sky items : forall acc d,
  calc_M5Depth_loop c items acc = (None, d) ->
  NoDup items.*1 -> (f, sky) ∈ items ->
  exists row, m5_row c f sky = Ok row /\ C.dict_get f d = Some row.
Proof.
  induction items as [|[k sky'] items IH]; intros acc d;
    cbn [C.calc_M5Depth_loop fmap list_fmap].
  - by intros _ _ ?%elem_of_nil.
  - intros Hloop Hnd Hin. apply NoDup_cons in Hnd as [Hk Hnd]. cbn [fst] in Hk.
    destruct (m5_row c k sky') as [row|e'] eqn:Hrow; [|done].
    apply elem_of_cons in Hin as [[= -> ->] | Hin].
    + exists row. split; [done|].
      rewrite (calc_M5Depth_loop_other _ _ _ _ _ _ Hloop Hk).
      apply dict_get_set_eq.
    + by eapply IH.
Qed.

(** X14: the limiting magnitude follows the no-data mask of the sky
    brightness.  After a read that returns, the map of every filter of the
    sky-brightness dictionary is as long as the sky-brightness map, masked
    at every pixel where the sky brightness is [hp.UNSEEN], and elsewhere
    the value of [m5_flat_sed] on the sky brightness, the seeing and the
    airmass stored at that same pixel index (masked when that value is
    itself [hp.UNSEEN]). *)
Theorem M5Depth_masks_no_data c d c1 f sky :
  C._M5Depth c = None ->
  M5Depth c = (Ok (Some d), c1) ->
  NoDup (C._skybrightness c).*1 ->
  (f, sky) ∈ C._skybrightness c ->
  C.unseen_map c = replicate (length sky) C.UNSEEN ->
  exists row fwhm air,
    C.dict_get f d = Some row
    /\ C.dict_get f (C._FWHMeff c) = Some fwhm /\ C._airmass c = Some air
    /\ length row = length sky
    /\ forall i v, sky !! i = Some v ->
         if Qeq_bool v C.UNSEEN then row !! i = Some Masked
         else exists w a,
             fwhm !! i = Some w /\ air !! i = Some a
             /\ row !! i
                = Some (let m := m5_flat_sed f v w (C.exptime c) a in
                        if Qeq_bool m C.UNSEEN then Masked else Depth m).
Proof.
  intros Hc Hread Hnd Hin Hunseen.
  unfold C.M5Depth, C.calc_M5Depth in Hread. rewrite Hc in Hread.
  destruct (calc_M5Depth_loop c (C._skybrightness c) []) as [[e|] d'] eqn:Hloop;
    [done|].
  cbn [C._M5Depth C.with_M5Depth] in Hread. injection Hread as <- _.
  destruct (calc_M5Depth_loop_lookup c f sky _ _ _ Hloop Hnd Hin)
    as (row & Hrow & Hd).
  destruct (m5_row_spec c f sky row Hrow Hunseen) as (fw & am & ? & ? & ? & ?).
  exists row, fw, am. done.
Qed.
End ConditionsMore.

Section ConditionsInputs.
Variable ud_grade : list Q -> nat -> result (list Q).
Variable m5_flat_sed : string -> Q -> Q -> Q -> Q -> Q.
Variable radians : Q -> Q.
Variable two_pi : Q.

Implicit Types (c : C.t).

Local Abbreviation HA := (C.HA radians two_pi).
Local Abbreviation M5Depth := (C.M5Depth m5_flat_sed).
Local Abbreviation m5_row := (C.m5_row m5_flat_sed).
Local Abbreviation skybrightness_set := (C.skybrightness_set ud_grade).
Local Abbreviation skybrightness_loop := (C.skybrightness_loop ud_grade).

Lemma np_take_good (sky : list Q) (p : Q -> bool) :
  np_take sky (np_where (map p sky)) = Ok (filter (fun v => p v) sky).
Proof. apply (np_take_where p sky []). Qed.

(** X15: what a read of the limiting magnitude raises when an input of the
    first sky-brightness filter is missing: [KeyError] when the seeing has
    no map for that filter; [IndexError] when its seeing map is too short
    to reach a pixel that has a sky brightness; [TypeError] when the seeing
    map is long enough and the airmass was never written. *)
Theorem M5Depth_missing_input_errors c f sky rest :
  C._M5Depth c = None ->
  C._skybrightness c = (f, sky) :: rest ->
  (C.dict_get f (C._FWHMeff c) = None -> (M5Depth c).1 = Raise KeyError)
  /\ (forall fw i v,
        C.dict_get f (C._FWHMeff c) = Some fw ->
        sky !! i = Some v -> Qeq_bool v C.UNSEEN = false ->
        (length fw <= i)%nat ->
        (M5Depth c).1 = Raise IndexError)
  /\ (forall fw,
        C.dict_get f (C._FWHMeff c) = Some fw ->
        (length sky <= length fw)%nat ->
        C._airmass c = None ->
        (M5Depth c).1 = Raise TypeError).
Proof.
  intros Hc Hsky.
  assert (forall e, m5_row c f sky = Raise e -> (M5Depth c).1 = Raise e) as Hup.
  { intros e He. unfold C.M5Depth, C.calc_M5Depth. rewrite Hc, Hsky.
    cbn [C.calc_M5Depth_loop]. by rewrite He. }
  split; [|split].
  - intros Hf. apply Hup. unfold C.m5_row. rewrite np_take_good. cbn [bind].
    by rewrite Hf.
  - intros fw i v Hf Hv Hgood Hshort. apply Hup. unfold C.m5_row.
    rewrite np_take_good. cbn [bind]. rewrite Hf.
    rewrite (np_take_Raise fw _ i); [done | |].
    + apply elem_of_np_where. rewrite list_lookup_fmap, Hv. cbn.
      by rewrite Hgood.
    + by apply lookup_ge_None.
  - intros fw Hf Hlong Hair. apply Hup. unfold C.m5_row.
    rewrite np_take_good. cbn [bind]. rewrite Hf.
    rewrite (np_take_total fw (fun i => default 0%Q (fw !! i))).
    + cbn [bind]. by rewrite Hair.
    + apply Forall_forall. intros i Hi.
      apply elem_of_np_where in Hi. apply lookup_lt_Some in Hi.
      rewrite length_map in Hi.
      destruct (lookup_lt_is_Some_2 fw i) as [w ->]; [lia | done].
Qed.

Lemma skybrightness_loop_fields indict : forall c e c',
  skybrightness_loop indict c = (e, c') ->
  C.nside c' = C.nside c /\ C._M5Depth c' = C._M5Depth c
  /\ C._FWHMeff c' = C._FWHMeff c /\ C._airmass c' = C._airmass c.
Proof.
  induction indict as [|[key value] indict IH]; intros c e c';
    cbn [C.skybrightness_loop].
  - by intros [= <- <-].
  - destruct (ud_grade value (C.nside c)) as [m|]; [|by intros [= <- <-]].
    intros Hloop. by apply IH in Hloop.
Qed.

Lemma skybrightness_loop_written indict : forall c c',
  skybrightness_loop indict c = (None, c') ->
  NoDup indict.*1 ->
  (forall k v, (k, v) ∈ indict ->
     exists m, ud_grade v (C.nside c) = Ok m
               /\ C.dict_get k (C._skybrightness c') = Some m)
  /\ (forall k, k ∉ indict.*1 ->
        C.dict_get k (C._skybrightness c') = C.dict_get k (C._skybrightness c)).
Proof.
  induction indict as [|[key value] indict IH]; intros c c';
    cbn [C.skybrightness_loop fmap list_fmap].
  - intros [= <-] _. split; [by intros k v ?%elem_of_nil | done].
  - destruct (ud_grade value (C.nside c)) as [m|] eqn:Hm; [|done].
    intros Hloop Hnd. apply NoDup_cons in Hnd as [Hkey Hnd].
    cbn [fst] in Hkey.
    destruct (IH _ _ Hloop Hnd) as [Hin Hout].
    cbn [C._skybrightness C.with_dicts C.nside] in Hin, Hout. split.
    + intros k v Hkv. apply elem_of_cons in Hkv as [[= -> ->] | Hkv].
      * exists m. split; [done|]. rewrite (Hout key Hkey).
        apply dict_get_set_eq.
      * by apply Hin.
    + intros k Hk. apply not_elem_of_cons in Hk as [Hne Hk]. cbn [fst] in Hne.
      rewrite (Hout k Hk). by apply dict_get_set_ne.
Qed.

(** X16: the sky-brightness setter merges.  After a write that returns,
    every filter of the dictionary written holds the resampled version of
    its map, and every other filter keeps the map it had; the seeing and
    the airmass are untouched. *)
Theorem skybrightness_set_merges c indict c' :
  skybrightness_set indict c = (None, c') ->
  NoDup indict.*1 ->
  (forall k v, (k, v) ∈ indict ->
     exists m, ud_grade v (C.nside c) = Ok m
               /\ C.dict_get k (C.skybrightness c') = Some m)
  /\ (forall k, k ∉ indict.*1 ->
        C.dict_get k (C.skybrightness c') = C.dict_get k (C.skybrightness c))
  /\ C.FWHMeff c' = C.FWHMeff c /\ C.airmass c' = C.airmass c.
Proof.
  unfold C.skybrightness_set.
  destruct (skybrightness_loop indict c) as [[e|] c0] eqn:Hloop; [done|].
  intros [= <-] Hnd.
  destruct (skybrightness_loop_written _ _ _ Hloop Hnd) as [Hin Hout].
  destruct (skybrightness_loop_fields _ _ _ _ Hloop) as (_ & _ & Hf & Ha).
  split; [exact Hin|]. split; [exact Hout|]. split; [exact Hf | exact Ha].
Qed.

(** X17: when the resampler raises on one of the maps, the sky-brightness
    setter stops there: the filters before it are written, the exception
    comes out, and the cached limiting magnitude is not cleared, so reads
    keep returning the value computed before the write. *)
Theorem skybrightness_set_failure_keeps_cache c indict e c' :
  skybrightness_set indict c = (Some e, c') ->
  C._M5Depth c' = C._M5Depth c
  /\ exists done_ key value rest,
       indict = done_ ++ (key, value) :: rest
       /\ skybrightness_loop done_ c = (None, c')
       /\ ud_grade value (C.nside c) = Raise e.
Proof.
  unfold C.skybrightness_set.
  destruct (skybrightness_loop indict c) as [[e0|] c0] eqn:Hloop; [|done].
  intros [= <- <-]. split.
  { by destruct (skybrightness_loop_fields _ _ _ _ Hloop) as (_ & ? & _). }
  revert c Hloop.
  induction indict as [|[key value] indict IH]; intros c;
    cbn [C.skybrightness_loop]; [done|].
  destruct (ud_grade value (C.nside c)) as [m|e'] eqn:Hm.
  - intros Hloop. destruct (IH _ Hloop)
      as (done_ & k & v & rest & -> & Hdone & Hv).
    exists ((key, value) :: done_), k, v, rest. split; [done|].
    cbn [C.skybrightness_loop C.nside C.with_dicts] in *. by rewrite Hm.
  - intros [= <- <-]. by exists [], key, value, indict.
Qed.

(** X18: the hour angle is brought back into one turn.  When the local
    sidereal time is written and no pixel's right ascension is more than a
    turn away from it, a read returns one value per pixel, each from 0 to
    2 pi, both ends included: a difference just below zero is moved to
    2 pi or just below it. *)
Theorem HA_within_one_turn c l :
  C._HA c = None -> C._lmst c = Some l ->
  (0 <= two_pi)%Q ->
  Forall (fun r => (- two_pi <= radians (l * 360 / 24) - r <= two_pi)%Q)
    (C.ra c) ->
  exists ha, (HA c).1 = Ok (Some ha)
    /\ length ha = length (C.ra c)
    /\ Forall (fun h => (0 <= h <= two_pi)%Q) ha.
Proof.
  intros Hc Hl Hpos Hra. unfold C.HA, C.calc_HA. rewrite Hc, Hl.
  cbn [fst C._HA C.with_HA]. eexists. split; [done|].
  split; [by rewrite !length_map|].
  rewrite Forall_fmap, Forall_fmap.
  eapply Forall_impl; [exact Hra|]. intros r [Hlo Hhi]. unfold compose.
  set (h := (radians (l * 360 / 24) - r)%Q) in *. clearbody h.
  destruct (Qltb h 0) eqn:Hneg;
    [apply Qltb_lt in Hneg | apply Qltb_ge in Hneg]; split; lra.
Qed.
End ConditionsInputs.

(** *** On examples *)

Lemma M5Depth_failed_read_is_cached_witness :
  let c1 := (C.M5Depth m5_toy conditions_sky_only).2 in
  (C.M5Depth m5_toy conditions_sky_only).1 = Raise KeyError
  /\ exists d, C.M5Depth m5_toy c1 = (Ok (Some d), c1).
Proof.
  intros c1. split; [by vm_compute|].
  destruct (M5Depth_failed_read_is_cached m5_toy conditions_sky_only KeyError c1)
    as (d & _ & Hd); [by vm_compute|].
  by exists d.
Defined.

Lemma M5Depth_masks_no_data_witness :
  match (C.M5Depth m5_toy conditions_r_or_init).1 with
  | Ok (Some d) =>
      exists row, C.dict_get "r" d = Some row /\ length row = 12%nat
  | _ => False
  end.
Proof.
  destruct (C.M5Depth m5_toy conditions_r_or_init) as [r c1] eqn:Hread.
  assert (exists d, r = Ok (Some d)) as [d ->].
  { vm_compute in Hread. injection Hread as <- _. by eexists. }
  cbn [fst].
  destruct (M5Depth_masks_no_data m5_toy conditions_r_or_init d c1 "r"
              (replicate 12 21%Q)) as (row & _ & _ & Hrow & _ & _ & Hlen & _).
  - reflexivity.
  - exact Hread.
  - change (NoDup ["r"]). apply NoDup_singleton.
  - change (("r", replicate 12 21%Q) ∈ [("r", replicate 12 21%Q)]).
    apply list_elem_of_singleton. reflexivity.
  - reflexivity.
  - exists row. split; [exact Hrow|]. rewrite Hlen. reflexivity.
Defined.

Lemma M5Depth_missing_input_errors_witness :
  (C.M5Depth m5_toy conditions_sky_only).1 = Raise KeyError.
Proof.
  destruct (M5Depth_missing_input_errors m5_toy conditions_sky_only "r"
              (replicate 12 21%Q) []) as [H _]; [reflexivity..|].
  apply H. reflexivity.
Defined.

Lemma skybrightness_set_merges_witness :
  exists m,
    ud_nearest (replicate 48 21%Q) 1 = Ok m
    /\ C.dict_get "r"
         (C.skybrightness
            (C.skybrightness_set ud_nearest [("r", replicate 48 21%Q)]
               conditions_init).2) = Some m.
Proof.
  destruct (skybrightness_set_merges ud_nearest conditions_init
              [("r", replicate 48 21%Q)]
              (C.skybrightness_set ud_nearest [("r", replicate 48 21%Q)]
                 conditions_init).2) as [H _].
  - reflexivity.
  - apply NoDup_singleton.
  - apply (H "r" (replicate 48 21%Q)). apply list_elem_of_singleton. reflexivity.
Defined.

Lemma skybrightness_set_failure_keeps_cache_witness :
  let c := (C.M5Depth m5_toy conditions_r_or_init).2 in
  let c' := (C.skybrightness_set ud_nearest
               [("r", replicate 12 20%Q); ("g", [])] c).2 in
  C._M5Depth c' = C._M5Depth c /\ C._M5Depth c <> None
  /\ C.dict_get "r" (C.skybrightness c') = Some (replicate 12 20%Q).
Proof.
  intros c c'.
  destruct (skybrightness_set_failure_keeps_cache ud_nearest c
              [("r", replicate 12 20%Q); ("g", [])] ValueError c')
    as [H _]; [by vm_compute|].
  split; [exact H|]. split; by vm_compute.
Defined.

(** Sidereal time 6 h on a grid with right ascensions 0 and 2 radians:
    the difference at the eastern pixels is negative and comes back
    increased by a turn. *)
Lemma HA_within_one_turn_witness :
  exists ha,
    (C.HA deg2rad turn (C.lmst_set 6 conditions_two_ra)).1 = Ok (Some ha)
    /\ Forall (fun h => (0 <= h <= turn)%Q) ha
    /\ ha !! 0%nat = Some (deg2rad (6 * 360 / 24) - 0)%Q
    /\ ha !! 6%nat = Some (deg2rad (6 * 360 / 24) - 2 + turn)%Q.
Proof.
  destruct (HA_within_one_turn deg2rad turn (C.lmst_set 6 conditions_two_ra) 6)
    as (ha & Hha & _ & Hrange); try reflexivity.
  - by vm_compute.
  - repeat (constructor; [split; by vm_compute|]). constructor.
  - exists ha. split; [exact Hha|]. split; [exact Hrange|].
    cbv [C.HA C.calc_HA C.lmst_set C._HA C._lmst C.with_HA C.with_time
         conditions_two_ra fst C.ra] in Hha.
    injection Hha as <-. split; reflexivity.
Defined.

(** ** The deep drilling survey: construction and generation *)

Lemma insert_by_filter_perm (o : Obs.t) (l : list Obs.t) :
  D.insert_by_filter o l ≡ₚ o :: l.
Proof.
  induction l as [|x l IH]; [done|]. cbn [D.insert_by_filter].
  destruct (String.leb (Obs.filter o) (Obs.filter x)); [done|].
  rewrite IH. apply Permutation_swap.
Qed.

Lemma sort_by_filter_perm (l : list Obs.t) : D.sort_by_filter l ≡ₚ l.
Proof.
  induction l as [|x l IH]; [done|]. unfold D.sort_by_filter in *.
  cbn [foldr]. by rewrite insert_by_filter_perm, IH.
Qed.

Lemma insert_by_filter_sorted (o : Obs.t) (l : list Obs.t) :
  Sorted filter_le l -> Sorted filter_le (D.insert_by_filter o l).
Proof.
  induction l as [|x l IH]; intros Hs; cbn [D.insert_by_filter].
  - by repeat constructor.
  - destruct (String.leb (Obs.filter o) (Obs.filter x)) eqn:Hox.
    + constructor; [done | constructor; exact Hox].
    + apply Sorted_inv in Hs as [Hs Hhd]. constructor; [by apply IH|].
      assert (filter_le x o) as Hxo.
      { by destruct (String.leb_total (Obs.filter o) (Obs.filter x));
          [congruence|]. }
      destruct l as [|y l]; cbn [D.insert_by_filter]; [by constructor|].
      destruct (String.leb (Obs.filter o) (Obs.filter y)); constructor;
        [done|]. by inversion Hhd.
Qed.

Lemma sort_by_filter_sorted (l : list Obs.t) :
  Sorted filter_le (D.sort_by_filter l).
Proof.
  induction l as [|x l IH]; [constructor|]. unfold D.sort_by_filter in *.
  cbn [foldr]. by apply insert_by_filter_sorted.
Qed.

Lemma build_rows_length ra dec exptime nexp name (nvis : list Z) (f : string) :
  length (D.build_rows ra dec exptime nexp name nvis f)
  = sum_list (Z.to_nat <$> take (String.length f) nvis).
Proof.
  unfold D.build_rows. rewrite <- chars_length.
  generalize (D.chars f) as fs. clear f.
  induction nvis as [|n nvis IH]; intros [|ch fs]; try done.
  cbn [zip_with flat_map length take fmap list_fmap sum_list sum_list_with].
  rewrite length_app, length_replicate, IH. done.
Qed.

Lemma filter_all_true {A : Type} (p : A -> bool) (l : list A) :
  Forall (fun x => p x = true) l -> filter (fun x => p x) l = l.
Proof.
  induction 1 as [|x l Hx _ IH]; [done|].
  rewrite filter_cons, IH, Hx. done.
Qed.

Lemma filter_all_false {A : Type} (p : A -> bool) (l : list A) :
  Forall (fun x => p x = false) l -> filter (fun x => p x) l = [].
Proof.
  induction 1 as [|x l Hx _ IH]; [done|].
  rewrite filter_cons, IH, Hx. done.
Qed.

Section DeepDrillingMore.
Variable radians : Q -> Q.
Variable _check_feasibility : D.t -> Snapshot.t -> bool.

Local Abbreviation generate_observations_rough :=
  (D.generate_observations_rough _check_feasibility).
Local Abbreviation calc_reward_function :=
  (D.calc_reward_function _check_feasibility).
Local Abbreviation __init__ := (D.__init__ radians).

(** X19: the batch a constructed survey stores is the rows given (or built
    from the filter string), rearranged in the order of their filter
    names; built from a string it has as many rows as the positive visit
    counts paired with a filter add up to. *)
Theorem dd_init_batch_sorted_by_filter (RA dec_deg : Q) (sequence : D.sequence_arg)
    (nvis : list Z) (exptime nexp : Q) (name : string) (rv : option Q)
    (readtime fct pad : Q) (s : D.t) :
  __init__ RA dec_deg sequence nvis exptime nexp name rv readtime fct pad
  = Ok s ->
  let rows :=
    match sequence with
    | D.SeqStr filters =>
        D.build_rows (radians RA) (radians dec_deg) exptime nexp name nvis
          filters
    | D.SeqObs l => l
    end in
  Sorted filter_le (D.observations s)
  /\ D.observations s ≡ₚ rows
  /\ D.observations s <> []
  /\ (forall filters, sequence = D.SeqStr filters ->
        length (D.observations s)
        = sum_list (Z.to_nat <$> take (String.length filters) nvis)).
Proof.
  intros Hinit rows. unfold D.__init__ in Hinit. fold rows in Hinit.
  assert (rows <> [] /\ D.observations s = D.sort_by_filter rows)
    as [Hne Hobs].
  { clearbody rows. destruct rows; [done|]. by injection Hinit as <-. }
  rewrite Hobs. split; [apply sort_by_filter_sorted|].
  split; [apply sort_by_filter_perm|]. split.
  - intros Hnil. pose proof (sort_by_filter_perm rows) as Hp.
    rewrite Hnil in Hp. apply Permutation_nil_l in Hp. done.
  - intros filters ->. rewrite (Permutation_length (sort_by_filter_perm rows)).
    subst rows. apply build_rows_length.
Qed.

(** X20: generation never raises.  For infeasible conditions it returns
    nothing and the reward is minus infinity.  For feasible conditions it
    returns at most as many rows as the batch has; with no filter loaded,
    the stamped rows in a mounted filter, in batch order; and when no row of
    the batch is in a mounted filter, nothing, although the reward is
    finite. *)
Theorem dd_generate_edge_cases (s : D.t) (c : Snapshot.t) :
  let expiry := (Snapshot.mjd c + D.approx_time s + D.flush_pad s)%Q in
  let stamped := map (Obs.set_flush_by_mjd expiry) (D.observations s) in
  (exists out, generate_observations_rough s c = Ok out
               /\ (length out <= length (D.observations s))%nat)
  /\ (_check_feasibility s c = false ->
      generate_observations_rough s c = Ok []
      /\ calc_reward_function s c = NegInf)
  /\ (_check_feasibility s c = true ->
      Snapshot.current_filter c = None ->
      generate_observations_rough s c
      = Ok (filter (fun o => is_mounted c o) stamped))
  /\ (_check_feasibility s c = true ->
      Forall (fun o => is_mounted c o = false) (D.observations s) ->
      generate_observations_rough s c = Ok []
      /\ calc_reward_function s c <> NegInf).
Proof.
  intros expiry stamped.
  set (kept := filter (fun o => is_mounted c o) stamped).
  assert (_check_feasibility s c = true ->
          generate_observations_rough s c
          = Ok (filter (fun o => D.is_current c o) kept
                ++ filter (fun o => negb (D.is_current c o)) kept)) as Hgen.
  { intros Hfeas. unfold D.generate_observations_rough. rewrite Hfeas.
    fold expiry. fold stamped. subst kept. unfold is_mounted.
    rewrite (np_compress_filter
               (fun o => existsb (String.eqb (Obs.filter o))
                           (Snapshot.mounted_filters c)) stamped).
    apply np_take_app; apply (np_take_where _ _ []). }
  split; [|split; [|split]].
  - destruct (_check_feasibility s c) eqn:Hfeas.
    + eexists. split; [by apply Hgen|].
      rewrite (list_filter_iff (fun o => Is_true (negb (D.is_current c o)))
                 (fun o => ~ Is_true (D.is_current c o)) kept)
        by (intros o; apply negb_True).
      rewrite (Permutation_length (filter_app_complement _ kept)).
      subst kept. etrans; [apply length_filter|].
      subst stamped. by rewrite length_map.
    + exists []. unfold D.generate_observations_rough. rewrite Hfeas.
      split; [done | cbn; lia].
  - intros Hfeas. unfold D.generate_observations_rough, D.calc_reward_function.
    by rewrite Hfeas.
  - intros Hfeas Hnone. rewrite (Hgen Hfeas).
    rewrite filter_all_false, filter_all_true; [done | |];
      apply Forall_forall; intros o _; unfold D.is_current; by rewrite Hnone.
  - intros Hfeas Hnone. split.
    + rewrite (Hgen Hfeas).
      assert (kept = []) as ->; [|done].
      subst kept. apply filter_all_false. subst stamped.
      rewrite Forall_fmap. eapply Forall_impl; [exact Hnone|]. by intros o.
    + unfold D.calc_reward_function. rewrite Hfeas.
      by destruct (D.reward_value s).
Qed.
End DeepDrillingMore.

(** *** On examples *)

Lemma dd_init_batch_sorted_by_filter_witness :
  match dd_rgiz with
  | Some s =>
      Sorted filter_le (D.observations s)
      /\ length (D.observations s) = 5%nat
  | None => False
  end.
Proof.
  destruct (D.__init__ id 0 0 (D.SeqStr "rgiz") [2; 1; 1; 1]%Z 30 2 "DD"
              (Some 100%Q) 2 120 30) as [s|e] eqn:Hinit.
  - replace dd_rgiz with (Some s) by (unfold dd_rgiz; by rewrite Hinit).
    destruct (dd_init_batch_sorted_by_filter id _ _ _ _ _ _ _ _ _ _ _ s Hinit)
      as (Hsorted & _ & _ & Hlen).
    split; [exact Hsorted|]. by rewrite (Hlen "rgiz" eq_refl).
  - by vm_compute in Hinit.
Defined.

Lemma dd_generate_edge_cases_witness :
  match dd_rgiz with
  | Some s =>
      D.generate_observations_rough (fun _ _ => true) s
        (Snapshot.mk 100 0 (fun _ => 5%Q) (Some "r") ["u"; "y"]
           (fun _ _ => Depth 24)) = Ok []
  | None => False
  end.
Proof.
  destruct dd_rgiz as [s|] eqn:Hs; [|by vm_compute in Hs].
  destruct (dd_generate_edge_cases (fun _ _ => true) s
              (Snapshot.mk 100 0 (fun _ => 5%Q) (Some "r") ["u"; "y"]
                 (fun _ _ => Depth 24))) as (_ & _ & _ & H).
  apply H; [reflexivity|].
  vm_compute in Hs. injection Hs as <-.
  repeat (constructor; [reflexivity|]). constructor.
Defined.

(** ** The seeing setter *)

Lemma foldl_dict_set {V : Type} (indict : C.dict V) : forall d,
  NoDup indict.*1 ->
  let d' := foldl (fun d kv => C.dict_set kv.1 kv.2 d) d indict in
  (forall k v, (k, v) ∈ indict -> C.dict_get k d' = Some v)
  /\ (forall k, k ∉ indict.*1 -> C.dict_get k d' = C.dict_get k d).
Proof.
  induction indict as [|[key value] indict IH]; intros d Hnd;
    cbn [foldl fmap list_fmap fst snd].
  - split; [by intros k v ?%elem_of_nil | done].
  - apply NoDup_cons in Hnd as [Hkey Hnd]. cbn [fst] in Hkey.
    destruct (IH (C.dict_set key value d) Hnd) as [Hin Hout]. split.
    + intros k v Hkv. apply elem_of_cons in Hkv as [[= -> ->] | Hkv].
      * rewrite (Hout key Hkey). apply dict_get_set_eq.
      * by apply Hin.
    + intros k Hk. apply not_elem_of_cons in Hk as [Hne Hk]. cbn [fst] in Hne.
      rewrite (Hout k Hk). by apply dict_get_set_ne.
Qed.

(** X21: the seeing setter stores what it is given.  After the write every
    filter of the dictionary written holds exactly the map supplied,
    whatever its length, every other filter keeps its map, the sky
    brightness and the airmass are untouched, and the cached limiting
    magnitude is cleared. *)
Theorem FWHMeff_set_stores_as_given (c : C.t) (indict : C.dict (list Q)) :
  NoDup indict.*1 ->
  let c' := C.FWHMeff_set indict c in
  (forall k v, (k, v) ∈ indict -> C.dict_get k (C.FWHMeff c') = Some v)
  /\ (forall k, k ∉ indict.*1 ->
        C.dict_get k (C.FWHMeff c') = C.dict_get k (C.FWHMeff c))
  /\ C.skybrightness c' = C.skybrightness c
  /\ C.airmass c' = C.airmass c
  /\ C._M5Depth c' = None.
Proof.
  intros Hnd c'. destruct (foldl_dict_set indict (C._FWHMeff c) Hnd) as [Hin Hout].
  split; [exact Hin|]. split; [exact Hout | done].
Qed.

Lemma FWHMeff_set_stores_as_given_witness :
  C.dict_get "r"
    (C.FWHMeff (C.FWHMeff_set [("r", replicate 48 (7 # 10)%Q)] conditions_init))
  = Some (replicate 48 (7 # 10)%Q).
Proof.
  destruct (FWHMeff_set_stores_as_given conditions_init
              [("r", replicate 48 (7 # 10)%Q)]) as [H _].
  - apply NoDup_singleton.
  - apply H. apply list_elem_of_singleton. reflexivity.
Defined.

(** ** Writes and the limiting magnitude read after them *)
Section ConditionsRecompute.
Variable ud_grade : list Q -> nat -> result (list Q).
Variable _approx_RaDec2AltAz :
  list Q -> list Q -> Q -> Q -> option Q -> result (list Q * list Q).
Variable m5_flat_sed : string -> Q -> Q -> Q -> Q -> Q.
Variable radians : Q -> Q.
Variable two_pi : Q.

Implicit Types (c : C.t).

Local Abbreviation alt := (C.alt _approx_RaDec2AltAz).
Local Abbreviation az := (C.az _approx_RaDec2AltAz).
Local Abbreviation HA := (C.HA radians two_pi).
Local Abbreviation M5Depth := (C.M5Depth m5_flat_sed).
Local Abbreviation airmass_set := (C.airmass_set ud_grade).
Local Abbreviation skybrightness_set := (C.skybrightness_set ud_grade).
Local Abbreviation skybrightness_loop := (C.skybrightness_loop ud_grade).

Lemma dict_get_elem {V : Type} (k : string) (v : V) (d : C.dict V) :
  C.dict_get k d = Some v -> (k, v) ∈ d.
Proof.
  induction d as [|[k' v'] d IH]; cbn [C.dict_get]; [done|].
  destruct (String.eqb k k') eqn:E.
  - apply String.eqb_eq in E as <-. intros [= <-]. by left.
  - intros H. right. by apply IH.
Qed.

Lemma dict_set_keys {V : Type} (k : string) (v : V) (d : C.dict V) (x : string) :
  x ∈ (C.dict_set k v d).*1 -> x = k \/ x ∈ d.*1.
Proof.
  induction d as [|[k' v'] d IH]; cbn [C.dict_set fmap list_fmap fst].
  - intros ?%list_elem_of_singleton. by left.
  - destruct (String.eqb k k') eqn:E; cbn [fmap list_fmap fst].
    + apply String.eqb_eq in E as <-.
      intros [-> | ?]%elem_of_cons; [by left | right; by right].
    + intros [-> | Hx]%elem_of_cons; [right; by left|].
      destruct (IH Hx); [by left | right; by right].
Qed.

Lemma dict_set_NoDup {V : Type} (k : string) (v : V) (d : C.dict V) :
  NoDup d.*1 -> NoDup (C.dict_set k v d).*1.
Proof.
  induction d as [|[k' v'] d IH]; cbn [C.dict_set fmap list_fmap fst].
  - intros _. apply NoDup_singleton.
  - intros [Hk' Hnd]%NoDup_cons.
    destruct (String.eqb k k') eqn:E; cbn [fmap list_fmap fst].
    + apply String.eqb_eq in E as <-. by apply NoDup_cons.
    + apply NoDup_cons. split; [|by apply IH].
      intros [-> | Hin]%dict_set_keys; [|done].
      by rewrite String.eqb_refl in E.
Qed.

Lemma skybrightness_loop_frame indict : forall c e c',
  skybrightness_loop indict c = (e, c') ->
  C.unseen_map c' = C.unseen_map c /\ C.exptime c' = C.exptime c
  /\ (NoDup (C._skybrightness c).*1 -> NoDup (C._skybrightness c').*1).
Proof.
  induction indict as [|[key value] indict IH]; intros c e c';
    cbn [C.skybrightness_loop].
  - by intros [= <- <-].
  - destruct (ud_grade value (C.nside c)) as [m|]; [|by intros [= <- <-]].
    intros Hloop. apply IH in Hloop as (Hu & He & Hnd).
    split; [done|]. split; [done|]. intros Hc. apply Hnd.
    by apply dict_set_NoDup.
Qed.

(** A read that computes: the map of each sky-brightness filter, pixel by
    pixel, from the inputs stored in the object. *)
Lemma M5Depth_computed c d c1 f sky :
  M5Depth c = (Ok (Some d), c1) ->
  C._M5Depth c = None ->
  NoDup (C._skybrightness c).*1 ->
  (f, sky) ∈ C._skybrightness c ->
  C.unseen_map c = replicate (length sky) C.UNSEEN ->
  exists row fwhm air,
    C.dict_get f d = Some row
    /\ C.dict_get f (C._FWHMeff c) = Some fwhm /\ C._airmass c = Some air
    /\ m5_pixels m5_flat_sed f (C.exptime c) sky fwhm air row.
Proof.
  intros Hread Hc Hnd Hin Hunseen.
  unfold C.M5Depth, C.calc_M5Depth in Hread. rewrite Hc in Hread.
  destruct (C.calc_M5Depth_loop m5_flat_sed c (C._skybrightness c) [])
    as [[e|] d'] eqn:Hloop; [done|].
  cbn [C._M5Depth C.with_M5Depth] in Hread. injection Hread as <- _.
  destruct (calc_M5Depth_loop_lookup m5_flat_sed c f sky _ _ _ Hloop Hnd Hin)
    as (row & Hrow & Hd).
  destruct (m5_row_spec m5_flat_sed c f sky row Hrow Hunseen)
    as (fw & am & ? & ? & ? & ?).
  exists row, fw, am. unfold m5_pixels. done.
Qed.

Lemma np_put_returns {A : Type} (idx : list nat) : forall (a vals : list A),
  Forall (fun i => (i < length a)%nat) idx ->
  exists a', C.np_put a idx vals = Ok a'.
Proof.
  induction idx as [|i idx IH]; intros a vals Hall;
    destruct vals as [|v vals]; cbn [C.np_put]; eauto.
  apply Forall_cons in Hall as [Hi Hall].
  destruct (Nat.ltb_spec i (length a)) as [_|]; [|lia].
  apply IH. by rewrite length_insert.
Qed.

Lemma np_take_in_range (a : list Q) (idx : list nat) :
  Forall (fun i => (i < length a)%nat) idx ->
  np_take a idx = Ok (map (fun i => default 0%Q (a !! i)) idx).
Proof.
  intros Hall. apply np_take_total. eapply Forall_impl; [exact Hall|].
  intros i Hi. cbn beta in *.
  by destruct (lookup_lt_is_Some_2 a i Hi) as [x ->].
Qed.

(** With complete inputs the map of a filter is computed without an
    exception. *)
Lemma m5_row_returns c f sky fwhm air :
  length (C.unseen_map c) = length sky ->
  C.dict_get f (C._FWHMeff c) = Some fwhm -> C._airmass c = Some air ->
  (length sky <= length fwhm)%nat -> (length sky <= length air)%nat ->
  exists row, C.m5_row m5_flat_sed c f sky = Ok row.
Proof.
  intros Hgrid Hfw Hair Hlf Hla. unfold C.m5_row.
  set (good := np_where (map (fun v => negb (Qeq_bool v C.UNSEEN)) sky)).
  assert (Forall (fun i => (i < length sky)%nat) good) as Hgood.
  { apply Forall_forall. intros i Hi. apply elem_of_np_where in Hi.
    apply lookup_lt_Some in Hi. by rewrite length_map in Hi. }
  rewrite (np_take_in_range sky good Hgood). cbn [bind].
  rewrite Hfw, (np_take_in_range fwhm good). cbn [bind].
  2:{ eapply Forall_impl; [exact Hgood|]. intros i Hi. cbn beta in *. lia. }
  rewrite Hair, (np_take_in_range air good). cbn [bind].
  2:{ eapply Forall_impl; [exact Hgood|]. intros i Hi. cbn beta in *. lia. }
  match goal with
  | |- context [C.np_put ?a ?i ?v] =>
      destruct (np_put_returns i a v) as [filled ->]
  end.
  { eapply Forall_impl; [exact Hgood|]. intros i Hi. cbn beta in *. lia. }
  cbn [bind]. eauto.
Qed.

Lemma calc_M5Depth_loop_returns c items :
  Forall (fun kv => exists row, C.m5_row m5_flat_sed c kv.1 kv.2 = Ok row)
    items ->
  forall acc, exists d, C.calc_M5Depth_loop m5_flat_sed c items acc = (None, d).
Proof.
  induction 1 as [|[k sky] items [row Hrow] _ IH]; intros acc;
    cbn [C.calc_M5Depth_loop]; [eauto|].
  cbn [fst snd] in Hrow. rewrite Hrow. apply IH.
Qed.

(** A read on an empty cache returns when the inputs are complete. *)
Lemma M5Depth_returns c :
  C._M5Depth c = None -> m5_inputs_complete c ->
  exists d, M5Depth c = (Ok (Some d), C.with_M5Depth (Some d) c).
Proof.
  intros Hc Hall. unfold C.M5Depth, C.calc_M5Depth. rewrite Hc.
  assert (Forall (fun kv => exists row,
                      C.m5_row m5_flat_sed c kv.1 kv.2 = Ok row)
            (C._skybrightness c)) as Hrows.
  { eapply Forall_impl; [exact Hall|].
    intros [k sky] (Hgrid & fwhm & air & Hfw & Hair & Hlf & Hla).
    by eapply m5_row_returns. }
  destruct (calc_M5Depth_loop_returns c _ Hrows []) as [d ->].
  by exists d.
Qed.

(** C3, as the code has it, for writes and reads that return.  A write of
    the time clears the cached altitude and azimuth, a write of the local
    sidereal time clears the cached hour angle, and a write of the airmass,
    the sky brightness or the seeing clears the cached limiting magnitude.
    The read that follows computes the field from the inputs as they are
    after the write, whatever was cached: altitude and azimuth from the new
    time, the hour angle from the new sidereal time, and the limiting
    magnitude of a filter, pixel by pixel, from the airmass just written
    (resampled), from the seeing map just written, or from the sky
    brightness just written (resampled), with the other inputs as stored;
    and a read on a cleared cache returns whenever the inputs are complete.
    A second read with no write in between returns the value of the first
    and leaves the object as it is (for the limiting magnitude: when the
    first read returned a value). *)
Theorem conditions_cache_invalidation c :
  (forall v, C._alt (C.mjd_set v c) = None /\ C._az (C.mjd_set v c) = None
             /\ C._mjd (C.mjd_set v c) = Some v)
  /\ (forall v, C._HA (C.lmst_set v c) = None
                /\ C._lmst (C.lmst_set v c) = Some v)
  /\ (forall v c', airmass_set v c = Ok c' -> C._M5Depth c' = None)
  /\ (forall d c', skybrightness_set d c = (None, c') -> C._M5Depth c' = None)
  /\ (forall d, C._M5Depth (C.FWHMeff_set d c) = None)
  /\ (forall v a z,
        let fresh := _approx_RaDec2AltAz (C.ra c) (C.dec c) (C.latitude_rad c)
                       (C.longitude_rad c) (Some v) in
        fst (alt (C.mjd_set v (C.with_altaz a z c)))
        = match fresh with Ok p => Ok (Some (fst p)) | Raise e => Raise e end
        /\ fst (az (C.mjd_set v (C.with_altaz a z c)))
           = match fresh with Ok p => Ok (Some (snd p)) | Raise e => Raise e end)
  /\ (forall v h,
        fst (HA (C.lmst_set v (C.with_HA h c)))
        = Ok (Some (map (fun x => if Qltb x 0 then (x + two_pi)%Q else x)
                      (map (fun r => (radians (v * 360 / 24) - r)%Q) (C.ra c)))))
  /\ (forall v c1 d c2 f sky,
        airmass_set v c = Ok c1 ->
        M5Depth c1 = (Ok (Some d), c2) ->
        NoDup (C._skybrightness c).*1 ->
        (f, sky) ∈ C._skybrightness c ->
        C.unseen_map c = replicate (length sky) C.UNSEEN ->
        exists air fwhm row,
          ud_grade v (C.nside c) = Ok air
          /\ C.dict_get f (C._FWHMeff c) = Some fwhm
          /\ C.dict_get f d = Some row
          /\ m5_pixels m5_flat_sed f (C.exptime c) sky fwhm air row)
  /\ (forall indict d c2 f sky fwhm,
        NoDup indict.*1 -> (f, fwhm) ∈ indict ->
        M5Depth (C.FWHMeff_set indict c) = (Ok (Some d), c2) ->
        NoDup (C._skybrightness c).*1 ->
        (f, sky) ∈ C._skybrightness c ->
        C.unseen_map c = replicate (length sky) C.UNSEEN ->
        exists air row,
          C._airmass c = Some air
          /\ C.dict_get f d = Some row
          /\ m5_pixels m5_flat_sed f (C.exptime c) sky fwhm air row)
  /\ (forall indict c1 d c2 f v,
        skybrightness_set indict c = (None, c1) ->
        NoDup indict.*1 -> (f, v) ∈ indict ->
        NoDup (C._skybrightness c).*1 ->
        M5Depth c1 = (Ok (Some d), c2) ->
        exists sky,
          ud_grade v (C.nside c) = Ok sky
          /\ (C.unseen_map c = replicate (length sky) C.UNSEEN ->
              exists fwhm air row,
                C.dict_get f (C._FWHMeff c) = Some fwhm
                /\ C._airmass c = Some air
                /\ C.dict_get f d = Some row
                /\ m5_pixels m5_flat_sed f (C.exptime c) sky fwhm air row))
  /\ (C._M5Depth c = None -> m5_inputs_complete c ->
      exists d, M5Depth c = (Ok (Some d), C.with_M5Depth (Some d) c))
  /\ alt (snd (alt c)) = (fst (alt c), snd (alt c))
  /\ az (snd (az c)) = (fst (az c), snd (az c))
  /\ HA (snd (HA c)) = (fst (HA c), snd (HA c))
  /\ (forall r c1, M5Depth c = (Ok r, c1) -> M5Depth c1 = (Ok r, c1)).
Proof.
  destruct (cache_clears_and_reads_stable ud_grade _approx_RaDec2AltAz
              m5_flat_sed radians two_pi c)
    as (H1 & H2 & _ & H3 & H4 & H5 & H6 & H7 & _ & _ & _ & _
        & H8 & H9 & H10 & H11).
  split; [exact H1|]. split; [exact H2|]. split; [exact H3|].
  split; [exact H4|]. split; [exact H5|]. split; [exact H6|].
  split; [exact H7|]. split; [|split; [|split]].
  - intros v c1 d c2 f sky Hset Hread Hnd Hin Hunseen.
    unfold C.airmass_set in Hset.
    destruct (ud_grade v (C.nside c)) as [air|]; [|done].
    cbn [bind] in Hset. injection Hset as <-.
    destruct (M5Depth_computed _ d c2 f sky Hread eq_refl Hnd Hin Hunseen)
      as (row & fwhm & air' & Hrow & Hfw & Hair & Hpix).
    cbn in Hfw, Hair, Hpix. injection Hair as <-.
    by exists air, fwhm, row.
  - intros indict d c2 f sky fwhm Hndi Hfi Hread Hnd Hin Hunseen.
    destruct (M5Depth_computed _ d c2 f sky Hread eq_refl Hnd Hin Hunseen)
      as (row & fwhm' & air & Hrow & Hfw & Hair & Hpix).
    destruct (foldl_dict_set indict (C._FWHMeff c) Hndi) as [Hwritten _].
    cbn in Hfw, Hair, Hpix. rewrite (Hwritten f fwhm Hfi) in Hfw.
    injection Hfw as <-. by exists air, row.
  - intros indict c1 d c2 f v Hset Hndi Hfi Hnd Hread.
    unfold C.skybrightness_set in Hset.
    destruct (skybrightness_loop indict c) as [[e|] c0] eqn:Hloop; [done|].
    injection Hset as <-.
    destruct (skybrightness_loop_written ud_grade _ _ _ Hloop Hndi)
      as [Hwritten _].
    destruct (Hwritten f v Hfi) as (sky & Hsky & Hget).
    exists sky. split; [exact Hsky|]. intros Hunseen.
    destruct (skybrightness_loop_frame _ _ _ _ Hloop) as (Hu & He & Hnd0).
    destruct (skybrightness_loop_fields ud_grade _ _ _ _ Hloop)
      as (_ & _ & Hf & Ha).
    destruct (M5Depth_computed (C.with_M5Depth None c0) d c2 f sky Hread
                eq_refl) as (row & fwhm & air & Hrow & Hfw & Hair & Hpix).
    + by apply Hnd0.
    + by apply dict_get_elem.
    + cbn. by rewrite Hu.
    + cbn in Hfw, Hair, Hpix. rewrite Hf in Hfw. rewrite Ha in Hair.
      rewrite He in Hpix. by exists fwhm, air, row.
  - split; [by apply M5Depth_returns|].
    split; [exact H8|]. split; [exact H9|]. split; [exact H10 | exact H11].
Qed.
End ConditionsRecompute.

(** *** On examples *)

(** C3 as stated fails where a read or a write raises.  With a sky
    brightness but no seeing, the first read of the limiting magnitude
    raises [KeyError] and the second returns a value, the unfinished
    dictionary.  And a sky-brightness write whose second map the resampler
    refuses has already replaced the first map (21 by 20) but leaves the
    cache: the next read still returns the depth computed from 21, not the
    one a computation from the stored inputs gives. *)
Lemma conditions_raising_read_and_write :
  (let c := conditions_sky_only in
   (C.M5Depth m5_toy c).1 = Raise KeyError
   /\ (C.M5Depth m5_toy (C.M5Depth m5_toy c).2).1
      = Ok (Some [("r", map Depth (replicate 12 C.UNSEEN))]))
  /\ (let c := (C.M5Depth m5_toy conditions_r_or_init).2 in
      let w := C.skybrightness_set ud_nearest
                 [("r", replicate 12 20%Q); ("g", [])] c in
      w.1 = Some ValueError
      /\ C.dict_get "r" (C.skybrightness w.2) = Some (replicate 12 20%Q)
      /\ m5_at (C.M5Depth m5_toy w.2).1 "r" 0 = Some (Depth (21 - 7 / 10 - 1))
      /\ m5_at (C.M5Depth m5_toy (C.with_M5Depth None w.2)).1 "r" 0
         = Some (Depth (20 - 7 / 10 - 1))).
Proof. by vm_compute. Qed.

(** A read caches the depth computed with an airmass of 1.  After an
    airmass of 2 is written the depth read in r at pixel 0 is computed
    from 2, and a second read returns the same dictionary. *)
Lemma conditions_cache_invalidation_witness :
  let read0 := C.M5Depth m5_toy conditions_r_or_init in
  m5_at read0.1 "r" 0 = Some (Depth (21 - 7 / 10 - 1))
  /\ match C.airmass_set ud_nearest (replicate 12 2%Q) read0.2 with
     | Ok c1 =>
         match C.M5Depth m5_toy c1 with
         | (Ok (Some d), c2) =>
             m5_at (Ok (Some d)) "r" 0 = Some (Depth (21 - 7 / 10 - 2))
             /\ C.M5Depth m5_toy c2 = (Ok (Some d), c2)
         | _ => False
         end
     | Raise _ => False
     end.
Proof.
  intros read0. split; [by vm_compute|].
  destruct (C.airmass_set ud_nearest (replicate 12 2%Q) read0.2)
    as [c1|e] eqn:Hset; [|by vm_compute in Hset].
  destruct (C.M5Depth m5_toy c1) as [[[d|]|e] c2] eqn:Hread.
  - destruct (conditions_cache_invalidation ud_nearest altaz_toy m5_toy id 6
                read0.2)
      as (_ & _ & _ & _ & _ & _ & _ & Hair & _ & _ & _ & _ & _ & _).
    destruct (Hair _ c1 d c2 "r" (replicate 12 21%Q) Hset Hread)
      as (air & fwhm & row & Hud & Hfw & Hrow & _ & Hpix).
    + change (NoDup ["r"]). apply NoDup_singleton.
    + change (("r", replicate 12 21%Q) ∈ [("r", replicate 12 21%Q)]).
      apply list_elem_of_singleton. reflexivity.
    + reflexivity.
    + split.
      * cbn [m5_at]. rewrite Hrow.
        specialize (Hpix 0%nat 21%Q eq_refl).
        change (Qeq_bool 21 C.UNSEEN) with false in Hpix.
        destruct Hpix as (w & a & Hw & Ha & ->).
        vm_compute in Hud. injection Hud as <-.
        vm_compute in Hfw. injection Hfw as <-.
        vm_compute in Hw. injection Hw as <-.
        vm_compute in Ha. injection Ha as <-.
        by vm_compute.
      * destruct (conditions_cache_invalidation ud_nearest altaz_toy m5_toy
                    id 6 c1)
          as (_ & _ & _ & _ & _ & _ & _ & _ & _ & _ & _ & _ & _ & _
              & Hstable).
        by apply Hstable.
  - vm_compute in Hset. injection Hset as <-. by vm_compute in Hread.
  - vm_compute in Hset. injection Hset as <-. by vm_compute in Hread.
Defined.
